(** * deep_pack: replay buffers, masked Q-network policy and metrics callback

    A shallow embedding of

    - [deep_pack/common/buffers.py]   ([ReplayBuffer], [DictReplayBuffer]),
    - [deep_pack/ddqn/policies.py]    ([QNetwork], [DQNPolicy]),
    - [deep_pack/common/callbacks.py] ([MetricsCallback]),

    together with the properties stated about them.

    Python objects that are mutated in place are modelled by explicit state
    passing in a state-and-exception monad: a raising call keeps the writes
    it made before it raised, as the Python object does.  The global numpy
    random generator is a piece of state of its own. *)

From Stdlib Require Import ZArith Lia.
From Stdlib Require Import Floats.SpecFloat.
From stdpp Require Import gmap strings list.

Local Open Scope Z_scope.

(** ** Python and numpy prelude *)

Module Py.

(** The exceptions the modelled code can raise. *)
Inductive exn : Type :=
| ValueError (msg : string)
| AssertionError (msg : string)
| ZeroDivisionError
| IndexError
| KeyError (key : string)
| TypeError
| AttributeError (attr : string)
| RuntimeError.

Inductive result (A : Type) : Type :=
| Ok (a : A)
| Raise (e : exn).
Arguments Ok {A} a.
Arguments Raise {A} e.

(** A computation over a mutable state [S]: it returns a value or raises,
    and in both cases leaves a state behind. *)
Definition M (S A : Type) : Type := S -> result A * S.

Definition ret {S A} (a : A) : M S A := fun s => (Ok a, s).

Definition bind {S A B} (m : M S A) (k : A -> M S B) : M S B :=
  fun s => match m s with
           | (Ok a, s') => k a s'
           | (Raise e, s') => (Raise e, s')
           end.

Definition raise {S A} (e : exn) : M S A := fun s => (Raise e, s).
Definition get {S} : M S S := fun s => (Ok s, s).
Definition modify {S} (f : S -> S) : M S unit := fun s => (Ok tt, f s).

(** A pure, possibly raising, step run inside a stateful computation. *)
Definition lift {S A} (r : result A) : M S A := fun s => (r, s).

Definition when {S} (c : bool) (m : M S unit) : M S unit :=
  if c then m else ret tt.

(** [for x in l: body x] *)
Fixpoint for_each {S A} (l : list A) (body : A -> M S unit) : M S unit :=
  match l with
  | [] => ret tt
  | x :: l' => bind (body x) (fun _ => for_each l' body)
  end.

Fixpoint mapM {S A B} (f : A -> M S B) (l : list A) : M S (list B) :=
  match l with
  | [] => ret []
  | x :: l' => bind (f x) (fun y => bind (mapM f l') (fun ys => ret (y :: ys)))
  end.

(** The same monad without state, for pure helpers. *)
Definition rbind {A B} (r : result A) (k : A -> result B) : result B :=
  match r with
  | Ok a => k a
  | Raise e => Raise e
  end.

Fixpoint rmapM {A B} (f : A -> result B) (l : list A) : result (list B) :=
  match l with
  | [] => Ok []
  | x :: l' => rbind (f x) (fun y => rbind (rmapM f l') (fun ys => Ok (y :: ys)))
  end.

(** [a // b] on Python integers: floor division, as [Z.div]. *)
Definition floordiv (a b : Z) : result Z :=
  if b =? 0 then Raise ZeroDivisionError else Ok (a / b).

(** [a % b] on Python integers: the sign of the divisor, as [Z.modulo]. *)
Definition mod_ (a b : Z) : result Z :=
  if b =? 0 then Raise ZeroDivisionError else Ok (a mod b).

(** [d[key]] on a Python dict. *)
Definition dict_getitem {V} (d : gmap string V) (key : string) : result V :=
  match d !! key with
  | Some v => Ok v
  | None => Raise (KeyError key)
  end.

(** [key in d] *)
Definition dict_contains {V} (d : gmap string V) (key : string) : bool :=
  bool_decide (is_Some (d !! key)).

End Py.

Import Py.

Declare Scope py_scope.
Delimit Scope py_scope with py.
Notation "x <- m ;; k" := (bind m (fun x => k))
  (at level 100, m at next level, right associativity) : py_scope.
Notation "m ;; k" := (bind m (fun _ => k))
  (at level 100, right associativity) : py_scope.
Notation "x <~ r ;; k" := (rbind r (fun x => k))
  (at level 100, r at next level, right associativity) : py_scope.
Local Open Scope py_scope.

(** ** IEEE-754 binary32, the dtype of [rewards], [dones], [timeouts] and
    [truth_masks] *)

Module F32.

Definition float32 : Type := spec_float.

Definition prec : Z := 24.
Definition emax : Z := 128.

Definition zero : float32 := S754_zero false.
Definition one : float32 := S754_finite false 8388608 (-23).

Definition mul : float32 -> float32 -> float32 := SFmul prec emax.
Definition sub : float32 -> float32 -> float32 := SFsub prec emax.

(** Storing a Python [bool] into a float32 array. *)
Definition of_bool (b : bool) : float32 := if b then one else zero.

End F32.

Import F32.

(** ** numpy arrays as nested lists *)

Module Np.

(** Normalisation of a possibly negative index into an axis of length [n]. *)
Definition index (n : nat) (i : Z) : result nat :=
  if (0 <=? i) && (i <? Z.of_nat n) then Ok (Z.to_nat i)
  else if (- Z.of_nat n <=? i) && (i <? 0) then Ok (Z.to_nat (i + Z.of_nat n))
  else Raise IndexError.

(** [a[i]] *)
Definition getitem {A} (a : list A) (i : Z) : result A :=
  k <~ index (length a) i ;;
  match a !! k with
  | Some x => Ok x
  | None => Raise IndexError
  end.

(** [a[i, e]] on a two-axis array. *)
Definition getitem2 {A} (a : list (list A)) (i e : Z) : result A :=
  row <~ getitem a i ;; getitem row e.

(** [a[inds, envs]] with two index arrays of the same length. *)
Definition take2 {A} (a : list (list A)) (inds envs : list Z) : result (list A) :=
  rmapM (fun ie => getitem2 a (fst ie) (snd ie)) (zip inds envs).

(** Broadcasting of a value with leading axis [length row] to a leading
    axis of length [n]: equal lengths, or a single entry that is repeated. *)
Definition broadcast_to {A} (n : nat) (row : list A) : result (list A) :=
  if decide (length row = n) then Ok row
  else match row with
       | [x] => Ok (replicate n x)
       | _ => Raise (ValueError "could not broadcast input array")
       end.

(** [a[i] = row] where [a] has shape [(len a, n, ...)]. *)
Definition setrow {A} (n : nat) (a : list (list A)) (i : Z) (row : list A)
  : result (list (list A)) :=
  k <~ index (length a) i ;;
  row' <~ broadcast_to n row ;;
  Ok (<[k := row']> a).

(** [x.reshape((n, d))] seen at the first axis: the entries must be exactly
    [n]. *)
Definition reshape_rows {A} (n : nat) (row : list A) : result (list A) :=
  if decide (length row = n) then Ok row
  else Raise (ValueError "cannot reshape array").

(** The arrays allocated so far, by shape. *)
Definition Heap : Type := list (list Z).

(** What one entry of a two-axis array holds: a scalar of some dtype or an
    array of the trailing shape.  [zeros_like shape] is its all-zero value. *)
Class Cell (A : Type) : Type := zeros_like : list Z -> A.

#[export] Instance float32_cell : Cell float32 := fun _ => zero.

(** An integer dtype. *)
#[export] Instance int_cell : Cell Z := fun _ => 0.

#[export] Instance vector_cell {A} `{Cell A} : Cell (list A) :=
  fun shape => match shape with
               | [] => []
               | d :: rest => replicate (Z.to_nat d) (zeros_like rest)
               end.

(** [np.zeros((d0, d1, *rest))]: the allocation is recorded in the heap. *)
Definition zeros {A} `{Cell A} (d0 d1 : Z) (rest : list Z) : M Heap (list (list A)) :=
  if forallb (fun d => 0 <=? d) (d0 :: d1 :: rest) then
    modify (fun h => h ++ [d0 :: d1 :: rest]) ;;
    ret (replicate (Z.to_nat d0) (replicate (Z.to_nat d1) (zeros_like rest)))
  else raise (ValueError "negative dimensions are not allowed").

(** [x % n] on an integer array: a zero divisor gives 0 (with a warning),
    not an exception. *)
Definition mod_ (x n : Z) : Z := if n =? 0 then 0 else x mod n.

(** The global generator: the raw values it will produce, consumed from
    index 0.  Every outcome of [randint] is obtained from some generator. *)
Definition RandomState : Type := nat -> Z.

(** [np.random.randint(low, high, size=size)].  An empty result is returned
    before the bounds are looked at, and the bounds before a negative size
    is refused. *)
Definition randint (low high size : Z) : M RandomState (list Z) :=
  if size =? 0 then ret []
  else if high <=? low then raise (ValueError "low >= high")
  else if size <? 0 then raise (ValueError "negative dimensions are not allowed")
  else
    rs <- get ;;
    modify (fun rs k => rs (k + Z.to_nat size)%nat) ;;
    ret (map (fun k => low + rs k mod (high - low)) (seq 0 (Z.to_nat size))).

End Np.

Import Np.

(** ** [stable_baselines3.common.buffers.BaseBuffer]

    The base class of both buffers belongs to the host framework.  What the
    derived classes rely on is written out here: the fields it initialises
    ([pos = 0], [full = False]), its [sample], and the normalisation hooks,
    which are the identity when no [VecNormalize] wrapper is passed. *)

Module BaseBuffer.

(** [get_obs_shape(observation_space)]: a tuple, or a dict of tuples for a
    [spaces.Dict]. *)
Inductive ObsShape : Type :=
| ShapeTuple (shape : list Z)
| ShapeDict (shapes : gmap string (list Z)).

(** The state of a buffer object.  [O] is the storage of the observations:
    one array for [ReplayBuffer], a dict of arrays for [DictReplayBuffer].
    [next_observations] is an attribute that is only set when the memory
    optimisation is off. *)
Record Buffer (O Act : Type) : Type := mkBuffer {
  buffer_size : Z;
  n_envs : Z;
  pos : Z;
  full : bool;
  optimize_memory_usage : bool;
  handle_timeout_termination : bool;
  observations : O;
  next_observations : option O;
  actions : list (list Act);
  rewards : list (list float32);
  dones : list (list float32);
  timeouts : list (list float32);
  truth_masks : list (list (list float32));
}.
Arguments mkBuffer {O Act}.
Arguments buffer_size {O Act}.
Arguments n_envs {O Act}.
Arguments pos {O Act}.
Arguments full {O Act}.
Arguments optimize_memory_usage {O Act}.
Arguments handle_timeout_termination {O Act}.
Arguments observations {O Act}.
Arguments next_observations {O Act}.
Arguments actions {O Act}.
Arguments rewards {O Act}.
Arguments dones {O Act}.
Arguments timeouts {O Act}.
Arguments truth_masks {O Act}.

Section Setters.
Context {O Act : Type}.
Implicit Type b : Buffer O Act.

Definition set_pos (v : Z) b : Buffer O Act :=
  mkBuffer (buffer_size b) (n_envs b) v (full b) (optimize_memory_usage b)
    (handle_timeout_termination b) (observations b) (next_observations b)
    (actions b) (rewards b) (dones b) (timeouts b) (truth_masks b).

Definition set_full (v : bool) b : Buffer O Act :=
  mkBuffer (buffer_size b) (n_envs b) (pos b) v (optimize_memory_usage b)
    (handle_timeout_termination b) (observations b) (next_observations b)
    (actions b) (rewards b) (dones b) (timeouts b) (truth_masks b).

Definition set_observations (v : O) b : Buffer O Act :=
  mkBuffer (buffer_size b) (n_envs b) (pos b) (full b) (optimize_memory_usage b)
    (handle_timeout_termination b) v (next_observations b)
    (actions b) (rewards b) (dones b) (timeouts b) (truth_masks b).

Definition set_next_observations (v : O) b : Buffer O Act :=
  mkBuffer (buffer_size b) (n_envs b) (pos b) (full b) (optimize_memory_usage b)
    (handle_timeout_termination b) (observations b) (Some v)
    (actions b) (rewards b) (dones b) (timeouts b) (truth_masks b).

Definition set_actions (v : list (list Act)) b : Buffer O Act :=
  mkBuffer (buffer_size b) (n_envs b) (pos b) (full b) (optimize_memory_usage b)
    (handle_timeout_termination b) (observations b) (next_observations b)
    v (rewards b) (dones b) (timeouts b) (truth_masks b).

Definition set_rewards (v : list (list float32)) b : Buffer O Act :=
  mkBuffer (buffer_size b) (n_envs b) (pos b) (full b) (optimize_memory_usage b)
    (handle_timeout_termination b) (observations b) (next_observations b)
    (actions b) v (dones b) (timeouts b) (truth_masks b).

Definition set_dones (v : list (list float32)) b : Buffer O Act :=
  mkBuffer (buffer_size b) (n_envs b) (pos b) (full b) (optimize_memory_usage b)
    (handle_timeout_termination b) (observations b) (next_observations b)
    (actions b) (rewards b) v (timeouts b) (truth_masks b).

Definition set_timeouts (v : list (list float32)) b : Buffer O Act :=
  mkBuffer (buffer_size b) (n_envs b) (pos b) (full b) (optimize_memory_usage b)
    (handle_timeout_termination b) (observations b) (next_observations b)
    (actions b) (rewards b) (dones b) v (truth_masks b).

Definition set_truth_masks (v : list (list (list float32))) b : Buffer O Act :=
  mkBuffer (buffer_size b) (n_envs b) (pos b) (full b) (optimize_memory_usage b)
    (handle_timeout_termination b) (observations b) (next_observations b)
    (actions b) (rewards b) (dones b) (timeouts b) v.

(** [self.arr[i] = np.array(row)] for one of the two-axis arrays. *)
Definition assign {A} (arr : Buffer O Act -> list (list A))
    (set_arr : list (list A) -> Buffer O Act -> Buffer O Act)
    (i : Z) (row : list A) : M (Buffer O Act) unit :=
  b <- get ;;
  a <- lift (setrow (Z.to_nat (n_envs b)) (arr b) i row) ;;
  modify (set_arr a).

(** The tail shared by both [add] methods:
    [self.pos += 1; if self.pos == self.buffer_size: self.full = True; self.pos = 0]. *)
Definition advance : M (Buffer O Act) unit :=
  modify (fun b => set_pos (pos b + 1) b) ;;
  b <- get ;;
  when (pos b =? buffer_size b)
    (modify (set_full true) ;; modify (set_pos 0)).

End Setters.

(** A [VecNormalize] wrapper, as far as the buffers call it.  [B] is a
    batch of observations. *)
Record VecNormalize (B : Type) : Type := {
  normalize_obs : B -> B;
  normalize_reward : list float32 -> list float32;
}.
Arguments normalize_obs {B}.
Arguments normalize_reward {B}.

Definition _normalize_obs {B} (obs : B) (env : option (VecNormalize B)) : B :=
  match env with
  | Some e => normalize_obs e obs
  | None => obs
  end.

Definition _normalize_reward {B} (reward : list float32) (env : option (VecNormalize B))
  : list float32 :=
  match env with
  | Some e => normalize_reward e reward
  | None => reward
  end.

(** [BaseBuffer.sample]: uniform indices below the number of filled slots,
    handed to the subclass's [_get_samples]. *)
Definition sample {O Act B R} (b : Buffer O Act)
    (_get_samples : list Z -> option (VecNormalize B) -> M RandomState R)
    (batch_size : Z) (env : option (VecNormalize B)) : M RandomState R :=
  let upper_bound := if full b then buffer_size b else pos b in
  batch_inds <- randint 0 upper_bound batch_size ;;
  _get_samples batch_inds env.

End BaseBuffer.

Import BaseBuffer.

(** The named tuples [ReplayBufferSamples] and [DictReplayBufferSamples]:
    [B] is a batch of observations. *)
Module Samples.

Record t (B Act : Type) : Type := mk {
  observations : B;
  actions : list Act;
  next_observations : B;
  dones : list float32;
  rewards : list float32;
  truth_masks : list (list float32);
}.
Arguments mk {B Act}.
Arguments observations {B Act}.
Arguments actions {B Act}.
Arguments next_observations {B Act}.
Arguments dones {B Act}.
Arguments rewards {B Act}.
Arguments truth_masks {B Act}.

End Samples.

(** ** [class ReplayBuffer(BaseBuffer)] *)

Module ReplayBuffer.

Section ReplayBuffer.
Context {Obs Act : Type} `{!Cell Obs} `{!Cell Act}.

Local Abbreviation RB := (Buffer (list (list Obs)) Act).
Local Abbreviation Env := (option (VecNormalize (list Obs))).

(** [*self.obs_shape] inside a shape tuple: the entries of a tuple, the
    keys of a dict (strings, which [np.zeros] refuses as dimensions). *)
Definition unpack_obs_shape (obs_shape : ObsShape) : result (list Z) :=
  match obs_shape with
  | ShapeTuple shape => Ok shape
  | ShapeDict shapes => if decide (shapes = ∅) then Ok [] else Raise TypeError
  end.

(** [ReplayBuffer.__init__].  [action_dim] and [action_n] stand for
    [get_action_dim(action_space)] and [action_space.n].  The [psutil]
    block only emits a warning and is left out. *)
Definition __init__ (buffer_size : Z) (obs_shape : ObsShape) (action_dim action_n : Z)
    (n_envs : Z) (optimize_memory_usage handle_timeout_termination : bool)
  : M Heap RB :=
  (* super().__init__(...): stores the arguments, pos = 0, full = False *)
  q <- lift (floordiv buffer_size n_envs) ;;
  let buffer_size := Z.max q 1 in
  if optimize_memory_usage && handle_timeout_termination then
    raise (ValueError
      "ReplayBuffer does not support optimize_memory_usage = True and handle_timeout_termination = True simultaneously.")
  else
    shape <- lift (unpack_obs_shape obs_shape) ;;
    observations <- zeros buffer_size n_envs shape ;;
    next_observations <-
      (if negb optimize_memory_usage
       then o <- zeros buffer_size n_envs shape ;; ret (Some o)
       else ret None) ;;
    actions <- zeros buffer_size n_envs [action_dim] ;;
    rewards <- zeros buffer_size n_envs [] ;;
    dones <- zeros buffer_size n_envs [] ;;
    timeouts <- zeros buffer_size n_envs [] ;;
    truth_masks <- zeros buffer_size n_envs [action_n] ;;
    ret (mkBuffer buffer_size n_envs 0 false optimize_memory_usage
           handle_timeout_termination observations next_observations
           actions rewards dones timeouts truth_masks).

(** [self.next_observations[self.pos] = ...]: the attribute must exist. *)
Definition assign_next_observations (i : Z) (row : list Obs) : M RB unit :=
  b <- get ;;
  match next_observations b with
  | Some a =>
      a' <- lift (setrow (Z.to_nat (n_envs b)) a i row) ;;
      modify (set_next_observations a')
  | None => raise (AttributeError "next_observations")
  end.

(** [[info.get("TimeLimit.truncated", False) for info in infos]] *)
Definition truncated (infos : list (gmap string bool)) : list bool :=
  map (fun info => default false (info !! "TimeLimit.truncated"%string)) infos.

(** [ReplayBuffer.add].  Every argument has one entry per environment;
    [done] and the truncation flags of [infos] are Python bools, stored as
    0.0 and 1.0.  The reshape of a [spaces.Discrete] observation only adds a
    trailing axis of length one inside an entry and is not visible here. *)
Definition add (obs next_obs : list Obs) (action : list Act) (reward : list float32)
    (done : list bool) (infos : list (gmap string bool))
    (truth_mask : list (list float32)) : M RB unit :=
  b <- get ;;
  action <- lift (reshape_rows (Z.to_nat (n_envs b)) action) ;;
  assign observations set_observations (pos b) obs ;;
  (if optimize_memory_usage b
   then i <- lift (Py.mod_ (pos b + 1) (buffer_size b)) ;;
        assign observations set_observations i next_obs
   else assign_next_observations (pos b) next_obs) ;;
  assign actions set_actions (pos b) action ;;
  assign rewards set_rewards (pos b) reward ;;
  assign dones set_dones (pos b) (map of_bool done) ;;
  when (handle_timeout_termination b)
    (assign timeouts set_timeouts (pos b) (map of_bool (truncated infos))) ;;
  assign truth_masks set_truth_masks (pos b) truth_mask ;;
  advance.

(** [ReplayBuffer._get_samples]; [to_torch] changes the container only. *)
Definition _get_samples (b : RB) (batch_inds : list Z) (env : Env)
  : M RandomState (Samples.t (list Obs) Act) :=
  env_indices <- randint 0 (n_envs b) (Z.of_nat (length batch_inds)) ;;
  next_obs <- lift
    (if optimize_memory_usage b
     then take2 (observations b)
            (map (fun i => mod_ (i + 1) (buffer_size b)) batch_inds) env_indices
     else match next_observations b with
          | Some a => take2 a batch_inds env_indices
          | None => Raise (AttributeError "next_observations")
          end) ;;
  obs <- lift (take2 (observations b) batch_inds env_indices) ;;
  acts <- lift (take2 (actions b) batch_inds env_indices) ;;
  d <- lift (take2 (dones b) batch_inds env_indices) ;;
  t <- lift (take2 (timeouts b) batch_inds env_indices) ;;
  r <- lift (take2 (rewards b) batch_inds env_indices) ;;
  masks <- lift (take2 (truth_masks b) batch_inds env_indices) ;;
  ret (Samples.mk
         (_normalize_obs obs env)
         acts
         (_normalize_obs next_obs env)
         (zip_with mul d (map (sub one) t))
         (_normalize_reward r env)
         masks).

(** The batch indices [sample] draws in the memory-optimised branch
    (the [if self.full: ... else: ...] of [sample]). *)
Definition optimized_batch_inds (b : RB) (batch_size : Z) : M RandomState (list Z) :=
  if full b
  then r <- randint 1 (buffer_size b) batch_size ;;
       ret (map (fun x => mod_ (x + pos b) (buffer_size b)) r)
  else randint 0 (pos b) batch_size.

(** [ReplayBuffer.sample] *)
Definition sample (b : RB) (batch_size : Z) (env : Env)
  : M RandomState (Samples.t (list Obs) Act) :=
  if negb (optimize_memory_usage b) then
    BaseBuffer.sample b (_get_samples b) batch_size env
  else
    batch_inds <- optimized_batch_inds b batch_size ;;
    _get_samples b batch_inds env.

End ReplayBuffer.

End ReplayBuffer.

(** ** [class DictReplayBuffer(ReplayBuffer)] *)

Module DictReplayBuffer.

Section DictReplayBuffer.
Context {Obs Act : Type} `{!Cell Obs} `{!Cell Act}.

Local Abbreviation DB := (Buffer (gmap string (list (list Obs))) Act).
Local Abbreviation Env := (option (VecNormalize (gmap string (list Obs)))).

(** [{key: np.zeros((buffer_size, n_envs, *_obs_shape)) for key, _obs_shape in obs_shape.items()}] *)
Definition zeros_dict (buffer_size n_envs : Z) (shapes : gmap string (list Z))
  : M Heap (gmap string (list (list Obs))) :=
  kvs <- mapM (fun kv => a <- zeros buffer_size n_envs (snd kv) ;; ret (fst kv, a))
              (map_to_list shapes) ;;
  ret (list_to_map kvs).

(** [DictReplayBuffer.__init__] *)
Definition __init__ (buffer_size : Z) (obs_shape : ObsShape) (action_dim action_n : Z)
    (n_envs : Z) (optimize_memory_usage handle_timeout_termination : bool)
  : M Heap DB :=
  (* super(ReplayBuffer, self).__init__(...): pos = 0, full = False *)
  match obs_shape with
  | ShapeTuple _ =>
      raise (AssertionError "DictReplayBuffer must be used with Dict obs space only")
  | ShapeDict shapes =>
      q <- lift (floordiv buffer_size n_envs) ;;
      let buffer_size := Z.max q 1 in
      if optimize_memory_usage then
        raise (AssertionError "DictReplayBuffer does not support optimize_memory_usage")
      else
        observations <- zeros_dict buffer_size n_envs shapes ;;
        next_observations <- zeros_dict buffer_size n_envs shapes ;;
        actions <- zeros buffer_size n_envs [action_dim] ;;
        rewards <- zeros buffer_size n_envs [] ;;
        dones <- zeros buffer_size n_envs [] ;;
        timeouts <- zeros buffer_size n_envs [] ;;
        truth_masks <- zeros buffer_size n_envs [action_n] ;;
        ret (mkBuffer buffer_size n_envs 0 false optimize_memory_usage
               handle_timeout_termination observations (Some next_observations)
               actions rewards dones timeouts truth_masks)
  end.

(** [self.observations[key][self.pos] = np.array(obs[key])] *)
Definition assign_obs (obs : gmap string (list Obs)) (key : string) : M DB unit :=
  b <- get ;;
  row <- lift (dict_getitem obs key) ;;
  a <- lift (dict_getitem (observations b) key) ;;
  a' <- lift (setrow (Z.to_nat (n_envs b)) a (pos b) row) ;;
  modify (set_observations (<[key := a']> (observations b))).

(** [self.next_observations[key][self.pos] = np.array(next_obs[key])] *)
Definition assign_next_obs (next_obs : gmap string (list Obs)) (key : string) : M DB unit :=
  b <- get ;;
  match next_observations b with
  | Some nobs =>
      row <- lift (dict_getitem next_obs key) ;;
      a <- lift (dict_getitem nobs key) ;;
      a' <- lift (setrow (Z.to_nat (n_envs b)) a (pos b) row) ;;
      modify (set_next_observations (<[key := a']> nobs))
  | None => raise (AttributeError "next_observations")
  end.

(** [d.keys()] *)
Definition keys {V} (d : gmap string V) : list string := (map_to_list d).*1.

(** [DictReplayBuffer.add] *)
Definition add (obs next_obs : gmap string (list Obs)) (action : list Act)
    (reward : list float32) (done : list bool) (infos : list (gmap string bool))
    (truth_mask : list (list float32)) : M DB unit :=
  b <- get ;;
  for_each (keys (observations b)) (assign_obs obs) ;;
  nkeys <- lift (match next_observations b with
                 | Some nobs => Ok (keys nobs)
                 | None => Raise (AttributeError "next_observations")
                 end) ;;
  for_each nkeys (assign_next_obs next_obs) ;;
  action <- lift (reshape_rows (Z.to_nat (n_envs b)) action) ;;
  assign actions set_actions (pos b) action ;;
  assign rewards set_rewards (pos b) reward ;;
  assign dones set_dones (pos b) (map of_bool done) ;;
  when (handle_timeout_termination b)
    (assign timeouts set_timeouts (pos b)
       (map of_bool (ReplayBuffer.truncated infos))) ;;
  assign truth_masks set_truth_masks (pos b) truth_mask ;;
  advance.

(** [{key: obs[batch_inds, env_indices, :] for key, obs in d.items()}] *)
Definition take2_dict (d : gmap string (list (list Obs))) (inds envs : list Z)
  : result (gmap string (list Obs)) :=
  kvs <~ rmapM (fun kv => r <~ take2 (snd kv) inds envs ;; Ok (fst kv, r))
               (map_to_list d) ;;
  Ok (list_to_map kvs).

(** [DictReplayBuffer._get_samples] *)
Definition _get_samples (b : DB) (batch_inds : list Z) (env : Env)
  : M RandomState (Samples.t (gmap string (list Obs)) Act) :=
  env_indices <- randint 0 (n_envs b) (Z.of_nat (length batch_inds)) ;;
  obs_ <- lift (take2_dict (observations b) batch_inds env_indices) ;;
  next_obs_ <- lift (match next_observations b with
                     | Some nobs => take2_dict nobs batch_inds env_indices
                     | None => Raise (AttributeError "next_observations")
                     end) ;;
  acts <- lift (take2 (actions b) batch_inds env_indices) ;;
  d <- lift (take2 (dones b) batch_inds env_indices) ;;
  t <- lift (take2 (timeouts b) batch_inds env_indices) ;;
  r <- lift (take2 (rewards b) batch_inds env_indices) ;;
  masks <- lift (take2 (truth_masks b) batch_inds env_indices) ;;
  ret (Samples.mk
         (_normalize_obs obs_ env)
         acts
         (_normalize_obs next_obs_ env)
         (zip_with mul d (map (sub one) t))
         (_normalize_reward r env)
         masks).

(** [DictReplayBuffer.sample]: [super(ReplayBuffer, self).sample(...)] *)
Definition sample (b : DB) (batch_size : Z) (env : Env)
  : M RandomState (Samples.t (gmap string (list Obs)) Act) :=
  BaseBuffer.sample b (_get_samples b) batch_size env.

End DictReplayBuffer.

End DictReplayBuffer.

(** ** [deep_pack/ddqn/policies.py] *)

Module Policies.

(** The network classes of [deep_pack.common.torch_layers], and any other
    subclass of [BaseNetwork] a caller may pass. *)
Inductive NetworkClass : Type :=
| CnnMlpNetwork1
| CnnMlpNetwork2
| CnnMlpNetwork3
| CnnMlpNetwork4
| OtherNetwork (name : string).

(** An observation: the dict with the two entries [obs[BIN]] and
    [obs[MASK]], the mask being a [(batch, n_actions)] tensor. *)
Record Observation (Bin : Type) : Type := {
  BIN : Bin;
  MASK : list (list Z);
}.
Arguments BIN {Bin}.
Arguments MASK {Bin}.

Section Policies.

(** The dtype of the q-values with its order, and the conversion of a
    Python [int] to it.  The order is the one of the finite floats. *)
Context {Qv : Type} (leb : Qv -> Qv -> bool) (of_int : Z -> Qv).

(** The input of the network, the keyword arguments of a network class, and
    the parts of the repository and of the host framework that are not in
    the modelled files: [preprocess_obs], the constructors of the network
    classes, and the optimizer set up at the end of [_build]. *)
Context {Bin Kwargs Optimizer : Type}.
Context (preprocess_obs : Observation Bin -> bool -> Observation Bin).
Context (instantiate : NetworkClass -> Kwargs -> result (Bin -> list (list Qv))).
Context (make_optimizer : result Optimizer).

(** *** [class QNetwork(BasePolicy)] *)

Record QNetwork : Type := {
  normalize_images : bool;
  network_class : NetworkClass;
  network_kwargs : option Kwargs;
  mask_replace_coef : Z;
  q_net : Bin -> list (list Qv);
}.

(** [QNetwork.__init__]: [**self.network_kwargs] needs a mapping. *)
Definition QNetwork__init__ (normalize_images : bool) (network_class : NetworkClass)
    (network_kwargs : option Kwargs) (mask_replace_coef : Z) : result QNetwork :=
  match network_kwargs with
  | None => Raise TypeError
  | Some kwargs =>
      net <~ instantiate network_class kwargs ;;
      Ok {| normalize_images := normalize_images;
            network_class := network_class;
            network_kwargs := network_kwargs;
            mask_replace_coef := mask_replace_coef;
            q_net := net |}
  end.

Definition default_mask_replace_coef : Z := -15.

(** [QNetwork.forward] *)
Definition forward (self : QNetwork) (obs : Observation Bin) : list (list Qv) :=
  let obs := preprocess_obs obs (normalize_images self) in
  q_net self (BIN obs).

(** Broadcasting of two axes: equal lengths, or one of them of length one. *)
Definition broadcast2 {A B} (xs : list A) (ys : list B) : result (list (A * B)) :=
  if decide (length xs = length ys) then Ok (zip xs ys)
  else match xs, ys with
       | [x], _ => Ok (map (fun y => (x, y)) ys)
       | _, [y] => Ok (map (fun x => (x, y)) xs)
       | _, _ => Raise RuntimeError
       end.

(** [th.where(mask == 1, q_values, coef)] on two-axis tensors. *)
Definition th_where (mask : list (list Z)) (q_values : list (list Qv)) (coef : Z)
  : result (list (list Qv)) :=
  rows <~ broadcast2 mask q_values ;;
  rmapM (fun mq =>
           cells <~ broadcast2 (fst mq) (snd mq) ;;
           Ok (map (fun c => if fst c =? 1 then snd c else of_int coef) cells))
        rows.

(** The scan behind [argmax]: the index of the first maximal entry. *)
Fixpoint argmax_from (best : Qv) (best_i i : nat) (l : list Qv) : nat :=
  match l with
  | [] => best_i
  | x :: l' =>
      if leb x best then argmax_from best best_i (S i) l'
      else argmax_from x i (S i) l'
  end.

(** [row.argmax()]; an empty reduction axis is an error. *)
Definition argmax (row : list Qv) : result nat :=
  match row with
  | [] => Raise IndexError
  | x :: l => Ok (argmax_from x 0 1 l)
  end.

(** [QNetwork._predict] *)
Definition _predict (self : QNetwork) (observation : Observation Bin) (deterministic : bool)
  : result (list nat) :=
  let q_values := forward self observation in
  masked_q_values <~ th_where (MASK observation) q_values (mask_replace_coef self) ;;
  rmapM argmax masked_q_values.

(** *** [class DQNPolicy(BasePolicy)] *)

Definition network_aliases : gmap string NetworkClass :=
  {[ "CnnMlpNetwork1"%string := CnnMlpNetwork1;
     "CnnMlpNetwork2"%string := CnnMlpNetwork2;
     "CnnMlpNetwork3"%string := CnnMlpNetwork3;
     "CnnMlpNetwork4"%string := CnnMlpNetwork4 ]}.

(** [DQNPolicy._get_network_from_name] *)
Definition _get_network_from_name (network_name : string) : result NetworkClass :=
  if dict_contains network_aliases network_name
  then dict_getitem network_aliases network_name
  else Raise (ValueError ("Policy " +:+ network_name +:+ " unknown")).

Record DQNPolicy : Type := {
  policy_network_class : NetworkClass;
  policy_q_net : QNetwork;
  policy_q_net_target : QNetwork;
  optimizer : Optimizer;
}.

(** [DQNPolicy.make_q_net]: a [QNetwork] built from [self.net_args]. *)
Definition make_q_net (normalize_images : bool) (network_class : NetworkClass)
    (network_kwargs : option Kwargs) (mask_replace_coef : Z) : result QNetwork :=
  QNetwork__init__ normalize_images network_class network_kwargs mask_replace_coef.

(** [DQNPolicy._build], on the arguments kept in [self.net_args]; the
    target network is a second instance with the same parameters. *)
Definition _build (normalize_images : bool) (network_class : NetworkClass)
    (network_kwargs : option Kwargs) (mask_replace_coef : Z) : result DQNPolicy :=
  q <~ make_q_net normalize_images network_class network_kwargs mask_replace_coef ;;
  q_target <~ make_q_net normalize_images network_class network_kwargs mask_replace_coef ;;
  opt <~ make_optimizer ;;
  Ok {| policy_network_class := network_class;
        policy_q_net := q;
        policy_q_net_target := q_target;
        optimizer := opt |}.

(** [DQNPolicy.__init__]; [network] is a name or a class. *)
Definition DQNPolicy__init__ (normalize_images : bool) (network : string + NetworkClass)
    (network_kwargs : option Kwargs) (mask_replace_coef : Z) : result DQNPolicy :=
  network_class <~ match network with
                   | inl name => _get_network_from_name name
                   | inr cls => Ok cls
                   end ;;
  _build normalize_images network_class network_kwargs mask_replace_coef.

(** [DQNPolicy._predict] *)
Definition DQNPolicy_predict (self : DQNPolicy) (obs : Observation Bin) (deterministic : bool)
  : result (list nat) :=
  _predict (policy_q_net self) obs deterministic.

End Policies.

End Policies.

(** ** [deep_pack/common/callbacks.py] *)

Module Callbacks.

(** Binary64, the Python [float]. *)
Definition float64 : Type := spec_float.

(** The values that reach the CSV writer. *)
Inductive pyval : Type :=
| PyStr (s : string)
| PyInt (z : Z)
| PyFloat (f : float64).

(** A text file opened for writing: the rows handed to it that are still
    in its buffer, and the rows that were flushed. *)
Record TextFile : Type := {
  file_name : string;
  buffered : list (list pyval);
  flushed : list (list pyval);
  closed : bool;
}.

Definition file_write (row : list pyval) (f : TextFile) : result TextFile :=
  if closed f then Raise (ValueError "I/O operation on closed file.")
  else Ok {| file_name := file_name f; buffered := buffered f ++ [row];
             flushed := flushed f; closed := false |}.

Definition file_flush (f : TextFile) : result TextFile :=
  if closed f then Raise (ValueError "I/O operation on closed file.")
  else Ok {| file_name := file_name f; buffered := [];
             flushed := flushed f ++ buffered f; closed := false |}.

(** [close] flushes what is buffered; closing twice is allowed. *)
Definition file_close (f : TextFile) : TextFile :=
  {| file_name := file_name f; buffered := [];
     flushed := flushed f ++ buffered f; closed := true |}.

(** [open(filename, "wt", newline="\n")]: the file is created or truncated. *)
Definition open_w (filename : string) : TextFile :=
  {| file_name := filename; buffered := []; flushed := []; closed := false |}.

(** [csv.DictWriter] with its defaults: [restval] is the empty string and
    [extrasaction] is [raise]. *)
Definition restval : pyval := PyStr EmptyString.

Definition DictWriter_row (fieldnames : list string) (rowdict : gmap string pyval)
  : result (list pyval) :=
  if decide (dom rowdict ⊆ list_to_set fieldnames) then
    Ok (map (fun key => default restval (rowdict !! key)) fieldnames)
  else Raise (ValueError "dict contains fields not in fieldnames").

(** [dict(zip(fieldnames, fieldnames))], the row [writeheader] writes. *)
Definition header_dict (fieldnames : list string) : gmap string pyval :=
  list_to_map (map (fun key => (key, PyStr key)) fieldnames).

(** The state the callback works on: its own attributes, and what it reads
    from the model and from the logger of the host framework.  The logger's
    [name_to_value] is a [defaultdict(float)]. *)
Record State : Type := {
  file_handler : TextFile;
  metrics_logger : list string;
  num_timesteps : Z;
  name_to_value : gmap string pyval;
}.

Definition set_file_handler (f : TextFile) (s : State) : State :=
  {| file_handler := f; metrics_logger := metrics_logger s;
     num_timesteps := num_timesteps s; name_to_value := name_to_value s |}.

Definition set_name_to_value (d : gmap string pyval) (s : State) : State :=
  {| file_handler := file_handler s; metrics_logger := metrics_logger s;
     num_timesteps := num_timesteps s; name_to_value := d |}.

(** [self.metrics_logger.writerow(rowdict)] *)
Definition writerow (rowdict : gmap string pyval) : M State unit :=
  s <- get ;;
  row <- lift (DictWriter_row (metrics_logger s) rowdict) ;;
  f <- lift (file_write row (file_handler s)) ;;
  modify (set_file_handler f).

(** [self.metrics_logger.writeheader()] *)
Definition writeheader : M State unit :=
  s <- get ;;
  writerow (header_dict (metrics_logger s)).

(** [self.file_handler.flush()] *)
Definition flush : M State unit :=
  s <- get ;;
  f <- lift (file_flush (file_handler s)) ;;
  modify (set_file_handler f).

(** [self.logger.name_to_value[key]]: a missing key is entered with [0.0]. *)
Definition logger_value (key : string) : M State pyval :=
  s <- get ;;
  match name_to_value s !! key with
  | Some v => ret v
  | None =>
      let v := PyFloat (S754_zero false) in
      modify (set_name_to_value (<[key := v]> (name_to_value s))) ;;
      ret v
  end.

Definition EXT : string := "metrics.csv".

Definition fieldnames : list string :=
  ["timesteps"; "ep_rew_mean"; "ep_PE_mean"; "exploration_rate"; "loss";
   "n_updates"; "learning_rate"]%string.

(** [s.endswith(suffix)] *)
Definition endswith (s suffix : string) : bool :=
  String.prefix (String.rev suffix) (String.rev s).

Section Init.

(** The file system as the constructor sees it. *)
Context (isdir : string -> bool) (realpath : string -> string).

(** [os.path.join(a, b)] for a relative [b]. *)
Definition path_join (a b : string) : string :=
  if (String.eqb a EmptyString || endswith a "/")%bool then a +:+ b else a +:+ "/" +:+ b.

Definition resolve_filename (filename : string) : string :=
  let filename :=
    if negb (endswith filename EXT) then
      if isdir filename then path_join filename EXT
      else filename +:+ "." +:+ EXT
    else filename in
  realpath filename.

(** [MetricsCallback.__init__]; the model and the logger are attached by
    the host framework and appear as the rest of the state. *)
Definition __init__ (filename : string) (num_timesteps : Z)
    (name_to_value : gmap string pyval) : result unit * State :=
  let init := {| file_handler := open_w (resolve_filename filename);
                 metrics_logger := fieldnames;
                 num_timesteps := num_timesteps;
                 name_to_value := name_to_value |} in
  (writeheader ;; flush) init.

End Init.

(** [MetricsCallback._on_step] *)
Definition _on_step : M State bool := ret true.

(** [MetricsCallback._on_rollout_end] *)
Definition _on_rollout_end : M State unit :=
  s <- get ;;
  ep_rew_mean <- logger_value "rollout/ep_rew_mean" ;;
  ep_PE_mean <- logger_value "rollout/ep_PE_mean" ;;
  exploration_rate <- logger_value "rollout/exploration_rate" ;;
  loss <- logger_value "train/loss" ;;
  n_updates <- logger_value "train/n_updates" ;;
  learning_rate <- logger_value "train/learning_rate" ;;
  let metrics : gmap string pyval :=
    <["learning_rate"%string := learning_rate]>
    (<["n_updates"%string := n_updates]>
    (<["loss"%string := loss]>
    (<["exploration_rate"%string := exploration_rate]>
    (<["ep_PE_mean"%string := ep_PE_mean]>
    (<["ep_rew_mean"%string := ep_rew_mean]>
    (<["timesteps"%string := PyInt (num_timesteps s)]> ∅)))))) in
  writerow metrics ;;
  flush.

(** [MetricsCallback._on_training_end] *)
Definition _on_training_end : M State unit :=
  modify (fun s => set_file_handler (file_close (file_handler s)) s).

End Callbacks.

(** ** [_get_constructor_parameters] of the two policy classes *)

Module PolicyParameters.
Import Policies.

(** The values of a dict of constructor parameters; [ObjHost] stands for
    an object of the host framework (a space, the schedule, the optimizer
    class and its keyword arguments). *)
Inductive pyobj (Kwargs : Type) : Type :=
| ObjBool (b : bool)
| ObjInt (z : Z)
| ObjClass (c : NetworkClass)
| ObjKwargs (k : option Kwargs)
| ObjHost (name : string).
Arguments ObjBool {Kwargs} b.
Arguments ObjInt {Kwargs} z.
Arguments ObjClass {Kwargs} c.
Arguments ObjKwargs {Kwargs} k.
Arguments ObjHost {Kwargs} name.

Section Parameters.
Context {Qv Bin Kwargs : Type}.

(** [QNetwork._get_constructor_parameters]; [data] is the dict that
    [super()._get_constructor_parameters()] returns. *)
Definition QNetwork_get_constructor_parameters (data : gmap string (pyobj Kwargs))
    (self : QNetwork (Qv:=Qv) (Bin:=Bin) (Kwargs:=Kwargs)) : gmap string (pyobj Kwargs) :=
  <["mask_replace_coef"%string := ObjInt (mask_replace_coef self)]>
  (<["network_kwargs"%string := ObjKwargs (network_kwargs self)]>
  (<["network_class"%string := ObjClass (network_class self)]> data)).

(** [DQNPolicy._get_constructor_parameters], on the attributes
    [self.network_class] and [self.network_kwargs]. *)
Definition DQNPolicy_get_constructor_parameters (data : gmap string (pyobj Kwargs))
    (network_class : NetworkClass) (network_kwargs : option Kwargs)
  : gmap string (pyobj Kwargs) :=
  <["network_kwargs"%string := ObjKwargs network_kwargs]>
  (<["network_class"%string := ObjClass network_class]>
  (<["optimizer_kwargs"%string := ObjHost "optimizer_kwargs"]>
  (<["optimizer_class"%string := ObjHost "optimizer_class"]>
  (<["lr_schedule"%string := ObjHost "_dummy_schedule"]> data)))).

(** The parameters of [QNetwork.__init__] after [self], each with whether
    it has a default. *)
Definition QNetwork_parameters : list (string * bool) :=
  [("observation_space", false); ("action_space", false); ("normalize_images", true);
   ("network_class", true); ("network_kwargs", true); ("mask_replace_coef", true)]%string.

(** The parameters of [DQNPolicy.__init__] after [self]. *)
Definition DQNPolicy_parameters : list (string * bool) :=
  [("observation_space", false); ("action_space", false); ("lr_schedule", false);
   ("normalize_images", true); ("optimizer_class", true); ("optimizer_kwargs", true);
   ("network", true); ("network_kwargs", true); ("mask_replace_coef", true)]%string.

(** The binding of a call whose arguments are all keywords, unpacked from
    the dict [kwargs], to a signature that takes no further keywords: an
    unexpected keyword and a missing parameter without default are
    [TypeError]s. *)
Definition bind_keywords (parameters : list (string * bool))
    (kwargs : gmap string (pyobj Kwargs)) : result unit :=
  if forallb (fun key => bool_decide (key ∈ parameters.*1)) (map_to_list kwargs).*1 &&
     forallb (fun p => snd p || bool_decide (is_Some (kwargs !! fst p))) parameters
  then Ok tt
  else Raise TypeError.

End Parameters.

End PolicyParameters.

(** * Specifications of stateful computations *)

Module Logic.

(** [hoare P m Q E]: from a state satisfying [P], [m] either returns [a]
    in a state satisfying [Q a], or raises in a state satisfying [E]. *)
Definition hoare {S A} (P : S -> Prop) (m : M S A) (Q : A -> S -> Prop)
    (E : S -> Prop) : Prop :=
  forall s, P s ->
    match m s with
    | (Ok a, s') => Q a s'
    | (Raise _, s') => E s'
    end.

(** [inv I m]: [m] keeps [I], whether it returns or raises. *)
Definition inv {S A} (I : S -> Prop) (m : M S A) : Prop :=
  hoare I m (fun _ => I) I.

(** [raises_only E m]: every exception [m] raises satisfies [E]. *)
Definition raises_only {S A} (E : exn -> Prop) (m : M S A) : Prop :=
  forall s e s', m s = (Raise e, s') -> E e.

End Logic.

Import Logic.

(** * Invariants of the buffers *)

Module BufferSpec.

Definition incompatible_msg : string :=
  "ReplayBuffer does not support optimize_memory_usage = True and handle_timeout_termination = True simultaneously.".

Definition dict_optimize_msg : string :=
  "DictReplayBuffer does not support optimize_memory_usage".

(** Every entry of a two-axis array satisfies [P]. *)
Definition cells {A} (P : A -> Prop) (a : list (list A)) : Prop :=
  Forall (Forall P) a.

(** A stored Python [bool]: [0.0] or [1.0]. *)
Definition is_flag (x : float32) : Prop := x = zero \/ x = one.

(** What holds of a buffer object between two calls of its methods. *)
Record wf {O Act} (b : Buffer O Act) : Prop := {
  wf_buffer_size : 1 <= buffer_size b;
  wf_n_envs : 1 <= n_envs b;
  wf_pos : 0 <= pos b < buffer_size b;
  wf_dones : cells is_flag (dones b);
  wf_timeouts : handle_timeout_termination b = false ->
                cells (fun x => x = zero) (timeouts b);
}.

(** The attributes that [add] never assigns, and the two it assigns only
    in its last statements. *)
Definition same_frame {O Act} (b0 b : Buffer O Act) : Prop :=
  buffer_size b = buffer_size b0 /\ n_envs b = n_envs b0 /\
  optimize_memory_usage b = optimize_memory_usage b0 /\
  handle_timeout_termination b = handle_timeout_termination b0.

Definition same_pointer {O Act} (b0 b : Buffer O Act) : Prop :=
  pos b = pos b0 /\ full b = full b0.

(** The write pointer after a returning [add] on [b0]. *)
Definition advanced {O Act} (b0 b : Buffer O Act) : Prop :=
  if pos b0 + 1 =? buffer_size b0
  then pos b = 0 /\ full b = true
  else pos b = pos b0 + 1 /\ full b = full b0.

Section Reachable.
Context {Obs Act : Type} `{!Cell Obs} `{!Cell Act}.

(** The states of a [ReplayBuffer] object: what the constructor returns,
    and what a call of [add] leaves behind, whether it returns or raises. *)
Inductive rb_reachable : Buffer (list (list Obs)) Act -> Prop :=
| rb_init buffer_size obs_shape action_dim action_n n_envs opt handle h b h' :
    ReplayBuffer.__init__ buffer_size obs_shape action_dim action_n n_envs opt handle h
      = (Ok b, h') ->
    rb_reachable b
| rb_add b obs next_obs action reward done infos truth_mask r b' :
    rb_reachable b ->
    ReplayBuffer.add obs next_obs action reward done infos truth_mask b = (r, b') ->
    rb_reachable b'.

(** The same for a [DictReplayBuffer] object. *)
Inductive db_reachable : Buffer (gmap string (list (list Obs))) Act -> Prop :=
| db_init buffer_size obs_shape action_dim action_n n_envs opt handle h b h' :
    DictReplayBuffer.__init__ buffer_size obs_shape action_dim action_n n_envs opt handle h
      = (Ok b, h') ->
    db_reachable b
| db_add b obs next_obs action reward done infos truth_mask r b' :
    db_reachable b ->
    DictReplayBuffer.add obs next_obs action reward done infos truth_mask b = (r, b') ->
    db_reachable b'.

End Reachable.

(** How one call of [add], with result [r], moves the write pointer of a
    buffer from [b] to [b']. *)
Definition pointer_step {O Act} (b : Buffer O Act) (r : result unit) (b' : Buffer O Act)
  : Prop :=
  0 <= pos b' < buffer_size b' /\
  buffer_size b' = buffer_size b /\
  (full b = true -> full b' = true) /\
  match r with
  | Ok _ =>
      if pos b + 1 =? buffer_size b
      then pos b' = 0 /\ full b' = true
      else pos b' = pos b + 1 /\ full b' = full b
  | Raise _ => pos b' = pos b /\ full b' = full b
  end.




(** The invariant of the body of [add], up to the update of the pointer. *)
Definition body_inv {O Act} (b0 s : Buffer O Act) : Prop :=
  wf s /\ same_frame b0 s /\ same_pointer b0 s.

(** From the write of the action to the end of [add]. *)
Definition add_tail {O Act} (b0 : Buffer O Act) (action : list Act)
    (reward : list float32) (done : list bool)
    (infos : list (gmap string bool)) (truth_mask : list (list float32))
  : M (Buffer O Act) unit :=
  assign actions set_actions (pos b0) action ;;
  assign rewards set_rewards (pos b0) reward ;;
  assign dones set_dones (pos b0) (map of_bool done) ;;
  when (handle_timeout_termination b0)
    (assign timeouts set_timeouts (pos b0)
       (map of_bool (ReplayBuffer.truncated infos))) ;;
  assign truth_masks set_truth_masks (pos b0) truth_mask ;;
  advance.

(** What a call of [add] leaves behind: the pointer has advanced if it
    returned, and has not moved if it raised. *)
Definition add_post {O Act} (b0 : Buffer O Act) (out : result unit * Buffer O Act) : Prop :=
  match out with
  | (Ok _, s) => wf s /\ same_frame b0 s /\ advanced b0 s
  | (Raise _, s) => wf s /\ same_frame b0 s /\ same_pointer b0 s
  end.


(** The first axis of every array that both classes share has one entry
    per slot. *)
Definition slots {O Act} (b : Buffer O Act) : Prop :=
  let n := Z.to_nat (buffer_size b) in
  length (actions b) = n /\ length (rewards b) = n /\ length (dones b) = n /\
  length (timeouts b) = n /\ length (truth_masks b) = n.

(** The same for the observations of a [ReplayBuffer]; [next_observations]
    exists exactly when the memory optimisation is off. *)
Definition rb_shaped {Obs Act} (b : Buffer (list (list Obs)) Act) : Prop :=
  slots b /\
  length (observations b) = Z.to_nat (buffer_size b) /\
  (optimize_memory_usage b = false ->
   exists a, next_observations b = Some a /\ length a = Z.to_nat (buffer_size b)).

(** The same for the observations of a [DictReplayBuffer]. *)
Definition db_shaped {Obs Act} (b : Buffer (gmap string (list (list Obs))) Act) : Prop :=
  slots b /\
  map_Forall (fun _ a => length a = Z.to_nat (buffer_size b)) (observations b) /\
  exists nobs,
    next_observations b = Some nobs /\
    map_Forall (fun _ a => length a = Z.to_nat (buffer_size b)) nobs.

(** A dict argument of [DictReplayBuffer.add] has, for every key of the
    stored dict [d], one entry per environment. *)
Definition per_env_dict {Obs Act} (b : Buffer (gmap string (list (list Obs))) Act)
    (d : gmap string (list (list Obs))) (rows : gmap string (list Obs)) : Prop :=
  forall key, is_Some (d !! key) ->
    exists row, rows !! key = Some row /\ length row = Z.to_nat (n_envs b).

(** The part of the state the observation loops keep, with every stored
    array of [d0] still there, one entry per slot. *)
Definition loop_inv {Obs Act} (b : Buffer (gmap string (list (list Obs))) Act)
    (stored : Buffer (gmap string (list (list Obs))) Act ->
              option (gmap string (list (list Obs))))
    (d0 : gmap string (list (list Obs))) s : Prop :=
  slots s /\ buffer_size s = buffer_size b /\ n_envs s = n_envs b /\ pos s = pos b /\
  (exists nobs, next_observations s = Some nobs) /\
  exists d, stored s = Some d /\
    forall key, is_Some (d0 !! key) ->
      exists a, d !! key = Some a /\ length a = Z.to_nat (buffer_size b).

(** The arguments of [add] have one entry per environment. *)
Definition per_env {O Act A} (b : Buffer O Act) (row : list A) : Prop :=
  length row = Z.to_nat (n_envs b).

(** Concrete buffers over integer observations and actions: two
    environments, three actions, capacity for two slots. *)
Definition dummy_buffer {O} (o : O) : Buffer O Z :=
  mkBuffer 0 0 0 false false false o None [] [] [] [] [].

Definition ok_or {A} (d : A) (r : result A) : A :=
  match r with
  | Ok a => a
  | Raise _ => d
  end.

Definition ex_rb0 : Buffer (list (list Z)) Z :=
  Eval vm_compute in
    ok_or (dummy_buffer [])
      (fst (ReplayBuffer.__init__ 5 (ShapeTuple []) 1 3 2 true false [])).

Definition ex_rb1 : Buffer (list (list Z)) Z :=
  Eval vm_compute in
    snd (ReplayBuffer.add [10; 20] [11; 21] [1; 2] [one; zero] [true; false]
           [∅; {[ "TimeLimit.truncated"%string := true ]}]
           [[one; zero; zero]; [zero; zero; one]] ex_rb0).

Definition ex_rb2 : Buffer (list (list Z)) Z :=
  Eval vm_compute in
    snd (ReplayBuffer.add [11; 21] [12; 22] [0; 0] [zero; zero] [false; true]
           [∅; ∅] [[one; one; zero]; [zero; one; one]] ex_rb1).

Definition ex_shapes : gmap string (list Z) :=
  {[ "bin"%string := []; "mask"%string := [] ]}.

Definition ex_db0 : Buffer (gmap string (list (list Z))) Z :=
  ok_or (dummy_buffer ∅)
    (fst (DictReplayBuffer.__init__ 5 (ShapeDict ex_shapes) 1 3 2 false true [])).

Definition ex_db_obs (x y : Z) : gmap string (list Z) :=
  {[ "bin"%string := [x; y]; "mask"%string := [x + 1; y + 1] ]}.

Definition ex_db1 : Buffer (gmap string (list (list Z))) Z :=
  snd (DictReplayBuffer.add (ex_db_obs 10 20) (ex_db_obs 30 40) [1; 2] [one; zero]
         [true; true] [∅; {[ "TimeLimit.truncated"%string := true ]}]
         [[one; zero; zero]; [zero; zero; one]] ex_db0).

(** A generator and the batches it draws from the two example buffers. *)
Definition ex_rs : RandomState := fun k => Z.of_nat k * 7 + 3.

Definition dummy_samples {B} (o : B) : Samples.t B Z := Samples.mk o [] o [] [] [].


Definition ex_db_batch : Samples.t (gmap string (list Z)) Z :=
  ok_or (dummy_samples ∅) (fst (DictReplayBuffer._get_samples ex_db1 [0; 0] None ex_rs)).

End BufferSpec.

Import BufferSpec.

(** * Specification of the policy *)

Module PolicySpec.
Import Policies.


Section PolicySpec.
Context {Qv : Type} (leb : Qv -> Qv -> bool) (of_int : Z -> Qv).

(** [a] is an index of a maximal entry of [row]. *)
Definition is_argmax (row : list Qv) (a : nat) : Prop :=
  exists v, row !! a = Some v /\ forall j x, row !! j = Some x -> leb x v = true.

(** A row of q-values after masking, for a mask row of the same length. *)
Definition masked_row (coef : Z) (mrow : list Z) (qrow : list Qv) : list Qv :=
  map (fun c => if fst c =? 1 then snd c else of_int coef) (zip mrow qrow).



End PolicySpec.

(** Integer q-values, for examples. *)
Definition ex_qnet : QNetwork (Qv:=Z) (Bin:=unit) (Kwargs:=unit) :=
  {| normalize_images := false;
     network_class := CnnMlpNetwork1;
     network_kwargs := Some tt;
     mask_replace_coef := default_mask_replace_coef;
     q_net := fun _ => [[-20; -16; -30]; [3; 9; 4]] |}.

Definition ex_obs : Observation unit :=
  {| BIN := tt; MASK := [[0; 1; 1]; [1; 0; 1]] |}.

End PolicySpec.

(** * Specification of the metrics callback *)

Module CallbackSpec.
Import Callbacks.

Definition zero64 : pyval := PyFloat (S754_zero false).

(** [self.logger.name_to_value[key]] as a value. *)
Definition logged (s : State) (key : string) : pyval :=
  default zero64 (name_to_value s !! key).

(** The header row and the data row of a rollout that ends in state [s]. *)
Definition header_row : list pyval :=
  [PyStr "timesteps"; PyStr "ep_rew_mean"; PyStr "ep_PE_mean";
   PyStr "exploration_rate"; PyStr "loss"; PyStr "n_updates"; PyStr "learning_rate"].

Definition data_row (s : State) : list pyval :=
  [PyInt (num_timesteps s);
   logged s "rollout/ep_rew_mean";
   logged s "rollout/ep_PE_mean";
   logged s "rollout/exploration_rate";
   logged s "train/loss";
   logged s "train/n_updates";
   logged s "train/learning_rate"].

(** What the training loop of the host framework does to the state
    between two calls of the callback: it updates the step counter and the
    logger, and does not touch the file. *)
Definition host_update (ts : Z) (d : gmap string pyval) (s : State) : State :=
  {| file_handler := file_handler s; metrics_logger := metrics_logger s;
     num_timesteps := ts; name_to_value := d |}.

Section Running.
Context (isdir : string -> bool) (realpath : string -> string).

(** The states of a callback from its construction to the end of the
    training, with the data rows of the rollouts that ended so far. *)
Inductive running : State -> list (list pyval) -> Prop :=
| run_init filename ts d r s :
    __init__ isdir realpath filename ts d = (r, s) -> running s []
| run_step s rows r s' :
    running s rows -> _on_step s = (r, s') -> running s' rows
| run_rollout_end s rows r s' :
    running s rows -> _on_rollout_end s = (r, s') -> running s' (rows ++ [data_row s])
| run_host s rows ts d :
    running s rows -> running (host_update ts d s) rows.

End Running.

(** The file is open, nothing is left in its buffer, and its content is
    the header followed by [rows]. *)
Definition file_is (s : State) (rows : list (list pyval)) : Prop :=
  flushed (file_handler s) = header_row :: rows /\
  buffered (file_handler s) = [] /\
  closed (file_handler s) = false /\
  metrics_logger s = fieldnames.

(** A callback writing to [run1.metrics.csv], and its state after the
    first rollout. *)
Definition ex_cb0 : State :=
  snd (__init__ (fun _ => false) (fun path => path) "run1" 2048
         {[ "train/n_updates"%string := PyInt 4 ]}).

Definition ex_cb1 : State := snd (_on_rollout_end ex_cb0).

End CallbackSpec.

(** * Further specifications of the buffers *)

Module BufferMoreSpec.

Section Counted.
Context {Obs Act : Type} `{!Cell Obs} `{!Cell Act}.

(** The states of a [ReplayBuffer] object with the number of calls of [add]
    that have returned since its construction. *)
Inductive rb_after : nat -> Buffer (list (list Obs)) Act -> Prop :=
| rb_after_init buffer_size obs_shape action_dim action_n n_envs opt handle h b h' :
    ReplayBuffer.__init__ buffer_size obs_shape action_dim action_n n_envs opt handle h
      = (Ok b, h') ->
    rb_after 0 b
| rb_after_add k b obs next_obs action reward done infos truth_mask u b' :
    rb_after k b ->
    ReplayBuffer.add obs next_obs action reward done infos truth_mask b = (Ok u, b') ->
    rb_after (S k) b'
| rb_after_raise k b obs next_obs action reward done infos truth_mask e b' :
    rb_after k b ->
    ReplayBuffer.add obs next_obs action reward done infos truth_mask b = (Raise e, b') ->
    rb_after k b'.

(** The same for a [DictReplayBuffer] object. *)
Inductive db_after : nat -> Buffer (gmap string (list (list Obs))) Act -> Prop :=
| db_after_init buffer_size obs_shape action_dim action_n n_envs opt handle h b h' :
    DictReplayBuffer.__init__ buffer_size obs_shape action_dim action_n n_envs opt handle h
      = (Ok b, h') ->
    db_after 0 b
| db_after_add k b obs next_obs action reward done infos truth_mask u b' :
    db_after k b ->
    DictReplayBuffer.add obs next_obs action reward done infos truth_mask b = (Ok u, b') ->
    db_after (S k) b'
| db_after_raise k b obs next_obs action reward done infos truth_mask e b' :
    db_after k b ->
    DictReplayBuffer.add obs next_obs action reward done infos truth_mask b = (Raise e, b') ->
    db_after k b'.

End Counted.

(** After [k] returning calls of [add] the pointer is [k % buffer_size],
    and the buffer is full exactly from the [buffer_size]-th call on. *)
Definition counted {O Act} (k : nat) (b : Buffer O Act) : Prop :=
  pos b = Z.of_nat k mod buffer_size b /\
  full b = (buffer_size b <=? Z.of_nat k).

(** What slot [j] of the arrays that both classes share holds; an index
    out of range reads as the [IndexError] it raises. *)
Definition shared_slot {O Act} (b : Buffer O Act) (j : Z) :=
  (getitem (actions b) j, getitem (rewards b) j, getitem (dones b) j,
   getitem (timeouts b) j, getitem (truth_masks b) j).

(** The same with what [read] sees of the stored observations. *)
Definition slot_of {O Act X} (read : O -> X) (b : Buffer O Act) (j : Z) :=
  (read (observations b), option_map read (next_observations b), shared_slot b j).

(** Slot [j] of a [ReplayBuffer]. *)
Definition rb_slot {Obs Act} (b : Buffer (list (list Obs)) Act) (j : Z) :=
  slot_of (fun a => getitem a j) b j.

(** [d[key][j]]; [None] when [key] is not in [d]. *)
Definition read_key {Obs} (j : Z) (key : string) (d : gmap string (list (list Obs))) :=
  option_map (fun a => getitem a j) (d !! key).

(** Slot [j] of a [DictReplayBuffer], with the observations under [key]. *)
Definition db_slot {Obs Act} (b : Buffer (gmap string (list (list Obs))) Act)
    (j : Z) (key : string) :=
  slot_of (read_key j key) b j.

(** The invariant of the body of [add] for a slot it does not write. *)
Definition slot_kept {O Act X} (read : O -> X) (b0 : Buffer O Act) (j : Z)
    (s : Buffer O Act) : Prop :=
  slot_of read s j = slot_of read b0 j /\ pos s = pos b0.

(** [read] does not see the rows that [ReplayBuffer.add] writes on [b0]. *)
Definition blind_to_writes {Obs Act X} (read : list (list Obs) -> X)
    (b0 : Buffer (list (list Obs)) Act) : Prop :=
  forall n a i row a',
    (i = pos b0 \/
     (optimize_memory_usage b0 = true /\ i = (pos b0 + 1) mod buffer_size b0)) ->
    setrow n a i row = Ok a' -> read a' = read a.




Section Calls.
Context {O Act : Type}.



End Calls.

Section Away.
Context {Obs Act : Type}.




End Away.



(** Two dicts with the same keys. *)
Definition same_keys {A B} (d : gmap string A) (d' : gmap string B) : Prop :=
  forall key, is_Some (d !! key) <-> is_Some (d' !! key).

(** Both stored dicts of a [DictReplayBuffer] have the keys of [d]. *)
Definition db_keys {Obs Act A} (d : gmap string A)
    (b : Buffer (gmap string (list (list Obs))) Act) : Prop :=
  same_keys (observations b) d /\
  exists nobs, next_observations b = Some nobs /\ same_keys nobs d.








(** A [ReplayBuffer] without the memory optimisation: two environments,
    two slots, one transition stored, and a batch drawn from it. *)
Definition ex_rbn0 : Buffer (list (list Z)) Z :=
  Eval vm_compute in
    ok_or (dummy_buffer [])
      (fst (ReplayBuffer.__init__ 5 (ShapeTuple []) 1 3 2 false true [])).

Definition ex_rbn1 : Buffer (list (list Z)) Z :=
  Eval vm_compute in
    snd (ReplayBuffer.add [10; 20] [11; 21] [1; 2] [one; zero] [true; false]
           [∅; {[ "TimeLimit.truncated"%string := true ]}]
           [[one; zero; zero]; [zero; zero; one]] ex_rbn0).














End BufferMoreSpec.

Import BufferMoreSpec.

(** * Further specifications of the policy *)

Module PolicyMoreSpec.
Import Policies PolicySpec.

Section PolicyMoreSpec.
Context {Qv : Type} (leb : Qv -> Qv -> bool).

(** [a] is the first index of a maximal entry of [row]: every earlier
    entry is strictly below it. *)
Definition is_first_argmax (row : list Qv) (a : nat) : Prop :=
  is_argmax leb row a /\
  forall j x v, (j < a)%nat -> row !! j = Some x -> row !! a = Some v -> leb v x = false.

(** The mask has the shape of the q-values: no broadcasting takes place. *)
Definition same_shape (mask : list (list Z)) (q_values : list (list Qv)) : Prop :=
  Forall2 (fun mrow qrow => length mrow = length qrow) mask q_values.

(** Two batches of q-values agree wherever the mask is 1. *)
Definition agree_on_legal (mask : list (list Z)) (q q' : list (list Qv)) : Prop :=
  forall k j mrow qrow qrow',
    mask !! k = Some mrow -> q !! k = Some qrow -> q' !! k = Some qrow' ->
    mrow !! j = Some 1 -> qrow !! j = qrow' !! j.

End PolicyMoreSpec.

(** Two networks over integer q-values that differ at masked-out actions
    only. *)
Definition ex_qnet' : QNetwork (Qv:=Z) (Bin:=unit) (Kwargs:=unit) :=
  {| normalize_images := false;
     network_class := CnnMlpNetwork2;
     network_kwargs := Some tt;
     mask_replace_coef := default_mask_replace_coef;
     q_net := fun _ => [[100; -16; -30]; [3; -50; 4]] |}.

(** The dict of the base class for a network without image
    normalisation. *)
Definition ex_base_parameters : gmap string (PolicyParameters.pyobj unit) :=
  {[ "observation_space"%string := PolicyParameters.ObjHost "observation_space";
     "action_space"%string := PolicyParameters.ObjHost "action_space";
     "normalize_images"%string := PolicyParameters.ObjBool false ]}.

Section ConstructionSpec.
Context {Qv Bin Kwargs : Type}.

(** The network that [QNetwork.__init__] builds from its arguments and the
    module [net] the network class returned. *)
Definition built_q_net (normalize_images : bool) (cls : NetworkClass) (kwargs : Kwargs)
    (coef : Z) (net : Bin -> list (list Qv)) : QNetwork :=
  {| normalize_images := normalize_images;
     network_class := cls;
     network_kwargs := Some kwargs;
     mask_replace_coef := coef;
     q_net := net |}.

(** The class that [DQNPolicy.__init__] uses for its argument [network]. *)
Definition resolves_to (network : string + NetworkClass) (cls : NetworkClass) : Prop :=
  match network with
  | inl name => network_aliases !! name = Some cls
  | inr c => c = cls
  end.

End ConstructionSpec.

End PolicyMoreSpec.

(** * Further specifications of the callback *)

Module CallbackMoreSpec.
Import Callbacks CallbackSpec.

Definition closed_file_msg : string := "I/O operation on closed file.".

(** The keys [_on_rollout_end] reads from the logger. *)
Definition metric_keys : list string :=
  ["rollout/ep_rew_mean"; "rollout/ep_PE_mean"; "rollout/exploration_rate";
   "train/loss"; "train/n_updates"; "train/learning_rate"]%string.

(** [s] is [pre] followed by [suffix], for some [pre]. *)
Definition has_suffix (s suffix : string) : Prop := exists pre, s = pre +:+ suffix.

(** The name [__init__] hands to [os.path.realpath]. *)
Definition metrics_path (isdir : string -> bool) (filename : string) : string :=
  if endswith filename EXT then filename
  else if isdir filename then path_join filename EXT
  else filename +:+ "." +:+ EXT.

(** The dict [_on_rollout_end] hands to the CSV writer in state [s]. *)
Definition metrics_dict (s : State) : gmap string pyval :=
  <["learning_rate"%string := logged s "train/learning_rate"]>
  (<["n_updates"%string := logged s "train/n_updates"]>
  (<["loss"%string := logged s "train/loss"]>
  (<["exploration_rate"%string := logged s "rollout/exploration_rate"]>
  (<["ep_PE_mean"%string := logged s "rollout/ep_PE_mean"]>
  (<["ep_rew_mean"%string := logged s "rollout/ep_rew_mean"]>
  (<["timesteps"%string := PyInt (num_timesteps s)]> ∅)))))).

(** The logger after [_on_rollout_end] has read it in state [s]: the six
    metrics are present, a missing one with value [0.0]. *)
Definition logger_read (s s' : State) : Prop :=
  forall k,
    name_to_value s' !! k =
    if bool_decide (k ∈ metric_keys) then Some (logged s k) else name_to_value s !! k.

End CallbackMoreSpec.

(** * Proof rules for stateful computations *)

Module Hoare.

Section Rules.
Context {S : Type}.
Implicit Types P I E : S -> Prop.

Lemma hoare_bind {A B} P (m : M S A) (k : A -> M S B) Q R E :
  hoare P m Q E -> (forall a, hoare (Q a) (k a) R E) -> hoare P (bind m k) R E.
Proof.
  intros Hm Hk s Hs. unfold bind. specialize (Hm s Hs).
  destruct (m s) as [[a|e] s1]; [apply (Hk a s1 Hm) | exact Hm].
Qed.

Lemma hoare_modify P (f : S -> S) (Q : unit -> S -> Prop) E :
  (forall s, P s -> Q tt (f s)) -> hoare P (modify f) Q E.
Proof. intros H s Hs. simpl. auto. Qed.

Lemma inv_ret {A} I (a : A) : inv I (ret a).
Proof. intros s Hs. exact Hs. Qed.

Lemma inv_lift {A} I (r : result A) : inv I (lift r).
Proof. intros s Hs. unfold lift. destruct r; exact Hs. Qed.

Lemma inv_modify I (f : S -> S) : (forall s, I s -> I (f s)) -> inv I (modify f).
Proof. intros H. apply hoare_modify. exact H. Qed.

Lemma inv_bind {A B} I (m : M S A) (k : A -> M S B) :
  inv I m -> (forall a, inv I (k a)) -> inv I (bind m k).
Proof. intros Hm Hk. eapply hoare_bind; [exact Hm | exact Hk]. Qed.

Lemma inv_when I (c : bool) (m : M S unit) : (c = true -> inv I m) -> inv I (when c m).
Proof. intros H. destruct c; simpl; [auto | apply inv_ret]. Qed.

Lemma inv_for_each {A} I (l : list A) (body : A -> M S unit) :
  (forall x, inv I (body x)) -> inv I (for_each l body).
Proof.
  intros H. induction l as [|x l IH]; simpl.
  - apply inv_ret.
  - apply inv_bind; [apply H | intros _; exact IH].
Qed.

(** A computation that keeps [I] followed by one with a postcondition. *)
Lemma inv_then {A B} I (m : M S A) (k : A -> M S B) (R : B -> S -> Prop) :
  inv I m -> (forall a, hoare I (k a) R I) -> hoare I (bind m k) R I.
Proof. intros Hm Hk. eapply hoare_bind; [exact Hm | exact Hk]. Qed.

(** The state after a returning computation that keeps [I]. *)
Lemma inv_Ok {A} I (m : M S A) s a s' :
  inv I m -> I s -> m s = (Ok a, s') -> I s'.
Proof. intros Hinv Hs Hm. specialize (Hinv s Hs). rewrite Hm in Hinv. exact Hinv. Qed.

End Rules.

Lemma raises_only_bind {S A B} E (m : M S A) (k : A -> M S B) :
  raises_only E m -> (forall a, raises_only E (k a)) -> raises_only E (bind m k).
Proof.
  intros Hm Hk s e s'. unfold bind. destruct (m s) as [[a|e1] s1] eqn:Em.
  - apply Hk.
  - intros H. inversion H; subst. eapply Hm, Em.
Qed.

Lemma raises_only_ret {S A} E (a : A) : raises_only E (@ret S A a).
Proof. intros s e s' H. discriminate H. Qed.

Lemma raises_only_raise {S A} (E : exn -> Prop) e : E e -> raises_only E (@raise S A e).
Proof. intros He s e' s' H. inversion H; subst. exact He. Qed.

Lemma raises_only_lift {S A} (E : exn -> Prop) (r : result A) :
  (forall e, r = Raise e -> E e) -> raises_only E (@lift S A r).
Proof. intros Hr s e s' H. unfold lift in H. inversion H; subst. auto. Qed.

(** Inversion of a returning computation. *)
Lemma bind_Ok {S A B} (m : M S A) (k : A -> M S B) s b s' :
  bind m k s = (Ok b, s') ->
  exists a s1, m s = (Ok a, s1) /\ k a s1 = (Ok b, s').
Proof.
  unfold bind. destruct (m s) as [[a|e] s1]; intros H; [eauto | discriminate].
Qed.

(** A returning first step. *)
Lemma bind_run {S A B} (m : M S A) (k : A -> M S B) s a s1 :
  m s = (Ok a, s1) -> bind m k s = k a s1.
Proof. intros H. unfold bind. rewrite H. reflexivity. Qed.

Lemma lift_Ok {S A} (r : result A) (s : S) a s' :
  lift r s = (Ok a, s') -> r = Ok a /\ s' = s.
Proof. unfold lift. intros H. inversion H. auto. Qed.

Lemma rbind_Ok {A B} (r : result A) (k : A -> result B) b :
  rbind r k = Ok b -> exists a, r = Ok a /\ k a = Ok b.
Proof. destruct r; simpl; intros H; [eauto | discriminate]. Qed.

End Hoare.

Import Hoare.

(** * Proofs: lists and the error monad *)

Module ListFacts.


Lemma rmapM_Ok {A B} (f : A -> result B) (l : list A) (l' : list B) :
  rmapM f l = Ok l' ->
  length l' = length l /\
  forall k x, l !! k = Some x -> exists y, f x = Ok y /\ l' !! k = Some y.
Proof.
  revert l'. induction l as [|x l IH]; simpl; intros l' H.
  - inversion H. split; [reflexivity|]. intros k x Hk. discriminate Hk.
  - apply rbind_Ok in H. destruct H as (y & Hy & H).
    apply rbind_Ok in H. destruct H as (ys & Hys & H). inversion H; subst.
    destruct (IH ys Hys) as [Hlen Hlook]. split; [simpl; congruence|].
    intros [|k] x' Hk; simpl in *.
    + inversion Hk; subst. eauto.
    + apply Hlook, Hk.
Qed.

End ListFacts.

Import ListFacts.

(** * Proofs: the buffers *)

Module BufferProofs.

(** ** Construction *)

Lemma zeros_Ok {A} `{!Cell A} d0 d1 rest (h : Heap) (a : list (list A)) h' :
  zeros d0 d1 rest h = (Ok a, h') ->
  0 <= d0 /\ 0 <= d1 /\
  a = replicate (Z.to_nat d0) (replicate (Z.to_nat d1) (zeros_like rest)) /\
  h' = h ++ [d0 :: d1 :: rest].
Proof.
  unfold zeros, raise, bind, modify, ret.
  destruct (forallb _ _) eqn:E; [|discriminate].
  simpl in E. apply andb_prop in E. destruct E as [E0 E].
  apply andb_prop in E. destruct E as [E1 _].
  intros H. inversion H. repeat split; lia.
Qed.

Lemma zeros_Raise {A} `{!Cell A} d0 d1 rest (h h' : Heap) e :
  @zeros A _ d0 d1 rest h = (Raise e, h') ->
  e = ValueError "negative dimensions are not allowed" /\ h' = h.
Proof.
  unfold zeros, raise, bind, modify, ret. destruct (forallb _ _); [discriminate|].
  intros H. inversion H. auto.
Qed.

Lemma cells_replicate {A} (P : A -> Prop) n m x : P x -> cells P (replicate n (replicate m x)).
Proof. intros H. apply Forall_replicate, Forall_replicate, H. Qed.

Lemma floordiv_Ok a b q : floordiv a b = Ok q -> b <> 0 /\ q = a / b.
Proof.
  unfold floordiv. destruct (b =? 0) eqn:E; [discriminate|].
  intros H. inversion H. split; [lia | reflexivity].
Qed.

Ltac inv_Ok H :=
  repeat match type of H with
  | bind _ _ _ = (Ok _, _) =>
      let a := fresh "a" in let s := fresh "s" in let H1 := fresh "H" in
      apply bind_Ok in H; destruct H as (a & s & H1 & H)
  end.

Section Init.
Context {Obs Act : Type} `{!Cell Obs} `{!Cell Act}.

(** What a returning [ReplayBuffer.__init__] has established. *)
Lemma rb_init_Ok buffer_size0 obs_shape action_dim action_n n_envs0 opt handle h
    (b : Buffer (list (list Obs)) Act) h' :
  ReplayBuffer.__init__ buffer_size0 obs_shape action_dim action_n n_envs0 opt handle h
    = (Ok b, h') ->
  n_envs0 <> 0 /\ 0 <= n_envs0 /\ (opt && handle = false) /\
  buffer_size b = Z.max (buffer_size0 / n_envs0) 1 /\
  n_envs b = n_envs0 /\ pos b = 0 /\ full b = false /\
  optimize_memory_usage b = opt /\ handle_timeout_termination b = handle /\
  dones b = replicate (Z.to_nat (buffer_size b)) (replicate (Z.to_nat n_envs0) zero) /\
  timeouts b = replicate (Z.to_nat (buffer_size b)) (replicate (Z.to_nat n_envs0) zero).
Proof.
  unfold ReplayBuffer.__init__. intros H.
  apply bind_Ok in H. destruct H as (q & s & Hq & H).
  apply lift_Ok in Hq. destruct Hq as [Hq ->].
  apply floordiv_Ok in Hq. destruct Hq as [Hn ->].
  destruct (opt && handle) eqn:Eflags; [discriminate|].
  inv_Ok H.
  repeat match goal with
  | Hz : zeros _ _ _ _ = (Ok _, _) |- _ => apply zeros_Ok in Hz; destruct Hz as (? & ? & ? & ?)
  end.
  inversion H; subst; simpl. repeat split; auto.
Qed.

Lemma rb_init_wf buffer_size0 obs_shape action_dim action_n n_envs0 opt handle h
    (b : Buffer (list (list Obs)) Act) h' :
  ReplayBuffer.__init__ buffer_size0 obs_shape action_dim action_n n_envs0 opt handle h
    = (Ok b, h') ->
  wf b.
Proof.
  intros H. apply rb_init_Ok in H.
  destruct H as (Hn & Hn0 & _ & Hbs & Hne & Hpos & _ & _ & _ & Hd & Ht).
  split.
  - lia.
  - lia.
  - lia.
  - rewrite Hd. apply cells_replicate. left; reflexivity.
  - intros _. rewrite Ht. apply cells_replicate. reflexivity.
Qed.

(** What a returning [DictReplayBuffer.__init__] has established. *)
Lemma db_init_Ok buffer_size0 obs_shape action_dim action_n n_envs0 opt handle h
    (b : Buffer (gmap string (list (list Obs))) Act) h' :
  DictReplayBuffer.__init__ buffer_size0 obs_shape action_dim action_n n_envs0 opt handle h
    = (Ok b, h') ->
  n_envs0 <> 0 /\ 0 <= n_envs0 /\ opt = false /\
  buffer_size b = Z.max (buffer_size0 / n_envs0) 1 /\
  n_envs b = n_envs0 /\ pos b = 0 /\ full b = false /\
  optimize_memory_usage b = opt /\ handle_timeout_termination b = handle /\
  dones b = replicate (Z.to_nat (buffer_size b)) (replicate (Z.to_nat n_envs0) zero) /\
  timeouts b = replicate (Z.to_nat (buffer_size b)) (replicate (Z.to_nat n_envs0) zero).
Proof.
  unfold DictReplayBuffer.__init__. intros H.
  destruct obs_shape as [shape|shapes]; [discriminate|].
  apply bind_Ok in H. destruct H as (q & s & Hq & H).
  apply lift_Ok in Hq. destruct Hq as [Hq ->].
  apply floordiv_Ok in Hq. destruct Hq as [Hn ->].
  destruct opt; [discriminate|].
  inv_Ok H.
  repeat match goal with
  | Hz : zeros _ _ _ _ = (Ok _, _) |- _ => apply zeros_Ok in Hz; destruct Hz as (? & ? & ? & ?)
  end.
  inversion H; subst; simpl. repeat split; auto.
Qed.

Lemma db_init_wf buffer_size0 obs_shape action_dim action_n n_envs0 opt handle h
    (b : Buffer (gmap string (list (list Obs))) Act) h' :
  DictReplayBuffer.__init__ buffer_size0 obs_shape action_dim action_n n_envs0 opt handle h
    = (Ok b, h') ->
  wf b.
Proof.
  intros H. apply db_init_Ok in H.
  destruct H as (Hn & Hn0 & _ & Hbs & Hne & Hpos & _ & _ & _ & Hd & Ht).
  split.
  - lia.
  - lia.
  - lia.
  - rewrite Hd. apply cells_replicate. left; reflexivity.
  - intros _. rewrite Ht. apply cells_replicate. reflexivity.
Qed.

Lemma zeros_raises_only {A} `{!Cell A} (E : exn -> Prop) d0 d1 rest :
  E (ValueError "negative dimensions are not allowed") ->
  raises_only E (@zeros A _ d0 d1 rest).
Proof.
  intros HE s e s' H. apply zeros_Raise in H. destruct H as [-> _]. exact HE.
Qed.

End Init.

(** ** [add] *)


Lemma index_nonneg n i : 0 <= i < Z.of_nat n -> index n i = Ok (Z.to_nat i).
Proof.
  intros H. unfold index.
  destruct ((0 <=? i) && (i <? Z.of_nat n)) eqn:E1; [reflexivity|].
  apply andb_false_iff in E1. lia.
Qed.

Lemma broadcast_to_Forall {A} (P : A -> Prop) n (row row' : list A) :
  broadcast_to n row = Ok row' -> Forall P row -> Forall P row'.
Proof.
  unfold broadcast_to. destruct (decide (length row = n)).
  - intros H. inversion H. auto.
  - destruct row as [|x [|y row]]; try discriminate.
    intros H Hrow. inversion H. apply Forall_replicate.
    inversion Hrow; assumption.
Qed.

Lemma broadcast_to_same {A} n (row : list A) :
  length row = n -> broadcast_to n row = Ok row.
Proof. intros H. unfold broadcast_to. destruct (decide _); [reflexivity | contradiction]. Qed.

Lemma setrow_Ok {A} n (a : list (list A)) i row a' :
  setrow n a i row = Ok a' ->
  exists k row', index (length a) i = Ok k /\ broadcast_to n row = Ok row' /\
                 a' = <[k := row']> a.
Proof.
  unfold setrow. intros H.
  apply rbind_Ok in H. destruct H as (k & Hk & H).
  apply rbind_Ok in H. destruct H as (row' & Hrow & H).
  inversion H. eauto.
Qed.

Lemma setrow_cells {A} (P : A -> Prop) n (a : list (list A)) i row a' :
  cells P a -> Forall P row -> setrow n a i row = Ok a' -> cells P a'.
Proof.
  intros Ha Hrow H. apply setrow_Ok in H. destruct H as (k & row' & _ & Hb & ->).
  apply Forall_insert; [exact Ha|]. eapply broadcast_to_Forall; eauto.
Qed.

Lemma of_bool_flags (l : list bool) : Forall is_flag (map of_bool l).
Proof.
  apply Forall_forall. intros x Hx. apply list_elem_of_In, in_map_iff in Hx.
  destruct Hx as (c & <- & _). destruct c; [right | left]; reflexivity.
Qed.

Section Add.
Context {O Act : Type}.
Implicit Types b s : Buffer O Act.

Lemma body_inv_refl b : wf b -> body_inv b b.
Proof. intros H. repeat split; auto; apply H. Qed.

Lemma assign_inv {A} (I : Buffer O Act -> Prop)
    (arr : Buffer O Act -> list (list A)) set_arr i row :
  (forall s a, I s -> setrow (Z.to_nat (n_envs s)) (arr s) i row = Ok a -> I (set_arr a s)) ->
  inv I (assign arr set_arr i row).
Proof.
  intros H s Hs. unfold assign, bind, get, lift, modify.
  destruct (setrow _ _ _ _) as [a|e] eqn:Ea; [|exact Hs].
  apply H; assumption.
Qed.

(** A state that differs from one satisfying the invariant only in arrays
    the invariant does not mention. *)
Lemma body_inv_frame b0 s s' :
  body_inv b0 s ->
  buffer_size s' = buffer_size s -> n_envs s' = n_envs s ->
  pos s' = pos s -> full s' = full s ->
  optimize_memory_usage s' = optimize_memory_usage s ->
  handle_timeout_termination s' = handle_timeout_termination s ->
  dones s' = dones s -> timeouts s' = timeouts s ->
  body_inv b0 s'.
Proof.
  intros (Hwf & (F1 & F2 & F3 & F4) & (P1 & P2)) E1 E2 E3 E4 E5 E6 E7 E8.
  destruct Hwf as [W1 W2 W3 W4 W5].
  split; [split|split; [repeat split|split]].
  - rewrite E1. exact W1.
  - rewrite E2. exact W2.
  - rewrite E3, E1. exact W3.
  - rewrite E7. exact W4.
  - rewrite E8. intros Hh. apply W5. congruence.
  - congruence.
  - congruence.
  - congruence.
  - congruence.
  - congruence.
  - congruence.
Qed.

Lemma body_inv_dones b0 s a i (done : list bool) :
  body_inv b0 s ->
  setrow (Z.to_nat (n_envs s)) (dones s) i (map of_bool done) = Ok a ->
  body_inv b0 (set_dones a s).
Proof.
  intros (Hwf & Hfr & Hpt) Ha.
  destruct Hwf as [W1 W2 W3 W4 W5].
  split; [split|split]; try assumption.
  simpl. eapply setrow_cells; [exact W4 | apply of_bool_flags | exact Ha].
Qed.

Lemma body_inv_timeouts b0 s a :
  body_inv b0 s -> handle_timeout_termination s = true ->
  body_inv b0 (set_timeouts a s).
Proof.
  intros (Hwf & Hfr & Hpt) Hh.
  destruct Hwf as [W1 W2 W3 W4 W5].
  split; [split|split]; try assumption.
  simpl. intros Hf. congruence.
Qed.

(** The last statements of [add]. *)
Lemma advance_eq s :
  advance s =
  (Ok tt, if pos s + 1 =? buffer_size s
          then set_pos 0 (set_full true (set_pos (pos s + 1) s))
          else set_pos (pos s + 1) s).
Proof.
  unfold advance, bind, modify, get, when, ret. simpl.
  destruct (pos s + 1 =? buffer_size s); reflexivity.
Qed.

Lemma advance_spec b0 :
  hoare (body_inv b0) advance
    (fun _ s => wf s /\ same_frame b0 s /\ advanced b0 s) (body_inv b0).
Proof.
  intros s (Hwf & (F1 & F2 & F3 & F4) & (P1 & P2)). rewrite advance_eq.
  destruct Hwf as [W1 W2 W3 W4 W5]. unfold advanced.
  rewrite <- P1, <- F1.
  destruct (pos s + 1 =? buffer_size s) eqn:E.
  - split; [split; simpl; auto; lia|]. split; [repeat split; assumption|]. simpl. auto.
  - split; [split; simpl; auto; lia|]. split; [repeat split; assumption|]. simpl. auto.
Qed.

(** The statements of [add] that both classes share. *)
Lemma assign_actions_inv b0 i (row : list Act) :
  inv (body_inv b0) (assign actions set_actions i row).
Proof.
  apply assign_inv. intros s a Hs _. eapply body_inv_frame; [exact Hs | reflexivity..].
Qed.

Lemma assign_rewards_inv b0 i row :
  inv (body_inv b0) (assign (O:=O) (Act:=Act) rewards set_rewards i row).
Proof.
  apply assign_inv. intros s a Hs _. eapply body_inv_frame; [exact Hs | reflexivity..].
Qed.

Lemma assign_truth_masks_inv b0 i row :
  inv (body_inv b0) (assign (O:=O) (Act:=Act) truth_masks set_truth_masks i row).
Proof.
  apply assign_inv. intros s a Hs _. eapply body_inv_frame; [exact Hs | reflexivity..].
Qed.

Lemma assign_dones_inv b0 i (done : list bool) :
  inv (body_inv b0) (assign (O:=O) (Act:=Act) dones set_dones i (map of_bool done)).
Proof.
  apply assign_inv. intros s a Hs Ha. eapply body_inv_dones; eauto.
Qed.

Lemma assign_timeouts_inv b0 i row :
  handle_timeout_termination b0 = true ->
  inv (body_inv b0) (assign (O:=O) (Act:=Act) timeouts set_timeouts i row).
Proof.
  intros Hh. apply assign_inv. intros s a Hs _.
  apply body_inv_timeouts; [exact Hs|].
  destruct Hs as (_ & (_ & _ & _ & F4) & _). congruence.
Qed.

Lemma add_tail_spec b0 action reward done infos truth_mask :
  hoare (body_inv b0) (add_tail b0 action reward done infos truth_mask)
    (fun _ s => wf s /\ same_frame b0 s /\ advanced b0 s) (body_inv b0).
Proof.
  unfold add_tail.
  apply inv_then; [apply assign_actions_inv | intros _].
  apply inv_then; [apply assign_rewards_inv | intros _].
  apply inv_then; [apply assign_dones_inv | intros _].
  apply inv_then; [apply inv_when, assign_timeouts_inv | intros _].
  apply inv_then; [apply assign_truth_masks_inv | intros _].
  apply advance_spec.
Qed.

End Add.

Section AddReplayBuffer.
Context {Obs Act : Type}.
Implicit Types b s : Buffer (list (list Obs)) Act.

Lemma assign_observations_inv b0 i (row : list Obs) :
  inv (body_inv b0) (assign (Act:=Act) observations set_observations i row).
Proof.
  apply assign_inv. intros s a Hs _. eapply body_inv_frame; [exact Hs | reflexivity..].
Qed.

Lemma assign_next_observations_inv b0 i (row : list Obs) :
  inv (body_inv b0) (ReplayBuffer.assign_next_observations (Act:=Act) i row).
Proof.
  intros s Hs. unfold ReplayBuffer.assign_next_observations, bind, get, lift, modify, raise.
  destruct (next_observations s) as [a|]; [|exact Hs].
  destruct (setrow _ _ _ _) as [a'|e]; [|exact Hs].
  eapply body_inv_frame; [exact Hs | reflexivity..].
Qed.

Lemma rb_add_spec b0 obs next_obs action reward done infos truth_mask :
  wf b0 ->
  add_post b0 (ReplayBuffer.add obs next_obs action reward done infos truth_mask b0).
Proof.
  intros Hwf.
  assert (H : hoare (body_inv b0)
            (action' <- lift (reshape_rows (Z.to_nat (n_envs b0)) action) ;;
             assign observations set_observations (pos b0) obs ;;
             (if optimize_memory_usage b0
              then i <- lift (Py.mod_ (pos b0 + 1) (buffer_size b0)) ;;
                   assign observations set_observations i next_obs
              else ReplayBuffer.assign_next_observations (pos b0) next_obs) ;;
             add_tail b0 action' reward done infos truth_mask)
            (fun _ s => wf s /\ same_frame b0 s /\ advanced b0 s) (body_inv b0)).
  { apply inv_then; [apply inv_lift | intros action'].
    apply inv_then; [apply assign_observations_inv | intros _].
    apply inv_then; [|intros _; apply add_tail_spec].
    destruct (optimize_memory_usage b0); [|apply assign_next_observations_inv].
    apply inv_bind; [apply inv_lift | intros i; apply assign_observations_inv]. }
  exact (H b0 (body_inv_refl b0 Hwf)).
Qed.

End AddReplayBuffer.

Section AddDictReplayBuffer.
Context {Obs Act : Type}.
Implicit Types b s : Buffer (gmap string (list (list Obs))) Act.

Lemma assign_obs_inv b0 obs key :
  inv (body_inv b0) (DictReplayBuffer.assign_obs (Obs:=Obs) (Act:=Act) obs key).
Proof.
  intros s Hs. unfold DictReplayBuffer.assign_obs, bind, get, lift, modify.
  destruct (dict_getitem obs key); [|exact Hs].
  destruct (dict_getitem (observations s) key); [|exact Hs].
  destruct (setrow _ _ _ _); [|exact Hs].
  eapply body_inv_frame; [exact Hs | reflexivity..].
Qed.

Lemma assign_next_obs_inv b0 next_obs key :
  inv (body_inv b0) (DictReplayBuffer.assign_next_obs (Obs:=Obs) (Act:=Act) next_obs key).
Proof.
  intros s Hs. unfold DictReplayBuffer.assign_next_obs, bind, get, lift, modify, raise.
  destruct (next_observations s) as [nobs|]; [|exact Hs].
  destruct (dict_getitem next_obs key); [|exact Hs].
  destruct (dict_getitem nobs key); [|exact Hs].
  destruct (setrow _ _ _ _); [|exact Hs].
  eapply body_inv_frame; [exact Hs | reflexivity..].
Qed.

Lemma db_add_spec b0 obs next_obs action reward done infos truth_mask :
  wf b0 ->
  add_post b0 (DictReplayBuffer.add obs next_obs action reward done infos truth_mask b0).
Proof.
  intros Hwf.
  assert (H : hoare (body_inv b0)
            (for_each (DictReplayBuffer.keys (observations b0))
               (DictReplayBuffer.assign_obs obs) ;;
             nkeys <- lift (match next_observations b0 with
                            | Some nobs => Ok (DictReplayBuffer.keys nobs)
                            | None => Raise (AttributeError "next_observations")
                            end) ;;
             for_each nkeys (DictReplayBuffer.assign_next_obs next_obs) ;;
             action' <- lift (reshape_rows (Z.to_nat (n_envs b0)) action) ;;
             add_tail b0 action' reward done infos truth_mask)
            (fun _ s => wf s /\ same_frame b0 s /\ advanced b0 s) (body_inv b0)).
  { apply inv_then; [apply inv_for_each, assign_obs_inv | intros _].
    apply inv_then; [apply inv_lift | intros nkeys].
    apply inv_then; [apply inv_for_each, assign_next_obs_inv | intros _].
    apply inv_then; [apply inv_lift | intros action'].
    apply add_tail_spec. }
  exact (H b0 (body_inv_refl b0 Hwf)).
Qed.

End AddDictReplayBuffer.

(** ** Every state of a buffer object is well formed *)

Section Reachable.
Context {Obs Act : Type} `{!Cell Obs} `{!Cell Act}.

Lemma add_post_wf {O} (b0 : Buffer O Act) out : add_post b0 out -> wf (snd out).
Proof. destruct out as [[u|e] s]; simpl; intros H; apply H. Qed.

Lemma rb_reachable_wf (b : Buffer (list (list Obs)) Act) : rb_reachable b -> wf b.
Proof.
  induction 1 as [? ? ? ? ? ? ? ? b ? Hinit | b ? ? ? ? ? ? ? r b' _ IH Hadd].
  - eapply rb_init_wf, Hinit.
  - pose proof (rb_add_spec b obs next_obs action reward done infos truth_mask IH) as H.
    rewrite Hadd in H. apply add_post_wf in H. exact H.
Qed.

Lemma db_reachable_wf (b : Buffer (gmap string (list (list Obs))) Act) :
  db_reachable b -> wf b.
Proof.
  induction 1 as [? ? ? ? ? ? ? ? b ? Hinit | b ? ? ? ? ? ? ? r b' _ IH Hadd].
  - eapply db_init_wf, Hinit.
  - pose proof (db_add_spec b obs next_obs action reward done infos truth_mask IH) as H.
    rewrite Hadd in H. apply add_post_wf in H. exact H.
Qed.

End Reachable.

(** ** The claims about construction *)

Section InitClaims.
Context {Obs Act : Type} `{!Cell Obs} `{!Cell Act}.

(** C10.  A constructed [ReplayBuffer] or [DictReplayBuffer] has
    [self.buffer_size = max(buffer_size // n_envs, 1)] slots per
    environment.  That is at least 1, and exactly 1 when
    [0 <= buffer_size < n_envs]; the total [self.buffer_size * n_envs] can be
    smaller than the requested [buffer_size] (5 requested with 2
    environments gives 2 * 2 = 4). *)
Theorem C10_slots_per_environment :
  (forall buffer_size0 obs_shape action_dim action_n n_envs0 opt handle h
          (b : Buffer (list (list Obs)) Act) h',
     ReplayBuffer.__init__ buffer_size0 obs_shape action_dim action_n n_envs0 opt handle h
       = (Ok b, h') ->
     buffer_size b = Z.max (buffer_size0 / n_envs0) 1 /\ 1 <= buffer_size b /\
     (0 <= buffer_size0 < n_envs0 -> buffer_size b = 1)) /\
  (forall buffer_size0 obs_shape action_dim action_n n_envs0 opt handle h
          (b : Buffer (gmap string (list (list Obs))) Act) h',
     DictReplayBuffer.__init__ buffer_size0 obs_shape action_dim action_n n_envs0 opt handle h
       = (Ok b, h') ->
     buffer_size b = Z.max (buffer_size0 / n_envs0) 1 /\ 1 <= buffer_size b /\
     (0 <= buffer_size0 < n_envs0 -> buffer_size b = 1)) /\
  (exists (b : Buffer (list (list Obs)) Act) h',
     ReplayBuffer.__init__ 5 (ShapeTuple []) 1 3 2 false true [] = (Ok b, h') /\
     buffer_size b * n_envs b < 5) /\
  (exists (b : Buffer (gmap string (list (list Obs))) Act) h',
     DictReplayBuffer.__init__ 5 (ShapeDict ∅) 1 3 2 false true [] = (Ok b, h') /\
     buffer_size b * n_envs b < 5).
Proof.
  split; [|split; [|split]].
  - intros * H. apply rb_init_Ok in H.
    destruct H as (Hn & Hn0 & _ & Hbs & _). rewrite Hbs.
    split; [reflexivity|]. split; [lia|].
    intros Hlt. rewrite Z.div_small by lia. reflexivity.
  - intros * H. apply db_init_Ok in H.
    destruct H as (Hn & Hn0 & _ & Hbs & _). rewrite Hbs.
    split; [reflexivity|]. split; [lia|].
    intros Hlt. rewrite Z.div_small by lia. reflexivity.
  - eexists _, _. split; [lazy; reflexivity|]. simpl. lia.
  - eexists _, _. split; [lazy; reflexivity|]. simpl. lia.
Qed.

Lemma rb_init_raises_only (E : exn -> Prop)
    buffer_size0 obs_shape action_dim action_n n_envs0 opt handle :
  E ZeroDivisionError -> E TypeError ->
  E (ValueError "negative dimensions are not allowed") ->
  (opt && handle = true -> E (ValueError incompatible_msg)) ->
  raises_only E
    (ReplayBuffer.__init__ (Obs:=Obs) (Act:=Act)
       buffer_size0 obs_shape action_dim action_n n_envs0 opt handle).
Proof.
  intros Hz Ht Hv Hi. unfold ReplayBuffer.__init__.
  apply raises_only_bind.
  { apply raises_only_lift. unfold floordiv. intros e.
    destruct (n_envs0 =? 0); intros H; inversion H; subst; exact Hz. }
  intros q. cbv zeta.
  destruct (opt && handle); [apply raises_only_raise, Hi; reflexivity|].
  apply raises_only_bind.
  { apply raises_only_lift. unfold ReplayBuffer.unpack_obs_shape. intros e.
    destruct obs_shape as [shape|shapes]; [discriminate|].
    destruct (decide _); intros H; inversion H; subst; exact Ht. }
  intros shape.
  apply raises_only_bind; [apply zeros_raises_only, Hv | intros ?].
  apply raises_only_bind.
  { destruct (negb opt); [|apply raises_only_ret].
    apply raises_only_bind; [apply zeros_raises_only, Hv | intros ?].
    apply raises_only_ret. }
  intros ?.
  repeat (apply raises_only_bind; [apply zeros_raises_only, Hv | intros ?]).
  apply raises_only_ret.
Qed.

(** C4 (as amended).  With [n_envs <> 0], constructing a [ReplayBuffer]
    with [optimize_memory_usage = True] and [handle_timeout_termination =
    True] raises the [ValueError] of the option check, and the heap is the
    one before the call: no array was allocated.  With [n_envs = 0] the
    size adjustment [buffer_size // n_envs] raises [ZeroDivisionError]
    first, whatever the flags.  For every other combination of the two
    flags the construction never raises that [ValueError]. *)
Theorem C4_incompatible_options :
  (forall buffer_size0 obs_shape action_dim action_n n_envs0 h,
     n_envs0 <> 0 ->
     ReplayBuffer.__init__ (Obs:=Obs) (Act:=Act)
       buffer_size0 obs_shape action_dim action_n n_envs0 true true h
     = (Raise (ValueError incompatible_msg), h)) /\
  (forall buffer_size0 obs_shape action_dim action_n opt handle h,
     ReplayBuffer.__init__ (Obs:=Obs) (Act:=Act)
       buffer_size0 obs_shape action_dim action_n 0 opt handle h
     = (Raise ZeroDivisionError, h)) /\
  (forall buffer_size0 obs_shape action_dim action_n n_envs0 opt handle h,
     opt && handle = false ->
     fst (ReplayBuffer.__init__ (Obs:=Obs) (Act:=Act)
            buffer_size0 obs_shape action_dim action_n n_envs0 opt handle h)
     <> Raise (ValueError incompatible_msg)).
Proof.
  split; [|split].
  - intros * Hn. unfold ReplayBuffer.__init__, bind, lift, floordiv, raise.
    destruct (n_envs0 =? 0) eqn:E; [lia | reflexivity].
  - intros *. reflexivity.
  - intros * Hflags Hfst.
    destruct (ReplayBuffer.__init__ _ _ _ _ _ _ _ _) as [r h'] eqn:Hinit.
    simpl in Hfst. subst r.
    eapply (rb_init_raises_only (fun e => e <> ValueError incompatible_msg)) in Hinit.
    + apply Hinit. reflexivity.
    + discriminate.
    + discriminate.
    + unfold incompatible_msg. discriminate.
    + rewrite Hflags. discriminate.
Qed.

(** C9 (as amended).  Constructing a [DictReplayBuffer] with
    [optimize_memory_usage = True] always fails, for every value of
    [handle_timeout_termination], and before any array is allocated: with
    an [AssertionError] when [n_envs <> 0], and with the
    [ZeroDivisionError] of [buffer_size // n_envs] when [n_envs = 0] and
    the observation space is a dict.  [ReplayBuffer] accepts the option
    when [handle_timeout_termination = False], so the rejection is
    strictly stronger. *)
Theorem C9_dict_buffer_rejects_memory_optimization :
  (forall buffer_size0 obs_shape action_dim action_n n_envs0 handle h,
     exists e,
       DictReplayBuffer.__init__ (Obs:=Obs) (Act:=Act)
         buffer_size0 obs_shape action_dim action_n n_envs0 true handle h
       = (Raise e, h) /\
       (n_envs0 <> 0 -> exists msg, e = AssertionError msg) /\
       (n_envs0 = 0 -> forall shapes, obs_shape = ShapeDict shapes ->
        e = ZeroDivisionError)) /\
  (forall buffer_size0 shapes action_dim action_n n_envs0 handle h,
     n_envs0 <> 0 ->
     DictReplayBuffer.__init__ (Obs:=Obs) (Act:=Act)
       buffer_size0 (ShapeDict shapes) action_dim action_n n_envs0 true handle h
     = (Raise (AssertionError dict_optimize_msg), h)) /\
  (exists (b : Buffer (list (list Obs)) Act) h',
     ReplayBuffer.__init__ 5 (ShapeTuple []) 1 3 2 true false [] = (Ok b, h') /\
     optimize_memory_usage b = true).
Proof.
  split; [|split].
  - intros *. unfold DictReplayBuffer.__init__, bind, lift, floordiv, raise.
    destruct obs_shape as [shape|shapes].
    + eexists. split; [reflexivity|]. split; [eauto | discriminate].
    + destruct (n_envs0 =? 0) eqn:E.
      * eexists. split; [reflexivity|]. split; [lia | reflexivity].
      * eexists. split; [reflexivity|]. split; [eauto | lia].
  - intros * Hn. unfold DictReplayBuffer.__init__, bind, lift, floordiv, raise.
    destruct (n_envs0 =? 0) eqn:E; [lia | reflexivity].
  - eexists _, _. split; [lazy; reflexivity | reflexivity].
Qed.

End InitClaims.

(** With [n_envs = 0] and both flags set, the constructor of
    [ReplayBuffer] raises [ZeroDivisionError], not a [ValueError]. *)
Lemma C4_counterexample :
  fst (ReplayBuffer.__init__ (Obs:=Z) (Act:=Z) 10 (ShapeTuple [2]) 1 4 0 true true [])
  = Raise ZeroDivisionError /\
  forall msg,
    fst (ReplayBuffer.__init__ (Obs:=Z) (Act:=Z) 10 (ShapeTuple [2]) 1 4 0 true true [])
    <> Raise (ValueError msg).
Proof. split; [reflexivity | intros msg; discriminate]. Qed.

Lemma C4_witness :
  ReplayBuffer.__init__ (Obs:=Z) (Act:=Z) 10 (ShapeTuple [2]) 1 4 2 true true []
  = (Raise (ValueError incompatible_msg), []) /\
  fst (ReplayBuffer.__init__ (Obs:=Z) (Act:=Z) 10 (ShapeTuple [2]) 1 4 2 true false [])
  <> Raise (ValueError incompatible_msg).
Proof.
  split.
  - apply (proj1 C4_incompatible_options). lia.
  - apply (proj2 (proj2 C4_incompatible_options)). reflexivity.
Defined.

(** With [n_envs = 0] the constructor of [DictReplayBuffer] fails with
    [ZeroDivisionError], not with an assertion error. *)
Lemma C9_counterexample :
  fst (DictReplayBuffer.__init__ (Obs:=Z) (Act:=Z) 10 (ShapeDict ex_shapes) 1 4 0 true false [])
  = Raise ZeroDivisionError /\
  forall msg,
    fst (DictReplayBuffer.__init__ (Obs:=Z) (Act:=Z) 10 (ShapeDict ex_shapes) 1 4 0 true false [])
    <> Raise (AssertionError msg).
Proof. split; [reflexivity | intros msg; discriminate]. Qed.

Lemma C9_witness :
  DictReplayBuffer.__init__ (Obs:=Z) (Act:=Z) 10 (ShapeDict ex_shapes) 1 4 2 true false []
  = (Raise (AssertionError dict_optimize_msg), []).
Proof.
  apply (proj1 (proj2 C9_dict_buffer_rejects_memory_optimization)). lia.
Defined.

Lemma C10_witness :
  buffer_size ex_rb0 = Z.max (5 / 2) 1 /\ 1 <= buffer_size ex_rb0 /\
  (0 <= 5 < 2 -> buffer_size ex_rb0 = 1).
Proof.
  apply (proj1 C10_slots_per_environment 5 (ShapeTuple []) 1 3 2 true false [] ex_rb0
           (snd (ReplayBuffer.__init__ (Obs:=Z) (Act:=Z)
                   5 (ShapeTuple []) 1 3 2 true false []))).
  vm_compute. reflexivity.
Defined.

(** ** The write pointer *)

Lemma add_post_pointer_step {O Act} (b : Buffer O Act) r b' :
  add_post b (r, b') -> pointer_step b r b'.
Proof.
  unfold add_post, pointer_step.
  destruct r as [u|e].
  - intros (Hwf & (F1 & _) & Hadv). unfold advanced in Hadv.
    split; [apply Hwf|]. split; [exact F1|].
    destruct (pos b + 1 =? buffer_size b).
    + split; [intros _; apply Hadv | exact Hadv].
    + split; [intros Hf; destruct Hadv as [_ ->]; exact Hf | exact Hadv].
  - intros (Hwf & (F1 & _) & (P1 & P2)).
    split; [apply Hwf|]. split; [exact F1|].
    split; [intros Hf; congruence | split; assumption].
Qed.

(** C2.  After every call of [add], on a [ReplayBuffer] or a
    [DictReplayBuffer], [0 <= self.pos < self.buffer_size].  A call that
    returns has incremented [pos] by one, except that exactly when the
    incremented value equals [buffer_size] it is reset to 0 and [full] is
    set; [full] never goes back to [False].  (A call that raises leaves
    [pos] and [full] as they were.) *)
Theorem C2_write_pointer_wraps {Obs Act : Type} `{!Cell Obs} `{!Cell Act} :
  (forall (b : Buffer (list (list Obs)) Act)
          obs next_obs action reward done infos truth_mask r b',
     rb_reachable b ->
     ReplayBuffer.add obs next_obs action reward done infos truth_mask b = (r, b') ->
     pointer_step b r b') /\
  (forall (b : Buffer (gmap string (list (list Obs))) Act)
          obs next_obs action reward done infos truth_mask r b',
     db_reachable b ->
     DictReplayBuffer.add obs next_obs action reward done infos truth_mask b = (r, b') ->
     pointer_step b r b').
Proof.
  split.
  - intros * Hreach Hadd. apply add_post_pointer_step. rewrite <- Hadd.
    apply rb_add_spec, rb_reachable_wf, Hreach.
  - intros * Hreach Hadd. apply add_post_pointer_step. rewrite <- Hadd.
    apply db_add_spec, db_reachable_wf, Hreach.
Qed.

(** ** Sampling *)


Lemma randint_Ok low high size (rs : RandomState) l rs' :
  randint low high size rs = (Ok l, rs') ->
  length l = Z.to_nat size /\ Forall (fun x => low <= x < high) l.
Proof.
  unfold randint, raise, ret, bind, get, modify.
  destruct (size =? 0) eqn:E2.
  - intros H. inversion H. split; [simpl; lia | constructor].
  - destruct (high <=? low) eqn:E3; [discriminate|].
    destruct (size <? 0) eqn:E1; [discriminate|].
    intros H. inversion H. split.
    + rewrite length_map, length_seq. reflexivity.
    + apply Forall_forall. intros x Hx. apply list_elem_of_In, in_map_iff in Hx.
      destruct Hx as (k & <- & _).
      pose proof (Z.mod_pos_bound (rs k) (high - low)). lia.
Qed.

Lemma randint_total low high size (rs : RandomState) :
  0 <= size -> (size = 0 \/ low < high) ->
  exists l rs', randint low high size rs = (Ok l, rs').
Proof.
  intros Hs Hb. unfold randint, raise, ret, bind, get, modify.
  destruct (size =? 0) eqn:E2; [eauto|].
  destruct (high <=? low) eqn:E3; [lia|].
  destruct (size <? 0) eqn:E1; [lia | eauto].
Qed.

Lemma np_mod_pos x n : 0 < n -> mod_ x n = x mod n.
Proof. intros H. unfold mod_. destruct (n =? 0) eqn:E; [lia | reflexivity]. Qed.

Lemma py_mod_Ok x n i : Py.mod_ x n = Ok i -> n <> 0 /\ i = x mod n.
Proof.
  unfold Py.mod_. destruct (n =? 0) eqn:E; [discriminate|].
  intros H. inversion H. split; [lia | reflexivity].
Qed.

Lemma wrap_avoids_pointer r p n :
  1 <= r < n -> 0 <= p < n -> (r + p) mod n <> p /\ 0 <= (r + p) mod n < n.
Proof.
  intros Hr Hp. split; [|apply Z.mod_pos_bound; lia].
  destruct (Z_lt_dec (r + p) n) as [Hlt|Hge].
  - rewrite Z.mod_small by lia. lia.
  - replace (r + p) with ((r + p - n) + 1 * n) by lia.
    rewrite Z_mod_plus_full, Z.mod_small by lia. lia.
Qed.










Section Tail.
Context {O Act : Type}.


End Tail.

Section SampleClaims.
Context {Obs Act : Type} `{!Cell Obs} `{!Cell Act}.
Implicit Types b : Buffer (list (list Obs)) Act.

Lemma optimized_batch_inds_Ok b batch_size rs inds rs' :
  wf b ->
  ReplayBuffer.optimized_batch_inds b batch_size rs = (Ok inds, rs') ->
  length inds = Z.to_nat batch_size /\
  Forall (fun i => i <> pos b /\ 0 <= i < buffer_size b) inds.
Proof.
  intros [W1 W2 W3 W4 W5]. unfold ReplayBuffer.optimized_batch_inds.
  destruct (full b).
  - intros H. apply bind_Ok in H. destruct H as (r & rs1 & Hr & H).
    inversion H; subst. apply randint_Ok in Hr. destruct Hr as [Hlen Hr].
    split; [rewrite length_map; exact Hlen|].
    apply Forall_forall. intros i Hi. apply list_elem_of_In, in_map_iff in Hi.
    destruct Hi as (x & <- & Hx). apply list_elem_of_In in Hx.
    rewrite Forall_forall in Hr. rewrite np_mod_pos by lia.
    apply wrap_avoids_pointer; [apply Hr, Hx | exact W3].
  - intros H. apply randint_Ok in H. destruct H as [Hlen Hr].
    split; [exact Hlen|]. eapply Forall_impl; [exact Hr|]. simpl. intros i Hi. lia.
Qed.

(** C1.  In a [ReplayBuffer] with [optimize_memory_usage = True], [sample]
    draws its batch indices as [(randint(1, buffer_size) + pos) %
    buffer_size] when the buffer is full and as [randint(0, pos)] when it is
    not, and hands them to [_get_samples]; whatever the generator produces,
    no index of the batch equals the write pointer [self.pos] (and every
    index is a slot of the buffer).  The draw succeeds for a positive batch
    size when there is a slot to draw from. *)
Theorem C1_sample_excludes_write_pointer b batch_size env rs :
  rb_reachable b -> optimize_memory_usage b = true ->
  ReplayBuffer.sample b batch_size env rs
  = (batch_inds <- ReplayBuffer.optimized_batch_inds b batch_size ;;
     ReplayBuffer._get_samples b batch_inds env) rs /\
  ReplayBuffer.optimized_batch_inds b batch_size
  = (if full b
     then r <- randint 1 (buffer_size b) batch_size ;;
          ret (map (fun x => mod_ (x + pos b) (buffer_size b)) r)
     else randint 0 (pos b) batch_size) /\
  (forall inds rs',
     ReplayBuffer.optimized_batch_inds b batch_size rs = (Ok inds, rs') ->
     length inds = Z.to_nat batch_size /\
     Forall (fun i => i <> pos b /\ 0 <= i < buffer_size b) inds) /\
  (0 < batch_size -> (if full b then 1 < buffer_size b else 0 < pos b) ->
   exists inds rs',
     ReplayBuffer.optimized_batch_inds b batch_size rs = (Ok inds, rs')) /\
  (forall x, mod_ x (buffer_size b) = x mod buffer_size b).
Proof.
  intros Hreach Hopt. apply rb_reachable_wf in Hreach.
  split; [|split; [|split; [|split]]];
    [| | | |intros x; apply np_mod_pos; destruct Hreach; lia].
  - unfold ReplayBuffer.sample. rewrite Hopt. reflexivity.
  - reflexivity.
  - intros inds rs'. apply optimized_batch_inds_Ok, Hreach.
  - intros Hsize Hslots. unfold ReplayBuffer.optimized_batch_inds.
    destruct (full b).
    + destruct (randint_total 1 (buffer_size b) batch_size rs) as (r & rs1 & Hr);
        [lia | right; lia |].
      unfold bind. rewrite Hr. eauto.
    + apply randint_total; [lia | right; lia].
Qed.

End SampleClaims.

(** ** What [add] stores and what [_get_samples] reads *)

Tactic Notation "step_Ok" hyp(H) "as" ident(a) ident(H1) :=
  let s := fresh "s" in
  apply bind_Ok in H; destruct H as (a & s & H1 & H);
  try (apply lift_Ok in H1; destruct H1 as [H1 ->]).

Section Stores.
Context {Obs Act : Type}.








End Stores.

(** ** [ReplayBuffer.add] returns on arguments of the right shape *)

Lemma setrow_run {A} n (a : list (list A)) i row :
  0 <= i < Z.of_nat (length a) -> length row = n ->
  setrow n a i row = Ok (<[Z.to_nat i := row]> a).
Proof.
  intros Hi Hrow. unfold setrow.
  rewrite index_nonneg by exact Hi. simpl.
  rewrite broadcast_to_same by exact Hrow. reflexivity.
Qed.

Lemma setrow_length {A} n (a : list (list A)) i row a' :
  setrow n a i row = Ok a' -> length a' = length a.
Proof.
  intros H. apply setrow_Ok in H. destruct H as (k & row' & _ & _ & ->).
  apply length_insert.
Qed.

Lemma assign_run {O Act A} (arr : Buffer O Act -> list (list A)) set_arr i row s :
  0 <= i < Z.of_nat (length (arr s)) -> length row = Z.to_nat (n_envs s) ->
  assign arr set_arr i row s = (Ok tt, set_arr (<[Z.to_nat i := row]> (arr s)) s).
Proof.
  intros Hi Hrow. unfold assign, bind, get, lift, modify.
  rewrite setrow_run by assumption. reflexivity.
Qed.

(** The statements shared by both [add] methods return on arrays with one
    entry per slot. *)
Lemma add_tail_total {O Act} (b0 s : Buffer O Act) action reward done infos truth_mask :
  slots s -> buffer_size s = buffer_size b0 -> n_envs s = n_envs b0 ->
  0 <= pos b0 < buffer_size b0 ->
  per_env b0 action -> per_env b0 reward -> per_env b0 done -> per_env b0 infos ->
  per_env b0 truth_mask ->
  exists s', add_tail b0 action reward done infos truth_mask s = (Ok tt, s').
Proof.
  unfold per_env. intros (S1 & S2 & S3 & S4 & S5) Hbs Hn Hpos Hact Hrew Hdone Hinfos Hmask.
  rewrite Hbs in *. rewrite <- Hn in *. unfold add_tail.
  erewrite bind_run; [|apply assign_run; [simpl; lia | exact Hact]].
  erewrite bind_run; [|apply assign_run; [simpl; lia | exact Hrew]].
  erewrite bind_run; [|apply assign_run; [simpl; lia | simpl; rewrite length_map; exact Hdone]].
  destruct (handle_timeout_termination b0) eqn:Eh; unfold when.
  - erewrite bind_run.
    2:{ apply assign_run; [simpl; lia|].
        simpl. unfold ReplayBuffer.truncated. rewrite !length_map. exact Hinfos. }
    erewrite bind_run; [|apply assign_run; [simpl; lia | exact Hmask]].
    rewrite advance_eq. eauto.
  - erewrite bind_run; [|reflexivity].
    erewrite bind_run; [|apply assign_run; [simpl; lia | exact Hmask]].
    rewrite advance_eq. eauto.
Qed.

Section Progress.
Context {Obs Act : Type} `{!Cell Obs} `{!Cell Act}.
Implicit Types b s : Buffer (list (list Obs)) Act.

Lemma rb_init_shaped buffer_size0 obs_shape action_dim action_n n_envs0 opt handle h b h' :
  ReplayBuffer.__init__ buffer_size0 obs_shape action_dim action_n n_envs0 opt handle h
    = (Ok b, h') ->
  rb_shaped b.
Proof.
  unfold ReplayBuffer.__init__. intros H.
  apply bind_Ok in H. destruct H as (q & s & Hq & H).
  apply lift_Ok in Hq. destruct Hq as [Hq ->].
  destruct (opt && handle) eqn:Eflags; [discriminate|].
  inv_Ok H.
  repeat match goal with
  | Hz : zeros _ _ _ _ = (Ok _, _) |- _ => apply zeros_Ok in Hz; destruct Hz as (? & ? & ? & ?)
  end.
  inversion H; subst; clear H. unfold rb_shaped, slots. simpl.
  rewrite !length_replicate. repeat split.
  intros Hopt. subst opt. simpl in *.
  apply bind_Ok in H2. destruct H2 as (o & s2 & Ho & H2).
  apply zeros_Ok in Ho. destruct Ho as (_ & _ & -> & _).
  inversion H2; subst. eexists. split; [reflexivity|]. apply length_replicate.
Qed.

Lemma assign_shaped {A} (arr : Buffer (list (list Obs)) Act -> list (list A)) set_arr i row :
  (forall s a, rb_shaped s -> length a = length (arr s) -> rb_shaped (set_arr a s)) ->
  inv rb_shaped (assign arr set_arr i row).
Proof.
  intros H. apply assign_inv. intros s a Hs Ha. apply H; [exact Hs|].
  eapply setrow_length, Ha.
Qed.

Lemma rb_add_shaped b obs next_obs action reward done infos truth_mask :
  rb_shaped b ->
  rb_shaped (snd (ReplayBuffer.add obs next_obs action reward done infos truth_mask b)).
Proof.
  intros Hb.
  assert (H : inv rb_shaped
            (action' <- lift (reshape_rows (Z.to_nat (n_envs b)) action) ;;
             assign observations set_observations (pos b) obs ;;
             (if optimize_memory_usage b
              then i <- lift (Py.mod_ (pos b + 1) (buffer_size b)) ;;
                   assign observations set_observations i next_obs
              else ReplayBuffer.assign_next_observations (pos b) next_obs) ;;
             add_tail b action' reward done infos truth_mask)).
  { assert (Hobs : forall i row, inv rb_shaped
              (assign (Act:=Act) observations set_observations i (row : list Obs))).
    { intros i row. apply assign_shaped.
      intros s a (Hs & Ho & Hn) Ha. split; [exact Hs|]. split; [simpl; congruence | exact Hn]. }
    apply inv_bind; [apply inv_lift | intros action'].
    apply inv_bind; [apply Hobs | intros _].
    apply inv_bind.
    { destruct (optimize_memory_usage b).
      - apply inv_bind; [apply inv_lift | intros i; apply Hobs].
      - intros s Hs.
        unfold ReplayBuffer.assign_next_observations, bind, get, lift, modify, raise.
        destruct (next_observations s) as [a|] eqn:En; [|exact Hs].
        destruct (setrow _ a _ _) as [a'|e] eqn:Ea; [|exact Hs].
        destruct Hs as (Hs & Ho & Hn). split; [exact Hs|]. split; [exact Ho|].
        intros Hopt. simpl in *. destruct (Hn Hopt) as (a0 & Ha0 & Hl0).
        rewrite En in Ha0. inversion Ha0; subst a0.
        eexists. split; [reflexivity|]. rewrite <- Hl0. eapply setrow_length, Ea. }
    intros _. unfold add_tail.
    apply inv_bind; [|intros _].
    { apply assign_shaped. intros s a ((S1 & S2 & S3 & S4 & S5) & Ho & Hn) Ha.
      repeat split; simpl; try assumption; congruence. }
    apply inv_bind; [|intros _].
    { apply assign_shaped. intros s a ((S1 & S2 & S3 & S4 & S5) & Ho & Hn) Ha.
      repeat split; simpl; try assumption; congruence. }
    apply inv_bind; [|intros _].
    { apply assign_shaped. intros s a ((S1 & S2 & S3 & S4 & S5) & Ho & Hn) Ha.
      repeat split; simpl; try assumption; congruence. }
    apply inv_bind; [|intros _].
    { apply inv_when. intros _.
      apply assign_shaped. intros s a ((S1 & S2 & S3 & S4 & S5) & Ho & Hn) Ha.
      repeat split; simpl; try assumption; congruence. }
    apply inv_bind; [|intros _].
    { apply assign_shaped. intros s a ((S1 & S2 & S3 & S4 & S5) & Ho & Hn) Ha.
      repeat split; simpl; try assumption; congruence. }
    intros s Hs. rewrite advance_eq.
    destruct (pos s + 1 =? buffer_size s); exact Hs. }
  specialize (H b Hb).
  change (ReplayBuffer.add obs next_obs action reward done infos truth_mask b)
    with ((action' <- lift (reshape_rows (Z.to_nat (n_envs b)) action) ;;
           assign observations set_observations (pos b) obs ;;
           (if optimize_memory_usage b
            then i <- lift (Py.mod_ (pos b + 1) (buffer_size b)) ;;
                 assign observations set_observations i next_obs
            else ReplayBuffer.assign_next_observations (pos b) next_obs) ;;
           add_tail b action' reward done infos truth_mask) b).
  match type of H with
  | match ?x with _ => _ end => destruct x as [[u|e] s']
  end; exact H.
Qed.

Lemma rb_reachable_shaped b : rb_reachable b -> rb_shaped b.
Proof.
  induction 1 as [? ? ? ? ? ? ? ? b ? Hinit | b ? ? ? ? ? ? ? r b' _ IH Hadd].
  - eapply rb_init_shaped, Hinit.
  - pose proof (rb_add_shaped b obs next_obs action reward done infos truth_mask IH) as H.
    rewrite Hadd in H. exact H.
Qed.

Lemma reshape_rows_run {A} n (row : list A) : length row = n -> reshape_rows n row = Ok row.
Proof. intros H. unfold reshape_rows. destruct (decide _); [reflexivity | contradiction]. Qed.

(** [add] returns on every state of a constructed [ReplayBuffer] when
    each argument has one entry per environment. *)
Lemma rb_add_total b obs next_obs action reward done infos truth_mask :
  rb_reachable b ->
  per_env b obs -> per_env b next_obs -> per_env b action -> per_env b reward ->
  per_env b done -> per_env b infos -> per_env b truth_mask ->
  exists b', ReplayBuffer.add obs next_obs action reward done infos truth_mask b = (Ok tt, b').
Proof.
  unfold per_env. intros Hreach Hobs Hnext Hact Hrew Hdone Hinfos Hmask.
  pose proof (rb_reachable_wf b Hreach) as [W1 W2 W3 W4 W5].
  pose proof (rb_reachable_shaped b Hreach) as ((S1 & S2 & S3 & S4 & S5) & So & Sn).
  change (ReplayBuffer.add obs next_obs action reward done infos truth_mask b)
    with ((action' <- lift (reshape_rows (Z.to_nat (n_envs b)) action) ;;
           assign observations set_observations (pos b) obs ;;
           (if optimize_memory_usage b
            then i <- lift (Py.mod_ (pos b + 1) (buffer_size b)) ;;
                 assign observations set_observations i next_obs
            else ReplayBuffer.assign_next_observations (pos b) next_obs) ;;
           add_tail b action' reward done infos truth_mask) b).
  erewrite bind_run; [|unfold lift; rewrite reshape_rows_run by exact Hact; reflexivity].
  erewrite bind_run; [|apply assign_run; [lia | exact Hobs]].
  assert (Hstep : exists o no,
            (if optimize_memory_usage b
             then i <- lift (Py.mod_ (pos b + 1) (buffer_size b)) ;;
                  assign observations set_observations i next_obs
             else ReplayBuffer.assign_next_observations (pos b) next_obs)
              (set_observations (<[Z.to_nat (pos b) := obs]> (observations b)) b)
            = (Ok tt, mkBuffer (buffer_size b) (n_envs b) (pos b) (full b)
                        (optimize_memory_usage b) (handle_timeout_termination b)
                        o no (actions b) (rewards b) (dones b) (timeouts b)
                        (truth_masks b))).
  { destruct (optimize_memory_usage b) eqn:Eopt.
    - assert (Hm : Py.mod_ (pos b + 1) (buffer_size b)
                   = Ok ((pos b + 1) mod buffer_size b)).
      { unfold Py.mod_. destruct (buffer_size b =? 0) eqn:E; [lia | reflexivity]. }
      erewrite bind_run; [|unfold lift; rewrite Hm; reflexivity].
      pose proof (Z.mod_pos_bound (pos b + 1) (buffer_size b)).
      rewrite assign_run; [|simpl; rewrite length_insert; lia | exact Hnext].
      eexists _, _. unfold set_observations. simpl. rewrite Eopt. reflexivity.
    - destruct (Sn eq_refl) as (a & Ha & Hla).
      unfold ReplayBuffer.assign_next_observations, bind, get, lift, modify. simpl.
      rewrite Ha. rewrite setrow_run; [|lia | exact Hnext].
      eexists _, _. unfold set_next_observations, set_observations. simpl.
      rewrite Eopt. reflexivity. }
  destruct Hstep as (o & no & Hstep).
  erewrite bind_run; [|exact Hstep].
  apply add_tail_total; try assumption; try reflexivity.
  repeat split; assumption.
Qed.

End Progress.

Lemma for_each_total {S A} (I : S -> Prop) (l : list A) (body : A -> M S unit) :
  (forall x s, x ∈ l -> I s -> exists s', body x s = (Ok tt, s') /\ I s') ->
  forall s, I s -> exists s', for_each l body s = (Ok tt, s') /\ I s'.
Proof.
  induction l as [|x l IH]; intros Hbody s Hs; simpl.
  - exists s. split; [reflexivity | exact Hs].
  - destruct (Hbody x s) as (s1 & H1 & Hs1); [left | exact Hs |].
    rewrite (bind_run _ _ _ _ _ H1).
    apply IH; [|exact Hs1]. intros y s0 Hy. apply Hbody. right. exact Hy.
Qed.

Lemma elem_of_keys {V} (d : gmap string V) key :
  key ∈ DictReplayBuffer.keys d <-> is_Some (d !! key).
Proof.
  unfold DictReplayBuffer.keys. rewrite list_elem_of_fmap. split.
  - intros ([k v] & -> & Hkv). apply elem_of_map_to_list in Hkv. simpl. eauto.
  - intros [v Hv]. exists (key, v). split; [reflexivity|]. apply elem_of_map_to_list, Hv.
Qed.

Section ProgressDict.
Context {Obs Act : Type} `{!Cell Obs} `{!Cell Act}.
Implicit Types b s : Buffer (gmap string (list (list Obs))) Act.

Lemma zeros_dict_Ok buffer_size0 n_envs0 shapes h (d : gmap string (list (list Obs))) h' :
  DictReplayBuffer.zeros_dict buffer_size0 n_envs0 shapes h = (Ok d, h') ->
  map_Forall (fun _ a => length a = Z.to_nat buffer_size0) d.
Proof.
  unfold DictReplayBuffer.zeros_dict. intros H.
  apply bind_Ok in H. destruct H as (kvs & h1 & Hkvs & H). inversion H; subst; clear H.
  assert (Hall : Forall (fun kv => length (snd kv) = Z.to_nat buffer_size0) kvs).
  { revert h kvs h' Hkvs. generalize (map_to_list shapes).
    induction l as [|x l IH]; simpl; intros h kvs h' H.
    - inversion H. constructor.
    - apply bind_Ok in H. destruct H as (y & h1 & Hy & H).
      apply bind_Ok in H. destruct H as (ys & h2 & Hys & H). inversion H; subst; clear H.
      apply bind_Ok in Hy. destruct Hy as (a & h3 & Ha & Hy). inversion Hy; subst; clear Hy.
      apply zeros_Ok in Ha. destruct Ha as (_ & _ & -> & _).
      constructor; [simpl; apply length_replicate | eapply IH, Hys]. }
  apply map_Forall_lookup_2. intros key a Hk.
  apply elem_of_list_to_map_2 in Hk. rewrite Forall_forall in Hall.
  apply (Hall (key, a) Hk).
Qed.

Lemma db_init_shaped buffer_size0 obs_shape action_dim action_n n_envs0 opt handle h b h' :
  DictReplayBuffer.__init__ buffer_size0 obs_shape action_dim action_n n_envs0 opt handle h
    = (Ok b, h') ->
  db_shaped b.
Proof.
  unfold DictReplayBuffer.__init__. intros H.
  destruct obs_shape as [shape|shapes]; [discriminate|].
  apply bind_Ok in H. destruct H as (q & s & Hq & H).
  apply lift_Ok in Hq. destruct Hq as [Hq ->].
  destruct opt; [discriminate|].
  apply bind_Ok in H. destruct H as (o & h1 & Ho & H).
  apply bind_Ok in H. destruct H as (no & h2 & Hno & H).
  inv_Ok H.
  repeat match goal with
  | Hz : zeros _ _ _ _ = (Ok _, _) |- _ => apply zeros_Ok in Hz; destruct Hz as (? & ? & ? & ?)
  end.
  inversion H; subst; clear H. unfold db_shaped, slots. simpl.
  rewrite !length_replicate. repeat split.
  - eapply zeros_dict_Ok, Ho.
  - eexists. split; [reflexivity|]. eapply zeros_dict_Ok, Hno.
Qed.

Lemma assign_slots_shaped {A}
    (arr : Buffer (gmap string (list (list Obs))) Act -> list (list A)) set_arr i row :
  (forall s a, db_shaped s -> length a = length (arr s) -> db_shaped (set_arr a s)) ->
  inv db_shaped (assign arr set_arr i row).
Proof.
  intros H. apply assign_inv. intros s a Hs Ha. apply H; [exact Hs|].
  eapply setrow_length, Ha.
Qed.

Lemma assign_obs_shaped obs key :
  inv db_shaped (DictReplayBuffer.assign_obs (Obs:=Obs) (Act:=Act) obs key).
Proof.
  intros s Hs. unfold DictReplayBuffer.assign_obs, bind, get, lift, modify.
  destruct (dict_getitem obs key) as [row|]; [|exact Hs].
  destruct (dict_getitem (observations s) key) as [a|] eqn:Ea; [|exact Hs].
  destruct (setrow _ _ _ _) as [a'|] eqn:Ea'; [|exact Hs].
  destruct Hs as (Hs & Ho & Hn). split; [exact Hs|]. split; [|exact Hn].
  simpl. apply map_Forall_insert_2; [|exact Ho].
  unfold dict_getitem in Ea. destruct (observations s !! key) as [a0|] eqn:El; [|discriminate].
  inversion Ea; subst a0. rewrite (setrow_length _ _ _ _ _ Ea').
  apply (map_Forall_lookup_1 _ _ _ _ Ho El).
Qed.

Lemma assign_next_obs_shaped next_obs key :
  inv db_shaped (DictReplayBuffer.assign_next_obs (Obs:=Obs) (Act:=Act) next_obs key).
Proof.
  intros s Hs. unfold DictReplayBuffer.assign_next_obs, bind, get, lift, modify, raise.
  destruct (next_observations s) as [nobs|] eqn:En; [|exact Hs].
  destruct (dict_getitem next_obs key) as [row|]; [|exact Hs].
  destruct (dict_getitem nobs key) as [a|] eqn:Ea; [|exact Hs].
  destruct (setrow _ _ _ _) as [a'|] eqn:Ea'; [|exact Hs].
  destruct Hs as (Hs & Ho & (nobs0 & Hn0 & Hn)). rewrite En in Hn0. inversion Hn0; subst nobs0.
  split; [exact Hs|]. split; [exact Ho|].
  simpl. eexists. split; [reflexivity|]. apply map_Forall_insert_2; [|exact Hn].
  unfold dict_getitem in Ea. destruct (nobs !! key) as [a0|] eqn:El; [|discriminate].
  inversion Ea; subst a0. rewrite (setrow_length _ _ _ _ _ Ea').
  apply (map_Forall_lookup_1 _ _ _ _ Hn El).
Qed.

Lemma add_tail_shaped b0 action reward done infos truth_mask :
  inv db_shaped (add_tail (O:=gmap string (list (list Obs))) (Act:=Act)
                   b0 action reward done infos truth_mask).
Proof.
  unfold add_tail.
  apply inv_bind; [|intros _].
  { apply assign_slots_shaped. intros s a ((S1 & S2 & S3 & S4 & S5) & Ho & Hn) Ha.
    repeat split; simpl; try assumption; congruence. }
  apply inv_bind; [|intros _].
  { apply assign_slots_shaped. intros s a ((S1 & S2 & S3 & S4 & S5) & Ho & Hn) Ha.
    repeat split; simpl; try assumption; congruence. }
  apply inv_bind; [|intros _].
  { apply assign_slots_shaped. intros s a ((S1 & S2 & S3 & S4 & S5) & Ho & Hn) Ha.
    repeat split; simpl; try assumption; congruence. }
  apply inv_bind; [|intros _].
  { apply inv_when. intros _.
    apply assign_slots_shaped. intros s a ((S1 & S2 & S3 & S4 & S5) & Ho & Hn) Ha.
    repeat split; simpl; try assumption; congruence. }
  apply inv_bind; [|intros _].
  { apply assign_slots_shaped. intros s a ((S1 & S2 & S3 & S4 & S5) & Ho & Hn) Ha.
    repeat split; simpl; try assumption; congruence. }
  intros s Hs. rewrite advance_eq.
  destruct (pos s + 1 =? buffer_size s); exact Hs.
Qed.

Lemma db_add_shaped b obs next_obs action reward done infos truth_mask :
  db_shaped b ->
  db_shaped (snd (DictReplayBuffer.add obs next_obs action reward done infos truth_mask b)).
Proof.
  intros Hb.
  assert (H : inv db_shaped
            (for_each (DictReplayBuffer.keys (observations b))
               (DictReplayBuffer.assign_obs obs) ;;
             nkeys <- lift (match next_observations b with
                            | Some nobs => Ok (DictReplayBuffer.keys nobs)
                            | None => Raise (AttributeError "next_observations")
                            end) ;;
             for_each nkeys (DictReplayBuffer.assign_next_obs next_obs) ;;
             action' <- lift (reshape_rows (Z.to_nat (n_envs b)) action) ;;
             add_tail b action' reward done infos truth_mask)).
  { apply inv_bind; [apply inv_for_each; intros key; apply assign_obs_shaped | intros _].
    apply inv_bind; [apply inv_lift | intros nkeys].
    apply inv_bind; [apply inv_for_each; intros key; apply assign_next_obs_shaped | intros _].
    apply inv_bind; [apply inv_lift | intros action'].
    apply add_tail_shaped. }
  specialize (H b Hb).
  change (DictReplayBuffer.add obs next_obs action reward done infos truth_mask b)
    with ((for_each (DictReplayBuffer.keys (observations b))
             (DictReplayBuffer.assign_obs obs) ;;
           nkeys <- lift (match next_observations b with
                          | Some nobs => Ok (DictReplayBuffer.keys nobs)
                          | None => Raise (AttributeError "next_observations")
                          end) ;;
           for_each nkeys (DictReplayBuffer.assign_next_obs next_obs) ;;
           action' <- lift (reshape_rows (Z.to_nat (n_envs b)) action) ;;
           add_tail b action' reward done infos truth_mask) b).
  match type of H with
  | match ?x with _ => _ end => destruct x as [[u|e] s']
  end; exact H.
Qed.

Lemma db_reachable_shaped b : db_reachable b -> db_shaped b.
Proof.
  induction 1 as [? ? ? ? ? ? ? ? b ? Hinit | b ? ? ? ? ? ? ? r b' _ IH Hadd].
  - eapply db_init_shaped, Hinit.
  - pose proof (db_add_shaped b obs next_obs action reward done infos truth_mask IH) as H.
    rewrite Hadd in H. exact H.
Qed.

Lemma assign_obs_total b d0 obs key s :
  0 <= pos b < buffer_size b -> per_env_dict b d0 obs -> is_Some (d0 !! key) ->
  loop_inv b (fun s => Some (observations s)) d0 s ->
  exists s', DictReplayBuffer.assign_obs obs key s = (Ok tt, s') /\
             loop_inv b (fun s => Some (observations s)) d0 s'.
Proof.
  intros Hpos Hobs Hkey (Hs & Hbs & Hn & Hp & Hnobs & d & Hd & Hall).
  inversion Hd; subst d; clear Hd.
  destruct (Hobs key Hkey) as (row & Hrow & Hlen).
  destruct (Hall key Hkey) as (a & Ha & Hla).
  unfold DictReplayBuffer.assign_obs, bind, get, lift, modify, dict_getitem.
  rewrite Hrow, Ha, Hp, Hn. rewrite setrow_run; [|lia | exact Hlen].
  eexists. split; [reflexivity|].
  split; [exact Hs|]. split; [exact Hbs|]. split; [exact Hn|]. split; [exact Hp|].
  split; [exact Hnobs|]. eexists. split; [reflexivity|].
  intros key' Hkey'. simpl. destruct (decide (key = key')) as [<-|Hne].
  - rewrite lookup_insert_eq. eexists. split; [reflexivity|].
    rewrite length_insert. exact Hla.
  - rewrite lookup_insert_ne by exact Hne. apply Hall, Hkey'.
Qed.

Lemma assign_next_obs_total b d0 next_obs key s :
  0 <= pos b < buffer_size b -> per_env_dict b d0 next_obs -> is_Some (d0 !! key) ->
  loop_inv b next_observations d0 s ->
  exists s', DictReplayBuffer.assign_next_obs next_obs key s = (Ok tt, s') /\
             loop_inv b next_observations d0 s'.
Proof.
  intros Hpos Hobs Hkey (Hs & Hbs & Hn & Hp & Hnobs & d & Hd & Hall).
  destruct (Hobs key Hkey) as (row & Hrow & Hlen).
  destruct (Hall key Hkey) as (a & Ha & Hla).
  unfold DictReplayBuffer.assign_next_obs, bind, get, lift, modify, dict_getitem.
  rewrite Hd, Hrow, Ha, Hp, Hn. rewrite setrow_run; [|lia | exact Hlen].
  eexists. split; [reflexivity|].
  split; [exact Hs|]. split; [exact Hbs|]. split; [exact Hn|]. split; [exact Hp|].
  split; [simpl; eauto|]. eexists. split; [reflexivity|].
  intros key' Hkey'. destruct (decide (key = key')) as [<-|Hne].
  - rewrite lookup_insert_eq. eexists. split; [reflexivity|].
    rewrite length_insert. exact Hla.
  - rewrite lookup_insert_ne by exact Hne. apply Hall, Hkey'.
Qed.

(** [add] returns on every state of a constructed [DictReplayBuffer]
    when the dict arguments have the keys of the stored dicts and each
    argument has one entry per environment. *)
Lemma db_add_total b obs next_obs action reward done infos truth_mask :
  db_reachable b ->
  per_env_dict b (observations b) obs ->
  (forall nobs, next_observations b = Some nobs -> per_env_dict b nobs next_obs) ->
  per_env b action -> per_env b reward -> per_env b done -> per_env b infos ->
  per_env b truth_mask ->
  exists b', DictReplayBuffer.add obs next_obs action reward done infos truth_mask b
             = (Ok tt, b').
Proof.
  intros Hreach Hobs Hnext Hact Hrew Hdone Hinfos Hmask.
  pose proof (db_reachable_wf b Hreach) as [W1 W2 W3 W4 W5].
  pose proof (db_reachable_shaped b Hreach) as (Hslots & So & (nobs & Hnobs & Sn)).
  change (DictReplayBuffer.add obs next_obs action reward done infos truth_mask b)
    with ((for_each (DictReplayBuffer.keys (observations b))
             (DictReplayBuffer.assign_obs obs) ;;
           nkeys <- lift (match next_observations b with
                          | Some nobs => Ok (DictReplayBuffer.keys nobs)
                          | None => Raise (AttributeError "next_observations")
                          end) ;;
           for_each nkeys (DictReplayBuffer.assign_next_obs next_obs) ;;
           action' <- lift (reshape_rows (Z.to_nat (n_envs b)) action) ;;
           add_tail b action' reward done infos truth_mask) b).
  destruct (for_each_total (loop_inv b (fun s => Some (observations s)) (observations b))
              (DictReplayBuffer.keys (observations b)) (DictReplayBuffer.assign_obs obs))
    with (s := b) as (s1 & H1 & I1).
  { intros key s Hkey Hs. apply elem_of_keys in Hkey.
    eapply assign_obs_total; eauto. }
  { split; [exact Hslots|]. repeat split; eauto.
    eexists. split; [reflexivity|]. intros key [a Ha]. exists a. split; [exact Ha|].
    apply (map_Forall_lookup_1 _ _ _ _ So Ha). }
  rewrite (bind_run _ _ _ _ _ H1). rewrite Hnobs.
  erewrite bind_run; [|reflexivity].
  destruct (for_each_total (loop_inv b next_observations nobs)
              (DictReplayBuffer.keys nobs) (DictReplayBuffer.assign_next_obs next_obs))
    with (s := s1) as (s2 & H2 & I2).
  { intros key s Hkey Hs. apply elem_of_keys in Hkey.
    eapply assign_next_obs_total; eauto. }
  { destruct I1 as (Hs1 & Hbs1 & Hn1 & Hp1 & (nobs1 & Hnobs1) & _).
    split; [exact Hs1|]. repeat split; eauto.
    assert (Hkept : next_observations s1 = next_observations b).
    { eapply (inv_Ok (fun s => next_observations s = next_observations b)); [| |exact H1].
      - apply inv_for_each. intros key s Hs.
        unfold DictReplayBuffer.assign_obs, bind, get, lift, modify.
        destruct (dict_getitem obs key); [|exact Hs].
        destruct (dict_getitem (observations s) key); [|exact Hs].
        destruct (setrow _ _ _ _); exact Hs.
      - reflexivity. }
    exists nobs. split; [congruence|]. intros key [a Ha]. exists a. split; [exact Ha|].
    apply (map_Forall_lookup_1 _ _ _ _ Sn Ha). }
  rewrite (bind_run _ _ _ _ _ H2).
  erewrite bind_run; [|unfold lift; rewrite reshape_rows_run by exact Hact; reflexivity].
  destruct I2 as (Hs2 & Hbs2 & Hn2 & _).
  apply add_tail_total; assumption.
Qed.

End ProgressDict.

Lemma ex_rb0_reachable : rb_reachable ex_rb0.
Proof.
  apply (rb_init 5 (ShapeTuple []) 1 3 2 true false [] ex_rb0
           (snd (ReplayBuffer.__init__ (Obs:=Z) (Act:=Z)
                   5 (ShapeTuple []) 1 3 2 true false []))).
  vm_compute. reflexivity.
Qed.

Lemma ex_rb0_add :
  ReplayBuffer.add [10; 20] [11; 21] [1; 2] [one; zero] [true; false]
    [∅; {[ "TimeLimit.truncated"%string := true ]}]
    [[one; zero; zero]; [zero; zero; one]] ex_rb0
  = (Ok tt, ex_rb1).
Proof. vm_compute. reflexivity. Qed.

Lemma ex_db0_reachable : db_reachable ex_db0.
Proof.
  apply (db_init 5 (ShapeDict ex_shapes) 1 3 2 false true [] ex_db0
           (snd (DictReplayBuffer.__init__ (Obs:=Z) (Act:=Z)
                   5 (ShapeDict ex_shapes) 1 3 2 false true []))).
  vm_compute. reflexivity.
Qed.

Lemma ex_db0_add :
  DictReplayBuffer.add (ex_db_obs 10 20) (ex_db_obs 30 40) [1; 2] [one; zero]
    [true; true] [∅; {[ "TimeLimit.truncated"%string := true ]}]
    [[one; zero; zero]; [zero; zero; one]] ex_db0
  = (Ok tt, ex_db1).
Proof. vm_compute. reflexivity. Qed.

Lemma C2_witness : pointer_step ex_rb0 (Ok tt) ex_rb1 /\ pointer_step ex_db0 (Ok tt) ex_db1.
Proof.
  split.
  - exact (proj1 C2_write_pointer_wraps ex_rb0 _ _ _ _ _ _ _ _ _
             ex_rb0_reachable ex_rb0_add).
  - exact (proj2 C2_write_pointer_wraps ex_db0 _ _ _ _ _ _ _ _ _
             ex_db0_reachable ex_db0_add).
Defined.

Lemma ex_rb1_add :
  ReplayBuffer.add [11; 21] [12; 22] [0; 0] [zero; zero] [false; true]
    [∅; ∅] [[one; one; zero]; [zero; one; one]] ex_rb1
  = (Ok tt, ex_rb2).
Proof. vm_compute. reflexivity. Qed.

Lemma ex_rb2_reachable : rb_reachable ex_rb2.
Proof.
  exact (rb_add ex_rb1 _ _ _ _ _ _ _ _ ex_rb2
           (rb_add ex_rb0 _ _ _ _ _ _ _ _ ex_rb1 ex_rb0_reachable ex_rb0_add)
           ex_rb1_add).
Qed.

(** A full buffer of two slots with the pointer at 0: every draw is slot 1. *)
Lemma C1_witness :
  length [1; 1; 1] = Z.to_nat 3 /\
  Forall (fun i => i <> pos ex_rb2 /\ 0 <= i < buffer_size ex_rb2) [1; 1; 1].
Proof.
  refine (proj1 (proj2 (proj2
            (C1_sample_excludes_write_pointer ex_rb2 3 None (fun k => Z.of_nat k * 7 + 3)
               ex_rb2_reachable _)))
            [1; 1; 1] (fun k => Z.of_nat (k + 3) * 7 + 3) _).
  - reflexivity.
  - vm_compute. reflexivity.
Defined.

(** ** The terminal signal *)

Section SignalClaims.
Context {Obs Act : Type} `{!Cell Obs} `{!Cell Act}.



End SignalClaims.



(** Both environments of the example end their episode in slot 0, the
    second one by a timeout: the batch drawn for environments 1 and 0 has
    the terminal signals 0 and 1. *)
Lemma ex_db_batch_dones : Samples.dones ex_db_batch = [zero; one].
Proof. vm_compute. reflexivity. Qed.



End BufferProofs.

(** * Proofs: the policy *)

Module PolicyProofs.
Import Policies PolicySpec ListFacts.
Import BufferProofs.





Section Construction.
Context {Qv Bin Kwargs Optimizer : Type}.
Context (instantiate : NetworkClass -> Kwargs -> result (Bin -> list (list Qv))).
Context (make_optimizer : result Optimizer).


End Construction.


(** ** The greedy action *)

Section Predict.
Context {Qv : Type} (leb : Qv -> Qv -> bool) (of_int : Z -> Qv).
Context {Bin Kwargs : Type}.
Context (preprocess_obs : Observation Bin -> bool -> Observation Bin).

(** The order on q-values is total and transitive. *)
Hypothesis leb_total : forall x y, leb x y = true \/ leb y x = true.
Hypothesis leb_trans : forall x y z, leb x y = true -> leb y z = true -> leb x z = true.

Lemma leb_refl x : leb x x = true.
Proof. destruct (leb_total x x); assumption. Qed.




Lemma broadcast2_same {A B} (xs : list A) (ys : list B) :
  length xs = length ys -> broadcast2 xs ys = Ok (zip xs ys).
Proof. intros H. unfold broadcast2. destruct (decide _); [reflexivity | contradiction]. Qed.






(** [_predict] returns when the mask has the shape of the q-values and
    there is at least one action. *)
Lemma predict_total (self : QNetwork (Qv:=Qv) (Bin:=Bin) (Kwargs:=Kwargs))
    (observation : Observation Bin) deterministic :
  Forall2 (fun mrow qrow => length mrow = length qrow /\ qrow <> [])
    (MASK observation) (forward preprocess_obs self observation) ->
  exists actions,
    _predict leb of_int preprocess_obs self observation deterministic = Ok actions.
Proof.
  intros Hshape. unfold _predict, th_where.
  rewrite broadcast2_same by (eapply Forall2_length, Hshape). simpl.
  remember (MASK observation) as mask eqn:Em. clear Em.
  remember (forward preprocess_obs self observation) as q eqn:Eq. clear Eq.
  induction Hshape as [|mrow qrow mask q [Hlen Hne] _ [actions IH]]; simpl.
  - eauto.
  - rewrite broadcast2_same by exact Hlen. simpl.
    apply rbind_Ok in IH. destruct IH as (masked & Hm & Ha). rewrite Hm. simpl.
    destruct qrow as [|q0 qrow]; [contradiction|].
    destruct mrow as [|m0 mrow]; [discriminate|]. simpl.
    rewrite Ha. simpl. eauto.
Qed.

End Predict.

Lemma ex_predict :
  _predict Z.leb id (fun obs _ => obs) ex_qnet ex_obs true = Ok [0%nat; 2%nat].
Proof. vm_compute. reflexivity. Qed.


End PolicyProofs.

(** * Proofs: the metrics callback *)

Module CallbackProofs.
Import Callbacks CallbackSpec.

Lemma header_row_ok :
  DictWriter_row fieldnames (header_dict fieldnames) = Ok header_row.
Proof. vm_compute. reflexivity. Qed.

Lemma metrics_row_ok v0 v1 v2 v3 v4 v5 v6 :
  DictWriter_row fieldnames
    (<["learning_rate"%string := v6]>
    (<["n_updates"%string := v5]>
    (<["loss"%string := v4]>
    (<["exploration_rate"%string := v3]>
    (<["ep_PE_mean"%string := v2]>
    (<["ep_rew_mean"%string := v1]>
    (<["timesteps"%string := v0]> ∅)))))))
  = Ok [v0; v1; v2; v3; v4; v5; v6].
Proof. vm_compute. reflexivity. Qed.

(** A write followed by a flush on an open file. *)
Lemma writerow_flush (rowdict : gmap string pyval) row s :
  closed (file_handler s) = false ->
  DictWriter_row (metrics_logger s) rowdict = Ok row ->
  exists s',
    (writerow rowdict ;; flush) s = (Ok tt, s') /\
    flushed (file_handler s') = flushed (file_handler s) ++ buffered (file_handler s) ++ [row] /\
    buffered (file_handler s') = [] /\
    closed (file_handler s') = false /\
    metrics_logger s' = metrics_logger s /\
    num_timesteps s' = num_timesteps s /\
    name_to_value s' = name_to_value s.
Proof.
  intros Hopen Hrow.
  unfold writerow, flush, bind, get, lift, modify. rewrite Hrow.
  unfold file_write. rewrite Hopen. simpl.
  eexists. split; [reflexivity|]. simpl. repeat split.
Qed.

Lemma init_file isdir realpath filename ts d :
  exists s, __init__ isdir realpath filename ts d = (Ok tt, s) /\ file_is s [] /\
            num_timesteps s = ts /\ name_to_value s = d.
Proof.
  unfold __init__, writeheader.
  match goal with
  | |- context [bind (bind get ?k) _ ?s0] =>
      change (bind (bind get k) (fun _ => flush) s0)
        with ((writerow (header_dict fieldnames) ;; flush) s0);
      destruct (writerow_flush (header_dict fieldnames) header_row s0
                  eq_refl header_row_ok)
        as (s' & Hrun & Hf & Hb & Hc & Hm & Ht & Hd)
  end.
  exists s'. split; [exact Hrun|]. split; [|split; assumption].
  repeat split; assumption.
Qed.

Lemma logger_value_run key s :
  exists s',
    logger_value key s = (Ok (logged s key), s') /\
    file_handler s' = file_handler s /\ metrics_logger s' = metrics_logger s /\
    num_timesteps s' = num_timesteps s /\
    forall k, k <> key -> name_to_value s' !! k = name_to_value s !! k.
Proof.
  unfold logger_value, logged, bind, get, modify, ret.
  destruct (name_to_value s !! key) as [v|] eqn:E.
  - exists s. repeat split.
  - eexists. split; [reflexivity|]. simpl. repeat split.
    intros k Hk. rewrite lookup_insert_ne by congruence. reflexivity.
Qed.

Lemma logged_eq s s' key :
  name_to_value s' !! key = name_to_value s !! key -> logged s' key = logged s key.
Proof. unfold logged. intros ->. reflexivity. Qed.

(** One rollout end on an open, flushed file. *)
Lemma rollout_end_run s rows :
  file_is s rows ->
  exists s',
    _on_rollout_end s = (Ok tt, s') /\ file_is s' (rows ++ [data_row s]) /\
    num_timesteps s' = num_timesteps s.
Proof.
  intros (Hf & Hb & Hc & Hm). unfold _on_rollout_end.
  change (bind get ?k s) with (k s s). cbv beta.
  destruct (logger_value_run "rollout/ep_rew_mean" s) as (s1 & R1 & F1 & M1 & T1 & D1).
  rewrite (bind_run _ _ _ _ _ R1).
  destruct (logger_value_run "rollout/ep_PE_mean" s1) as (s2 & R2 & F2 & M2 & T2 & D2).
  rewrite (bind_run _ _ _ _ _ R2).
  destruct (logger_value_run "rollout/exploration_rate" s2) as (s3 & R3 & F3 & M3 & T3 & D3).
  rewrite (bind_run _ _ _ _ _ R3).
  destruct (logger_value_run "train/loss" s3) as (s4 & R4 & F4 & M4 & T4 & D4).
  rewrite (bind_run _ _ _ _ _ R4).
  destruct (logger_value_run "train/n_updates" s4) as (s5 & R5 & F5 & M5 & T5 & D5).
  rewrite (bind_run _ _ _ _ _ R5).
  destruct (logger_value_run "train/learning_rate" s5) as (s6 & R6 & F6 & M6 & T6 & D6).
  rewrite (bind_run _ _ _ _ _ R6).
  assert (E2 : logged s1 "rollout/ep_PE_mean" = logged s "rollout/ep_PE_mean")
    by (apply logged_eq; rewrite D1 by discriminate; reflexivity).
  assert (E3 : logged s2 "rollout/exploration_rate" = logged s "rollout/exploration_rate")
    by (apply logged_eq; rewrite D2, D1 by discriminate; reflexivity).
  assert (E4 : logged s3 "train/loss" = logged s "train/loss")
    by (apply logged_eq; rewrite D3, D2, D1 by discriminate; reflexivity).
  assert (E5 : logged s4 "train/n_updates" = logged s "train/n_updates")
    by (apply logged_eq; rewrite D4, D3, D2, D1 by discriminate; reflexivity).
  assert (E6 : logged s5 "train/learning_rate" = logged s "train/learning_rate")
    by (apply logged_eq; rewrite D5, D4, D3, D2, D1 by discriminate; reflexivity).
  rewrite E2, E3, E4, E5, E6.
  assert (Hfh : file_handler s6 = file_handler s) by congruence.
  assert (Hml : metrics_logger s6 = fieldnames) by congruence.
  match goal with
  | |- context [bind (writerow ?metrics) _ s6] =>
      destruct (writerow_flush metrics (data_row s) s6) as (s' & Hrun & Hf' & Hb' & Hc' & Hm' & Ht' & _)
  end.
  - rewrite Hfh. exact Hc.
  - rewrite Hml. apply metrics_row_ok.
  - exists s'. split; [exact Hrun|]. split; [|congruence].
    rewrite Hfh, Hf, Hb in Hf'. simpl in Hf'.
    split; [exact Hf'|]. split; [exact Hb'|]. split; [exact Hc'|]. congruence.
Qed.

Section Trace.
Context (isdir : string -> bool) (realpath : string -> string).

Lemma running_file s rows : running isdir realpath s rows -> file_is s rows.
Proof.
  induction 1 as [filename ts d r s Hinit | s rows r s' _ IH Hstep
                 | s rows r s' _ IH Hend | s rows ts d _ IH].
  - destruct (init_file isdir realpath filename ts d) as (s0 & H0 & Hfile & _).
    rewrite Hinit in H0. inversion H0; subst. exact Hfile.
  - inversion Hstep; subst. exact IH.
  - destruct (rollout_end_run s rows IH) as (s0 & H0 & Hfile & _).
    rewrite Hend in H0. inversion H0; subst. exact Hfile.
  - exact IH.
Qed.



End Trace.


End CallbackProofs.

(** * Proofs: further properties of the buffers *)

Module BufferMoreProofs.
Import BufferProofs.

(** ** The pointer counts the returning calls *)

Lemma counted_advance {O Act} (k : nat) (b b' : Buffer O Act) :
  wf b -> counted k b -> buffer_size b' = buffer_size b -> advanced b b' ->
  counted (S k) b'.
Proof.
  intros [W1 W2 W3 _ _] [Hpos Hfull] Hbs Hadv. unfold counted, advanced in *.
  rewrite Hbs. rewrite Nat2Z.inj_succ.
  pose proof (Z.div_mod (Z.of_nat k) (buffer_size b) ltac:(lia)) as Hdm.
  pose proof (Z.mod_pos_bound (Z.of_nat k) (buffer_size b) ltac:(lia)) as Hmb.
  assert (Hq : 0 <= Z.of_nat k / buffer_size b) by (apply Z.div_pos; lia).
  destruct (pos b + 1 =? buffer_size b) eqn:E.
  - destruct Hadv as [-> ->]. split.
    + symmetry. apply Z.eqb_eq in E.
      replace (Z.succ (Z.of_nat k))
        with (0 + (Z.of_nat k / buffer_size b + 1) * buffer_size b) by nia.
      rewrite Z_mod_plus_full. apply Z.mod_small. lia.
    + symmetry. apply Z.leb_le. apply Z.eqb_eq in E. nia.
  - destruct Hadv as [-> ->]. apply Z.eqb_neq in E. split.
    + symmetry.
      replace (Z.succ (Z.of_nat k))
        with ((pos b + 1) + (Z.of_nat k / buffer_size b) * buffer_size b) by nia.
      rewrite Z_mod_plus_full. apply Z.mod_small. lia.
    + rewrite Hfull. destruct (buffer_size b <=? Z.of_nat k) eqn:Ek.
      * symmetry. apply Z.leb_le. apply Z.leb_le in Ek. lia.
      * symmetry. apply Z.leb_gt. apply Z.leb_gt in Ek.
        rewrite Z.mod_small in Hpos by lia. lia.
Qed.

Lemma counted_kept {O Act} (k : nat) (b b' : Buffer O Act) :
  counted k b -> buffer_size b' = buffer_size b -> same_pointer b b' -> counted k b'.
Proof.
  intros [Hpos Hfull] Hbs [P1 P2]. unfold counted. rewrite Hbs, P1, P2. auto.
Qed.

Section Counted.
Context {Obs Act : Type} `{!Cell Obs} `{!Cell Act}.

Lemma rb_after_reachable k (b : Buffer (list (list Obs)) Act) :
  rb_after k b -> rb_reachable b.
Proof.
  induction 1 as [? ? ? ? ? ? ? ? b ? Hinit
                 | k b ? ? ? ? ? ? ? u b' _ IH Hadd
                 | k b ? ? ? ? ? ? ? e b' _ IH Hadd].
  - eapply rb_init, Hinit.
  - eapply rb_add; [exact IH | exact Hadd].
  - eapply rb_add; [exact IH | exact Hadd].
Qed.

Lemma db_after_reachable k (b : Buffer (gmap string (list (list Obs))) Act) :
  db_after k b -> db_reachable b.
Proof.
  induction 1 as [? ? ? ? ? ? ? ? b ? Hinit
                 | k b ? ? ? ? ? ? ? u b' _ IH Hadd
                 | k b ? ? ? ? ? ? ? e b' _ IH Hadd].
  - eapply db_init, Hinit.
  - eapply db_add; [exact IH | exact Hadd].
  - eapply db_add; [exact IH | exact Hadd].
Qed.

Lemma counted_init {O} (b : Buffer O Act) :
  1 <= buffer_size b -> pos b = 0 -> full b = false -> counted 0 b.
Proof.
  intros Hbs Hpos Hfull. unfold counted. rewrite Hpos, Hfull. simpl.
  split; [rewrite Z.mod_0_l by lia; reflexivity|].
  symmetry. apply Z.leb_gt. lia.
Qed.

(** X1.  After [k] calls of [add] have returned on a [ReplayBuffer] or a
    [DictReplayBuffer] (calls that raised in between do not count), the
    write pointer is [k % buffer_size] and [full] is [True] exactly when
    [k >= buffer_size]: the slots are filled in order and, once the buffer
    is full, the oldest transition is the one overwritten. *)
Theorem X1_pointer_counts_returning_adds :
  (forall k (b : Buffer (list (list Obs)) Act),
     rb_after k b ->
     pos b = Z.of_nat k mod buffer_size b /\
     full b = (buffer_size b <=? Z.of_nat k)) /\
  (forall k (b : Buffer (gmap string (list (list Obs))) Act),
     db_after k b ->
     pos b = Z.of_nat k mod buffer_size b /\
     full b = (buffer_size b <=? Z.of_nat k)).
Proof.
  split.
  - intros k b H.
    induction H as [? ? ? ? ? ? ? ? b ? Hinit
                   | k b ? ? ? ? ? ? ? u b' Hprev IH Hadd
                   | k b ? ? ? ? ? ? ? e b' Hprev IH Hadd].
    + pose proof (rb_init_wf _ _ _ _ _ _ _ _ _ _ Hinit) as Hwf.
      apply rb_init_Ok in Hinit.
      destruct Hinit as (_ & _ & _ & _ & _ & Hpos & Hfull & _).
      apply counted_init; [apply Hwf | exact Hpos | exact Hfull].
    + pose proof (rb_reachable_wf b (rb_after_reachable k b Hprev)) as Hwf.
      pose proof (rb_add_spec b obs next_obs action reward done infos truth_mask Hwf) as Hp.
      rewrite Hadd in Hp. destruct Hp as (_ & (F1 & _) & Hadv).
      eapply (counted_advance k b b'); eauto.
    + pose proof (rb_reachable_wf b (rb_after_reachable k b Hprev)) as Hwf.
      pose proof (rb_add_spec b obs next_obs action reward done infos truth_mask Hwf) as Hp.
      rewrite Hadd in Hp. destruct Hp as (_ & (F1 & _) & Hptr).
      eapply (counted_kept k b b'); eauto.
  - intros k b H.
    induction H as [? ? ? ? ? ? ? ? b ? Hinit
                   | k b ? ? ? ? ? ? ? u b' Hprev IH Hadd
                   | k b ? ? ? ? ? ? ? e b' Hprev IH Hadd].
    + pose proof (db_init_wf _ _ _ _ _ _ _ _ _ _ Hinit) as Hwf.
      apply db_init_Ok in Hinit.
      destruct Hinit as (_ & _ & _ & _ & _ & Hpos & Hfull & _).
      apply counted_init; [apply Hwf | exact Hpos | exact Hfull].
    + pose proof (db_reachable_wf b (db_after_reachable k b Hprev)) as Hwf.
      pose proof (db_add_spec b obs next_obs action reward done infos truth_mask Hwf) as Hp.
      rewrite Hadd in Hp. destruct Hp as (_ & (F1 & _) & Hadv).
      eapply (counted_advance k b b'); eauto.
    + pose proof (db_reachable_wf b (db_after_reachable k b Hprev)) as Hwf.
      pose proof (db_add_spec b obs next_obs action reward done infos truth_mask Hwf) as Hp.
      rewrite Hadd in Hp. destruct Hp as (_ & (F1 & _) & Hptr).
      eapply (counted_kept k b b'); eauto.
Qed.

End Counted.

(** ** A call of [add] writes one slot *)

Lemma index_nonneg_Ok n i k : 0 <= i -> index n i = Ok k -> k = Z.to_nat i.
Proof.
  intros Hi. unfold index.
  destruct ((0 <=? i) && (i <? Z.of_nat n)) eqn:E1.
  - intros H. inversion H. reflexivity.
  - destruct ((- Z.of_nat n <=? i) && (i <? 0)) eqn:E2; [|discriminate].
    apply andb_prop in E2. destruct E2 as [_ E2]. apply Z.ltb_lt in E2. lia.
Qed.

Lemma getitem_setrow_other {A} n (a : list (list A)) i row a' j :
  0 <= i -> 0 <= j -> j <> i -> setrow n a i row = Ok a' -> getitem a' j = getitem a j.
Proof.
  intros Hi Hj Hij Hset.
  apply setrow_Ok in Hset. destruct Hset as (k & row' & Hk & _ & ->).
  apply index_nonneg_Ok in Hk; [|exact Hi]. subst k.
  unfold getitem. rewrite length_insert.
  destruct (index (length a) j) as [kj|e] eqn:Ej; [|reflexivity].
  apply index_nonneg_Ok in Ej; [|exact Hj]. subst kj. simpl.
  rewrite list_lookup_insert_ne by lia. reflexivity.
Qed.

Lemma inv_lift_bind {S A B} (I : S -> Prop) (r : result A) (k : A -> M S B) :
  (forall a, r = Ok a -> inv I (k a)) -> inv I (bind (lift r) k).
Proof.
  intros H s Hs. unfold bind, lift. destruct r as [a|e]; [|exact Hs].
  apply (H a eq_refl s Hs).
Qed.

Section Frame.
Context {O Act X : Type} (read : O -> X).
Implicit Types b s : Buffer O Act.

Lemma assign_slot_kept {A} b0 j
    (arr : Buffer O Act -> list (list A)) set_arr (row : list A) :
  0 <= pos b0 -> 0 <= j -> j <> pos b0 ->
  (forall s a, getitem a j = getitem (arr s) j ->
     slot_of read (set_arr a s) j = slot_of read s j /\ pos (set_arr a s) = pos s) ->
  inv (slot_kept read b0 j) (assign arr set_arr (pos b0) row).
Proof.
  intros Hp0 Hj Hne Hset. apply assign_inv. intros s a [Hs Hp] Ha.
  destruct (Hset s a (getitem_setrow_other _ _ _ _ _ _ Hp0 Hj Hne Ha)) as [E1 E2].
  split; congruence.
Qed.

Ltac slot_step :=
  apply assign_slot_kept; try assumption;
  let s := fresh "s" in let a := fresh "a" in let Ha := fresh "Ha" in
  intros s a Ha; split; [|reflexivity];
  unfold slot_of, shared_slot; simpl; rewrite Ha; reflexivity.

Lemma add_tail_slot_kept b0 j action reward done infos truth_mask :
  0 <= pos b0 -> 0 <= j -> j <> pos b0 ->
  hoare (slot_kept read b0 j) (add_tail b0 action reward done infos truth_mask)
    (fun _ s => slot_of read s j = slot_of read b0 j) (slot_kept read b0 j).
Proof.
  intros Hp0 Hj Hne. unfold add_tail.
  apply inv_then; [slot_step | intros _].
  apply inv_then; [slot_step | intros _].
  apply inv_then; [slot_step | intros _].
  apply inv_then; [apply inv_when; intros _; slot_step | intros _].
  apply inv_then; [slot_step | intros _].
  intros s [Hs _]. rewrite advance_eq.
  destruct (pos s + 1 =? buffer_size s); rewrite <- Hs; reflexivity.
Qed.

End Frame.

Section FrameReplayBuffer.
Context {Obs Act X : Type} (read : list (list Obs) -> X).
Implicit Types b s : Buffer (list (list Obs)) Act.

Lemma rb_add_slot_kept b0 j obs next_obs action reward done infos truth_mask r b' :
  wf b0 -> 0 <= j -> j <> pos b0 -> blind_to_writes read b0 ->
  ReplayBuffer.add obs next_obs action reward done infos truth_mask b0 = (r, b') ->
  slot_of read b' j = slot_of read b0 j.
Proof.
  intros Hwf Hj Hne Hread Hadd.
  destruct Hwf as [W1 _ W3 _ _].
  assert (Hobs : forall i row,
            (i = pos b0 \/
             (optimize_memory_usage b0 = true /\ i = (pos b0 + 1) mod buffer_size b0)) ->
            inv (slot_kept read b0 j)
              (assign (Act:=Act) observations set_observations i row)).
  { intros i row Hi. apply assign_inv. intros s a [Hs Hp] Ha. split; [|exact Hp].
    rewrite <- Hs. unfold slot_of, shared_slot. simpl.
    rewrite (Hread _ _ _ _ _ Hi Ha). reflexivity. }
  assert (H : hoare (slot_kept read b0 j)
            (action' <- lift (reshape_rows (Z.to_nat (n_envs b0)) action) ;;
             assign observations set_observations (pos b0) obs ;;
             (if optimize_memory_usage b0
              then i <- lift (Py.mod_ (pos b0 + 1) (buffer_size b0)) ;;
                   assign observations set_observations i next_obs
              else ReplayBuffer.assign_next_observations (pos b0) next_obs) ;;
             add_tail b0 action' reward done infos truth_mask)
            (fun _ s => slot_of read s j = slot_of read b0 j) (slot_kept read b0 j)).
  { apply inv_then; [apply inv_lift | intros action'].
    apply inv_then; [apply Hobs; left; reflexivity | intros _].
    apply inv_then.
    - destruct (optimize_memory_usage b0) eqn:Eopt.
      + apply inv_lift_bind. intros i Hi. apply py_mod_Ok in Hi. destruct Hi as [_ ->].
        apply Hobs. right. split; reflexivity.
      + intros s [Hs Hp].
        unfold ReplayBuffer.assign_next_observations, bind, get, lift, modify, raise.
        destruct (next_observations s) as [a|] eqn:En; [|split; assumption].
        destruct (setrow _ _ _ _) as [a'|e] eqn:Ea; [|split; assumption].
        split; [|exact Hp]. rewrite <- Hs. unfold slot_of, shared_slot. simpl.
        rewrite En. simpl. rewrite (Hread _ _ _ _ _ (or_introl eq_refl) Ea). reflexivity.
    - intros _. apply add_tail_slot_kept; [lia | exact Hj | exact Hne]. }
  pose proof (H b0 (conj eq_refl eq_refl)) as Hout.
  change (match ReplayBuffer.add obs next_obs action reward done infos truth_mask b0 with
          | (Ok _, s') => slot_of read s' j = slot_of read b0 j
          | (Raise _, s') => slot_kept read b0 j s'
          end) in Hout.
  rewrite Hadd in Hout. destruct r; [exact Hout | apply Hout].
Qed.

End FrameReplayBuffer.

Section FrameDictReplayBuffer.
Context {Obs Act : Type}.
Implicit Types b s : Buffer (gmap string (list (list Obs))) Act.

Lemma read_key_insert j key0 key (d : gmap string (list (list Obs))) a a' :
  d !! key = Some a -> getitem a' j = getitem a j ->
  read_key j key0 (<[key := a']> d) = read_key j key0 d.
Proof.
  intros Hd Ha. unfold read_key. destruct (decide (key = key0)) as [->|Hk].
  - rewrite lookup_insert_eq, Hd. simpl. rewrite Ha. reflexivity.
  - rewrite lookup_insert_ne by exact Hk. reflexivity.
Qed.

Lemma dict_getitem_Ok {V} (d : gmap string V) key v :
  dict_getitem d key = Ok v -> d !! key = Some v.
Proof. unfold dict_getitem. destruct (d !! key); intros H; inversion H; reflexivity. Qed.

Lemma db_add_slot_kept b0 j key0 obs next_obs action reward done infos truth_mask r b' :
  wf b0 -> 0 <= j -> j <> pos b0 ->
  DictReplayBuffer.add obs next_obs action reward done infos truth_mask b0 = (r, b') ->
  slot_of (read_key j key0) b' j = slot_of (read_key j key0) b0 j.
Proof.
  intros Hwf Hj Hne Hadd.
  destruct Hwf as [W1 _ W3 _ _].
  assert (H : hoare (slot_kept (read_key j key0) b0 j)
            (for_each (DictReplayBuffer.keys (observations b0))
               (DictReplayBuffer.assign_obs obs) ;;
             nkeys <- lift (match next_observations b0 with
                            | Some nobs => Ok (DictReplayBuffer.keys nobs)
                            | None => Raise (AttributeError "next_observations")
                            end) ;;
             for_each nkeys (DictReplayBuffer.assign_next_obs next_obs) ;;
             action' <- lift (reshape_rows (Z.to_nat (n_envs b0)) action) ;;
             add_tail b0 action' reward done infos truth_mask)
            (fun _ s => slot_of (read_key j key0) s j = slot_of (read_key j key0) b0 j)
            (slot_kept (read_key j key0) b0 j)).
  { apply inv_then; [apply inv_for_each; intros key | intros _].
    { intros s [Hs Hp]. unfold DictReplayBuffer.assign_obs, bind, get, lift, modify.
      destruct (dict_getitem obs key) as [row|]; [|split; assumption].
      destruct (dict_getitem (observations s) key) as [a|] eqn:Ed; [|split; assumption].
      destruct (setrow _ _ _ _) as [a'|] eqn:Ea; [|split; assumption].
      split; [|exact Hp]. rewrite <- Hs. unfold slot_of, shared_slot. simpl.
      rewrite Hp in Ea.
      rewrite (read_key_insert j key0 key _ a a' (dict_getitem_Ok _ _ _ Ed)
                 (getitem_setrow_other _ _ _ _ _ _ (proj1 W3) Hj Hne Ea)).
      reflexivity. }
    apply inv_then; [apply inv_lift | intros nkeys].
    apply inv_then; [apply inv_for_each; intros key | intros _].
    { intros s [Hs Hp]. unfold DictReplayBuffer.assign_next_obs, bind, get, lift, modify, raise.
      destruct (next_observations s) as [nobs|] eqn:En; [|split; assumption].
      destruct (dict_getitem next_obs key) as [row|]; [|split; assumption].
      destruct (dict_getitem nobs key) as [a|] eqn:Ed; [|split; assumption].
      destruct (setrow _ _ _ _) as [a'|] eqn:Ea; [|split; assumption].
      split; [|exact Hp]. rewrite <- Hs. unfold slot_of, shared_slot. simpl.
      rewrite Hp in Ea. rewrite En. simpl.
      rewrite (read_key_insert j key0 key _ a a' (dict_getitem_Ok _ _ _ Ed)
                 (getitem_setrow_other _ _ _ _ _ _ (proj1 W3) Hj Hne Ea)).
      reflexivity. }
    apply inv_then; [apply inv_lift | intros action'].
    apply add_tail_slot_kept; [lia | exact Hj | exact Hne]. }
  pose proof (H b0 (conj eq_refl eq_refl)) as Hout.
  change (match DictReplayBuffer.add obs next_obs action reward done infos truth_mask b0 with
          | (Ok _, s') => slot_of (read_key j key0) s' j = slot_of (read_key j key0) b0 j
          | (Raise _, s') => slot_kept (read_key j key0) b0 j s'
          end) in Hout.
  rewrite Hadd in Hout. destruct r; [exact Hout | apply Hout].
Qed.

End FrameDictReplayBuffer.

(** ** What a returning [add] stores *)

Section Stores.
Context {O Act : Type}.
Implicit Types b s : Buffer O Act.


End Stores.

Section StoresReplayBuffer.
Context {Obs Act : Type}.
Implicit Types b s : Buffer (list (list Obs)) Act.


End StoresReplayBuffer.

(** ** Reading a stored transition back *)




Section CallsFacts.
Context {O Act X : Type}.
Variable step : Buffer O Act -> result unit -> Buffer O Act -> Prop.
Variable read : O -> X.
Variable p : Z.
Hypothesis step_post : forall b r b', wf b -> step b r b' -> add_post b (r, b').
Hypothesis step_kept : forall b r b',
  wf b -> optimize_memory_usage b = false -> pos b <> p -> step b r b' ->
  slot_of read b' p = slot_of read b p.




End CallsFacts.


Section ReadBack.
Context {Obs Act : Type}.
Implicit Types b : Buffer (list (list Obs)) Act.




End ReadBack.

(** ** The same for dict observations *)


Section Dict.
Context {Obs Act : Type}.
Implicit Types b s : Buffer (gmap string (list (list Obs))) Act.


Lemma assign_obs_Ok obs key s u s' :
  DictReplayBuffer.assign_obs obs key s = (Ok u, s') ->
  exists row a a',
    obs !! key = Some row /\ observations s !! key = Some a /\
    setrow (Z.to_nat (n_envs s)) a (pos s) row = Ok a' /\
    s' = set_observations (<[key := a']> (observations s)) s.
Proof.
  unfold DictReplayBuffer.assign_obs, bind, get, lift, modify. intros H.
  destruct (dict_getitem obs key) as [row|] eqn:Er; [|discriminate].
  destruct (dict_getitem (observations s) key) as [a|] eqn:Ea; [|discriminate].
  destruct (setrow _ _ _ _) as [a'|] eqn:Es; [|discriminate].
  inversion H; subst. exists row, a, a'.
  split; [apply dict_getitem_Ok, Er|]. split; [apply dict_getitem_Ok, Ea|]. auto.
Qed.

Lemma assign_next_obs_Ok next_obs key s u s' :
  DictReplayBuffer.assign_next_obs next_obs key s = (Ok u, s') ->
  exists nobs row a a',
    next_observations s = Some nobs /\
    next_obs !! key = Some row /\ nobs !! key = Some a /\
    setrow (Z.to_nat (n_envs s)) a (pos s) row = Ok a' /\
    s' = set_next_observations (<[key := a']> nobs) s.
Proof.
  unfold DictReplayBuffer.assign_next_obs, bind, get, lift, modify, raise. intros H.
  destruct (next_observations s) as [nobs|] eqn:En; [|discriminate].
  destruct (dict_getitem next_obs key) as [row|] eqn:Er; [|discriminate].
  destruct (dict_getitem nobs key) as [a|] eqn:Ea; [|discriminate].
  destruct (setrow _ _ _ _) as [a'|] eqn:Es; [|discriminate].
  inversion H; subst. exists nobs, row, a, a'.
  split; [reflexivity|].
  split; [apply dict_getitem_Ok, Er|]. split; [apply dict_getitem_Ok, Ea|]. auto.
Qed.





End Dict.

(** ** The keys of the stored dicts *)

Lemma mapM_fst {S A B C} (f : C * A -> M S (C * B)) (l : list (C * A)) s l' s' :
  (forall x s y s', f x s = (Ok y, s') -> fst y = fst x) ->
  mapM f l s = (Ok l', s') -> l'.*1 = l.*1.
Proof.
  intros Hf. revert s l'. induction l as [|x l IH]; simpl; intros s l' H.
  - inversion H. reflexivity.
  - apply bind_Ok in H. destruct H as (y & s1 & Hy & H).
    apply bind_Ok in H. destruct H as (ys & s2 & Hys & H). inversion H; subst.
    rewrite !fmap_cons, (Hf _ _ _ _ Hy), (IH _ _ Hys). reflexivity.
Qed.

Lemma list_to_map_keys {A} (l : list (string * A)) key :
  is_Some ((list_to_map l : gmap string A) !! key) <-> key ∈ l.*1.
Proof.
  destruct (list_to_map l !! key) as [x|] eqn:E.
  - split; [intros _ | eauto].
    apply elem_of_list_to_map_2 in E. apply list_elem_of_fmap. exists (key, x). auto.
  - split; [intros [x Hx]; discriminate|].
    intros Hin. apply not_elem_of_list_to_map in E. contradiction.
Qed.

Lemma same_keys_insert {A B} (d : gmap string A) (d' : gmap string B) key a :
  is_Some (d !! key) -> same_keys d d' -> same_keys (<[key := a]> d) d'.
Proof.
  intros Hk Hs key'. rewrite <- (Hs key'). destruct (decide (key = key')) as [<-|Hne].
  - rewrite lookup_insert_eq. split; eauto.
  - rewrite lookup_insert_ne by exact Hne. reflexivity.
Qed.

Section Keys.
Context {Obs Act : Type} `{!Cell Obs} `{!Cell Act}.
Implicit Types b s : Buffer (gmap string (list (list Obs))) Act.

Lemma zeros_dict_keys buffer_size0 n_envs0 shapes h (d : gmap string (list (list Obs))) h' :
  DictReplayBuffer.zeros_dict buffer_size0 n_envs0 shapes h = (Ok d, h') ->
  same_keys d shapes.
Proof.
  unfold DictReplayBuffer.zeros_dict. intros H.
  apply bind_Ok in H. destruct H as (kvs & h1 & Hkvs & H). inversion H; subst; clear H.
  apply mapM_fst in Hkvs.
  - intros key. rewrite list_to_map_keys, Hkvs. apply elem_of_keys.
  - intros x s y s' Hx. apply bind_Ok in Hx. destruct Hx as (a & s1 & _ & Hx).
    inversion Hx. reflexivity.
Qed.

Lemma db_init_keys buffer_size0 shapes action_dim action_n n_envs0 opt handle h b h' :
  DictReplayBuffer.__init__ buffer_size0 (ShapeDict shapes) action_dim action_n n_envs0
    opt handle h = (Ok b, h') ->
  db_keys shapes b.
Proof.
  unfold DictReplayBuffer.__init__. intros H.
  apply bind_Ok in H. destruct H as (q & s & Hq & H).
  apply lift_Ok in Hq. destruct Hq as [Hq ->].
  destruct opt; [discriminate|].
  apply bind_Ok in H. destruct H as (o & h1 & Ho & H).
  apply bind_Ok in H. destruct H as (no & h2 & Hno & H).
  inv_Ok H. inversion H; subst; clear H. split; simpl.
  - eapply zeros_dict_keys, Ho.
  - eexists. split; [reflexivity|]. eapply zeros_dict_keys, Hno.
Qed.

Lemma db_add_keys {A} (d : gmap string A) obs next_obs action reward done infos truth_mask :
  inv (db_keys d)
    (DictReplayBuffer.add (Obs:=Obs) (Act:=Act)
       obs next_obs action reward done infos truth_mask).
Proof.
  assert (Hassign : forall B (arr : Buffer _ Act -> list (list B)) set_arr i row,
            (forall s a, observations (set_arr a s) = observations s /\
                         next_observations (set_arr a s) = next_observations s) ->
            inv (db_keys d) (assign arr set_arr i row)).
  { intros B arr set_arr i row Hset. apply assign_inv. intros s a Hs _.
    destruct (Hset s a) as [E1 E2]. unfold db_keys. rewrite E1, E2. exact Hs. }
  intros b Hb.
  assert (H : hoare (db_keys d)
            (for_each (DictReplayBuffer.keys (observations b))
               (DictReplayBuffer.assign_obs obs) ;;
             nkeys <- lift (match next_observations b with
                            | Some nobs => Ok (DictReplayBuffer.keys nobs)
                            | None => Raise (AttributeError "next_observations")
                            end) ;;
             for_each nkeys (DictReplayBuffer.assign_next_obs next_obs) ;;
             action' <- lift (reshape_rows (Z.to_nat (n_envs b)) action) ;;
             add_tail b action' reward done infos truth_mask)
            (fun _ => db_keys d) (db_keys d)).
  { apply inv_bind; [apply inv_for_each; intros key | intros _].
    { intros s Hs. destruct (DictReplayBuffer.assign_obs obs key s) as [[u|e] s'] eqn:E.
      - apply assign_obs_Ok in E. destruct E as (row & a & a' & _ & Ha & _ & ->).
        destruct Hs as [H1 H2]. split; [|exact H2]. simpl.
        apply same_keys_insert; eauto.
      - revert E. unfold DictReplayBuffer.assign_obs, bind, get, lift, modify.
        destruct (dict_getitem obs key); [|intros E; inversion E; subst; exact Hs].
        destruct (dict_getitem (observations s) key);
          [|intros E; inversion E; subst; exact Hs].
        destruct (setrow _ _ _ _); intros E; inversion E; subst; exact Hs. }
    apply inv_bind; [apply inv_lift | intros nkeys].
    apply inv_bind; [apply inv_for_each; intros key | intros _].
    { intros s Hs.
      destruct (DictReplayBuffer.assign_next_obs next_obs key s) as [[u|e] s'] eqn:E.
      - apply assign_next_obs_Ok in E.
        destruct E as (nobs & row & a & a' & Hn & _ & Ha & _ & ->).
        destruct Hs as [H1 (nobs' & Hn' & H2)]. split; [exact H1|]. simpl.
        eexists. split; [reflexivity|].
        rewrite Hn in Hn'. inversion Hn'; subst nobs'.
        apply same_keys_insert; eauto.
      - revert E. unfold DictReplayBuffer.assign_next_obs, bind, get, lift, modify, raise.
        destruct (next_observations s); [|intros E; inversion E; subst; exact Hs].
        destruct (dict_getitem next_obs key); [|intros E; inversion E; subst; exact Hs].
        destruct (dict_getitem g key); [|intros E; inversion E; subst; exact Hs].
        destruct (setrow _ _ _ _); intros E; inversion E; subst; exact Hs. }
    apply inv_bind; [apply inv_lift | intros action'].
    unfold add_tail.
    apply inv_bind; [apply Hassign; intros; split; reflexivity | intros _].
    apply inv_bind; [apply Hassign; intros; split; reflexivity | intros _].
    apply inv_bind; [apply Hassign; intros; split; reflexivity | intros _].
    apply inv_bind; [apply inv_when; intros _; apply Hassign; intros; split; reflexivity
                    | intros _].
    apply inv_bind; [apply Hassign; intros; split; reflexivity | intros _].
    intros s Hs. rewrite advance_eq. destruct (_ =? _); exact Hs. }
  exact (H b Hb).
Qed.


End Keys.

Section DictReadBack.
Context {Obs Act : Type}.
Implicit Types b : Buffer (gmap string (list (list Obs))) Act.






End DictReadBack.

Lemma ex_rbn0_reachable : rb_reachable ex_rbn0.
Proof.
  eapply (rb_init 5 (ShapeTuple []) 1 3 2 false true []). vm_compute. reflexivity.
Qed.

Lemma ex_rbn0_add :
  ReplayBuffer.add [10; 20] [11; 21] [1; 2] [one; zero] [true; false]
    [∅; {[ "TimeLimit.truncated"%string := true ]}]
    [[one; zero; zero]; [zero; zero; one]] ex_rbn0
  = (Ok tt, ex_rbn1).
Proof. vm_compute. reflexivity. Qed.


Section SlotTheorems.
Context {Obs Act : Type} `{!Cell Obs} `{!Cell Act}.


(** X2.  A call of [add] writes one slot only.  Whether it returns or
    raises, every slot [j] other than the write pointer keeps its
    observation, next observation, action, reward, done flag, timeout flag
    and mask; with the memory optimisation on, the observation of the
    successor slot [(pos + 1) % buffer_size] is the one exception (it
    receives [next_obs]), while the other arrays of that slot are kept
    too.  Indices out of range read as the same error before and after. *)
Theorem X2_add_writes_one_slot :
  (forall (b : Buffer (list (list Obs)) Act)
          obs next_obs action reward done infos truth_mask r b' j,
     rb_reachable b ->
     ReplayBuffer.add obs next_obs action reward done infos truth_mask b = (r, b') ->
     0 <= j -> j <> pos b ->
     (optimize_memory_usage b = true -> j <> (pos b + 1) mod buffer_size b) ->
     rb_slot b' j = rb_slot b j) /\
  (forall (b : Buffer (list (list Obs)) Act)
          obs next_obs action reward done infos truth_mask r b' j,
     rb_reachable b ->
     ReplayBuffer.add obs next_obs action reward done infos truth_mask b = (r, b') ->
     0 <= j -> j <> pos b ->
     shared_slot b' j = shared_slot b j) /\
  (forall (b : Buffer (gmap string (list (list Obs))) Act)
          obs next_obs action reward done infos truth_mask r b' j key,
     db_reachable b ->
     DictReplayBuffer.add obs next_obs action reward done infos truth_mask b = (r, b') ->
     0 <= j -> j <> pos b ->
     db_slot b' j key = db_slot b j key).
Proof.
  split; [|split].
  - intros b obs next_obs action reward done infos truth_mask r b' j Hreach Hadd Hj Hne Hsucc.
    pose proof (rb_reachable_wf b Hreach) as Hwf. unfold rb_slot.
    eapply rb_add_slot_kept; [exact Hwf | exact Hj | exact Hne | | exact Hadd].
    intros n a i row a' Hi Hset.
    eapply getitem_setrow_other; [| exact Hj | | exact Hset].
    + destruct Hi as [->|[_ ->]]; [apply Hwf|].
      apply Z.mod_pos_bound. destruct Hwf. lia.
    + destruct Hi as [->|[Hopt ->]]; [exact Hne | apply Hsucc, Hopt].
  - intros b obs next_obs action reward done infos truth_mask r b' j Hreach Hadd Hj Hne.
    pose proof (rb_reachable_wf b Hreach) as Hwf.
    pose proof (rb_add_slot_kept (fun _ => tt) b j obs next_obs action reward done infos
                  truth_mask r b' Hwf Hj Hne) as H.
    unfold slot_of in H. apply (f_equal snd) in H; [exact H | | exact Hadd].
    intros n a i row a' _ _. reflexivity.
  - intros b obs next_obs action reward done infos truth_mask r b' j key Hreach Hadd Hj Hne.
    pose proof (db_reachable_wf b Hreach) as Hwf. unfold db_slot.
    eapply db_add_slot_kept; [exact Hwf | exact Hj | exact Hne | exact Hadd].
Qed.



End SlotTheorems.

Lemma X2_witness : rb_slot ex_rbn1 1 = rb_slot ex_rbn0 1.
Proof.
  apply (proj1 (@X2_add_writes_one_slot Z Z _ _) ex_rbn0 _ _ _ _ _ _ _ _ _ 1
           ex_rbn0_reachable ex_rbn0_add).
  - lia.
  - vm_compute. discriminate.
  - vm_compute. discriminate.
Defined.


Lemma ex_db0_init :
  exists h',
    DictReplayBuffer.__init__ 5 (ShapeDict ex_shapes) 1 3 2 false true [] = (Ok ex_db0, h').
Proof. eexists. vm_compute. reflexivity. Qed.



(** ** Every stored row has one entry per environment *)




Section Rowed.
Context {O Act : Type} (PO : nat -> O -> Prop).
Implicit Types b s : Buffer O Act.




End Rowed.

Section RowedReplayBuffer.
Context {Obs Act : Type} `{!Cell Obs} `{!Cell Act}.
Implicit Types b s : Buffer (list (list Obs)) Act.




End RowedReplayBuffer.

Section RowedDictReplayBuffer.
Context {Obs Act : Type} `{!Cell Obs} `{!Cell Act}.
Implicit Types b s : Buffer (gmap string (list (list Obs))) Act.





End RowedDictReplayBuffer.

(** ** Drawing a batch *)





Section SampleDict.
Context {Obs : Type}.



End SampleDict.




Section SampleReplayBuffer.
Context {Obs Act : Type}.
Implicit Types b : Buffer (list (list Obs)) Act.


End SampleReplayBuffer.

Section SampleDictReplayBuffer.
Context {Obs Act : Type}.
Implicit Types b : Buffer (gmap string (list (list Obs))) Act.


End SampleDictReplayBuffer.

Section SampleTheorems.
Context {Obs Act : Type} `{!Cell Obs} `{!Cell Act}.




End SampleTheorems.

Lemma X1_witness :
  pos ex_rb1 = Z.of_nat 1 mod buffer_size ex_rb1 /\
  full ex_rb1 = (buffer_size ex_rb1 <=? Z.of_nat 1).
Proof.
  apply (proj1 (@X1_pointer_counts_returning_adds Z Z _ _) 1%nat ex_rb1).
  eapply rb_after_add; [|exact ex_rb0_add].
  eapply (rb_after_init 5 (ShapeTuple []) 1 3 2 true false []). vm_compute. reflexivity.
Defined.




(** ** When the constructors return *)



Section InitReturns.
Context {Obs Act : Type} `{!Cell Obs} `{!Cell Act}.



End InitReturns.
Section InitReturnsDict.
Context {Obs Act : Type} `{!Cell Obs} `{!Cell Act}.









End InitReturnsDict.

(** ** Dict arguments of [DictReplayBuffer.add] *)




Section DictArguments.
Context {Obs Act : Type} `{!Cell Obs} `{!Cell Act}.
Implicit Types b s : Buffer (gmap string (list (list Obs))) Act.




(** X8.  The keys of a [DictReplayBuffer] never change.  The constructor
    stores, in [observations] and in [next_observations], one array under
    each key of the observation space, and no call of [add], returning or
    raising, adds or removes a key, whatever keys its arguments have. *)
Theorem X8_dict_keys_are_fixed :
  (forall buffer_size0 (shapes : gmap string (list Z)) action_dim action_n n_envs0
          opt handle h b h',
     DictReplayBuffer.__init__ buffer_size0 (ShapeDict shapes) action_dim action_n n_envs0
       opt handle h = (Ok b, h') ->
     db_keys shapes b) /\
  (forall (shapes : gmap string (list Z)) b
          obs next_obs action reward done infos truth_mask r b',
     db_keys shapes b ->
     DictReplayBuffer.add obs next_obs action reward done infos truth_mask b = (r, b') ->
     db_keys shapes b').
Proof.
  split.
  - intros buffer_size0 shapes action_dim action_n n_envs0 opt handle h b h' H.
    eapply db_init_keys, H.
  - intros shapes b obs next_obs action reward done infos truth_mask r b' Hb Hadd.
    pose proof (db_add_keys shapes obs next_obs action reward done infos truth_mask b Hb)
      as Hinv.
    rewrite Hadd in Hinv. destruct r; exact Hinv.
Qed.


End DictArguments.
Lemma ex_db0_keys : db_keys ex_shapes ex_db0.
Proof. destruct ex_db0_init as [h' Hinit]. eapply db_init_keys, Hinit. Qed.

Lemma X8_witness : db_keys ex_shapes ex_db1.
Proof.
  apply (proj2 (@X8_dict_keys_are_fixed Z Z _ _) ex_shapes ex_db0
           (ex_db_obs 10 20) (ex_db_obs 30 40) [1; 2] [one; zero]
           [true; true] [∅; {[ "TimeLimit.truncated"%string := true ]}]
           [[one; zero; zero]; [zero; zero; one]] (Ok tt) ex_db1 ex_db0_keys ex_db0_add).
Defined.

(** ** The next observation under the memory optimisation *)

Section Aliasing.
Context {Obs Act : Type} `{!Cell Obs} `{!Cell Act}.
Implicit Types b : Buffer (list (list Obs)) Act.




End Aliasing.





(** ** The exceptions of [add] *)








Section Safe.
Context {O Act : Type}.
Implicit Types b s : Buffer O Act.


End Safe.

Section SafeReplayBuffer.
Context {Obs Act : Type} `{!Cell Obs} `{!Cell Act}.
Implicit Types b s : Buffer (list (list Obs)) Act.


End SafeReplayBuffer.
Section SafeDictReplayBuffer.
Context {Obs Act : Type} `{!Cell Obs} `{!Cell Act}.
Implicit Types b s : Buffer (gmap string (list (list Obs))) Act.


End SafeDictReplayBuffer.
Section AddErrors.
Context {Obs Act : Type} `{!Cell Obs} `{!Cell Act}.


End AddErrors.


End BufferMoreProofs.

(** * Proofs: further properties of the policy *)

Module PolicyMoreProofs.
Import Policies PolicySpec PolicyMoreSpec PolicyProofs PolicyParameters.

Section PredictMore.
Context {Qv : Type} (leb : Qv -> Qv -> bool) (of_int : Z -> Qv).
Context {Bin Kwargs : Type}.
Context (preprocess_obs : Observation Bin -> bool -> Observation Bin).

Lemma th_where_same_shape mask q_values coef :
  same_shape mask q_values ->
  th_where of_int mask q_values coef
  = Ok (zip_with (masked_row of_int coef) mask q_values).
Proof.
  intros Hshape. unfold th_where.
  rewrite broadcast2_same by (eapply Forall2_length, Hshape). simpl.
  induction Hshape as [|mrow qrow mask q Hlen _ IH]; simpl; [reflexivity|].
  rewrite broadcast2_same by exact Hlen. simpl. rewrite IH. reflexivity.
Qed.

Lemma masked_row_agree coef mrow qrow qrow' :
  length mrow = length qrow -> length mrow = length qrow' ->
  (forall j, mrow !! j = Some 1 -> qrow !! j = qrow' !! j) ->
  masked_row of_int coef mrow qrow = masked_row of_int coef mrow qrow'.
Proof.
  revert qrow qrow'. induction mrow as [|m mrow IH]; intros qrow qrow' H1 H2 Hagree.
  - destruct qrow; [|discriminate]. destruct qrow'; [reflexivity | discriminate].
  - destruct qrow as [|v qrow]; [discriminate|].
    destruct qrow' as [|v' qrow']; [discriminate|].
    unfold masked_row. simpl. f_equal.
    + destruct (m =? 1) eqn:E; [|reflexivity].
      apply Z.eqb_eq in E. subst m.
      specialize (Hagree 0%nat eq_refl). simpl in Hagree. congruence.
    + apply IH; [simpl in H1; lia | simpl in H2; lia |].
      intros j Hj. apply (Hagree (S j) Hj).
Qed.

Lemma masked_agree coef mask q q' :
  same_shape mask q -> same_shape mask q' -> agree_on_legal mask q q' ->
  zip_with (masked_row of_int coef) mask q = zip_with (masked_row of_int coef) mask q'.
Proof.
  intros Hshape. revert q'.
  induction Hshape as [|mrow qrow mask q Hlen _ IH]; intros q' Hshape' Hagree.
  - inversion Hshape'. reflexivity.
  - inversion Hshape' as [|? qrow' ? q'' Hlen' Hrest]; subst. simpl. f_equal.
    + apply masked_row_agree; [exact Hlen | exact Hlen' |].
      intros j Hj. apply (Hagree 0%nat j mrow qrow qrow'); [reflexivity.. | exact Hj].
    + apply IH; [exact Hrest|].
      intros k j mrow0 qrow0 qrow0' Hm Hq Hq'. apply (Hagree (S k) j); assumption.
Qed.

(** X11.  Q-values of masked-out actions never influence the action.  Two
    networks with the same [mask_replace_coef] whose q-values, of the
    shape of the mask, agree at every action whose mask is 1 yield the same
    result of [_predict], returned actions or error, whatever they compute
    for the other actions; the [deterministic] flag is not looked at. *)
Theorem X11_masked_q_values_are_ignored
    (self self' : QNetwork (Qv:=Qv) (Bin:=Bin) (Kwargs:=Kwargs))
    (observation : Observation Bin) deterministic deterministic' :
  mask_replace_coef self = mask_replace_coef self' ->
  same_shape (MASK observation) (forward preprocess_obs self observation) ->
  same_shape (MASK observation) (forward preprocess_obs self' observation) ->
  agree_on_legal (MASK observation) (forward preprocess_obs self observation)
    (forward preprocess_obs self' observation) ->
  _predict leb of_int preprocess_obs self observation deterministic
  = _predict leb of_int preprocess_obs self' observation deterministic'.
Proof.
  intros Hcoef Hshape Hshape' Hagree. unfold _predict.
  rewrite (th_where_same_shape _ _ _ Hshape), (th_where_same_shape _ _ _ Hshape').
  rewrite <- Hcoef. rewrite (masked_agree _ _ _ _ Hshape Hshape' Hagree). reflexivity.
Qed.

(** The order on q-values is total and transitive. *)
Hypothesis leb_total : forall x y, leb x y = true \/ leb y x = true.
Hypothesis leb_trans : forall x y z, leb x y = true -> leb y z = true -> leb x z = true.

Lemma argmax_from_first l : forall pre best best_i,
  pre !! best_i = Some best ->
  (forall j x, pre !! j = Some x -> leb x best = true) ->
  (forall j x, (j < best_i)%nat -> pre !! j = Some x -> leb best x = false) ->
  is_first_argmax leb (pre ++ l) (argmax_from leb best best_i (length pre) l).
Proof.
  induction l as [|x l IH]; intros pre best best_i Hbest Hmax Hfirst; simpl.
  - rewrite app_nil_r. split; [exists best; auto|].
    intros j y v Hj Hy Hv. rewrite Hbest in Hv. inversion Hv; subst v.
    eapply Hfirst; eassumption.
  - replace (pre ++ x :: l) with ((pre ++ [x]) ++ l) by (rewrite <- app_assoc; reflexivity).
    replace (S (length pre)) with (length (pre ++ [x])) by (rewrite length_app; simpl; lia).
    pose proof (lookup_lt_Some _ _ _ Hbest) as Hlt.
    destruct (leb x best) eqn:E.
    + apply IH.
      * apply lookup_app_l_Some, Hbest.
      * intros j y Hj. apply lookup_app_Some in Hj.
        destruct Hj as [Hj|[_ Hj]]; [eapply Hmax, Hj|].
        apply list_lookup_singleton_Some in Hj. destruct Hj as [_ <-]. exact E.
      * intros j y Hj Hy. rewrite lookup_app_l in Hy by lia. eapply Hfirst; eassumption.
    + replace (length pre) with (length pre + 0)%nat at 1 by lia.
      assert (Hbx : leb best x = true) by (destruct (leb_total best x); congruence).
      apply IH.
      * rewrite lookup_app_r by lia.
        replace (length pre + 0 - length pre)%nat with 0%nat by lia. reflexivity.
      * intros j y Hj. apply lookup_app_Some in Hj.
        destruct Hj as [Hj|[_ Hj]]; [eapply leb_trans; [eapply Hmax, Hj | exact Hbx]|].
        apply list_lookup_singleton_Some in Hj. destruct Hj as [_ <-].
        apply (leb_refl leb leb_total).
      * intros j y Hj Hy. rewrite lookup_app_l in Hy by lia.
        destruct (leb x y) eqn:Exy; [|reflexivity].
        rewrite (leb_trans x y best Exy (Hmax j y Hy)) in E. discriminate.
Qed.

Lemma argmax_first row a : argmax leb row = Ok a -> is_first_argmax leb row a.
Proof.
  destruct row as [|x l]; [discriminate|]. simpl. intros H. inversion H; subst.
  apply (argmax_from_first l [x] x 0%nat); [reflexivity | |].
  - intros [|j] y Hj; [|discriminate Hj]. inversion Hj; subst.
    apply (leb_refl leb leb_total).
  - intros j y Hj. lia.
Qed.

(** X12.  Ties go to the lowest action.  The action [_predict] returns for
    a row is the first index at which the masked q-values are maximal:
    every action with a lower index has a strictly smaller masked
    q-value. *)
Theorem X12_predict_returns_first_maximum
    (self : QNetwork (Qv:=Qv) (Bin:=Bin) (Kwargs:=Kwargs))
    (observation : Observation Bin) deterministic actions :
  _predict leb of_int preprocess_obs self observation deterministic = Ok actions ->
  exists masked,
    th_where of_int (MASK observation) (forward preprocess_obs self observation)
      (mask_replace_coef self) = Ok masked /\
    forall k row a, masked !! k = Some row -> actions !! k = Some a ->
      is_first_argmax leb row a.
Proof.
  unfold _predict. intros H.
  apply rbind_Ok in H. destruct H as (masked & Hwhere & H).
  apply rmapM_Ok in H. destruct H as [Hlen Hrows].
  exists masked. split; [exact Hwhere|].
  intros k row a Hrow Ha. destruct (Hrows k row Hrow) as (a' & Harg & Ha').
  rewrite Ha in Ha'. inversion Ha'; subst. apply argmax_first, Harg.
Qed.

End PredictMore.

Lemma X11_witness :
  _predict Z.leb id (fun obs _ => obs) ex_qnet ex_obs true
  = _predict Z.leb id (fun obs _ => obs) ex_qnet' ex_obs false.
Proof.
  apply (X11_masked_q_values_are_ignored Z.leb id (fun obs _ => obs)
           ex_qnet ex_qnet' ex_obs true false).
  - reflexivity.
  - repeat constructor.
  - repeat constructor.
  - intros [|[|k]] j mrow qrow qrow' Hm Hq Hq' Hj;
      [| |discriminate Hm]; inversion Hm; subst; inversion Hq; subst;
      inversion Hq'; subst;
      destruct j as [|[|[|j]]]; try discriminate Hj; reflexivity.
Defined.

Lemma X12_witness :
  exists masked,
    th_where id (MASK ex_obs) (forward (fun obs _ => obs) ex_qnet ex_obs)
      (mask_replace_coef ex_qnet) = Ok masked /\
    forall k row a, masked !! k = Some row -> [0%nat; 2%nat] !! k = Some a ->
      is_first_argmax Z.leb row a.
Proof.
  apply (X12_predict_returns_first_maximum Z.leb id (fun obs _ => obs)
           ltac:(intros x y; rewrite !Z.leb_le; lia)
           ltac:(intros x y z; rewrite !Z.leb_le; lia)
           ex_qnet ex_obs true).
  exact ex_predict.
Defined.

Section ParametersProofs.
Context {Qv Bin Kwargs : Type}.
Implicit Types data : gmap string (pyobj Kwargs).

Lemma bind_keywords_Ok parameters data :
  bind_keywords parameters data = Ok tt <->
  (forall key, is_Some (data !! key) -> key ∈ parameters.*1) /\
  (forall key, (key, false) ∈ parameters -> is_Some (data !! key)).
Proof.
  unfold bind_keywords.
  destruct (forallb _ (map_to_list data).*1) eqn:E1; simpl.
  - destruct (forallb _ parameters) eqn:E2.
    + split; [intros _ | reflexivity]. split.
      * intros key [v Hv]. rewrite forallb_forall in E1.
        assert (Hin : In key (map_to_list data).*1).
        { apply list_elem_of_In, list_elem_of_fmap. exists (key, v).
          split; [reflexivity | apply elem_of_map_to_list, Hv]. }
        apply E1 in Hin. apply bool_decide_eq_true in Hin. exact Hin.
      * intros key Hin. rewrite forallb_forall in E2.
        apply list_elem_of_In in Hin. apply E2 in Hin. simpl in Hin.
        apply bool_decide_eq_true in Hin. exact Hin.
    + split; [discriminate|]. intros [_ Hreq]. exfalso.
      assert (Hall : forallb (fun p => snd p || bool_decide (is_Some (data !! fst p)))
                       parameters = true).
      { apply forallb_forall. intros [key [|]] Hin; [reflexivity|]. simpl.
        apply bool_decide_eq_true. apply Hreq. apply list_elem_of_In, Hin. }
      congruence.
  - split; [discriminate|]. intros [Hkeys _]. exfalso.
    assert (Hall : forallb (fun key => bool_decide (key ∈ parameters.*1))
                     (map_to_list data).*1 = true).
    { apply forallb_forall. intros key Hin. apply bool_decide_eq_true. apply Hkeys.
      apply list_elem_of_In, list_elem_of_fmap in Hin. destruct Hin as ([k v] & -> & Hkv).
      apply elem_of_map_to_list in Hkv. simpl. eauto. }
    congruence.
Qed.

Lemma bind_keywords_cases parameters data :
  bind_keywords parameters data = Ok tt \/ bind_keywords parameters data = Raise TypeError.
Proof. unfold bind_keywords. destruct (_ && _); auto. Qed.

(** X14.  The constructor parameters a policy saves.  The dict of
    [QNetwork._get_constructor_parameters] is accepted as keyword arguments
    by [QNetwork.__init__] whenever the dict of the base class is, and it
    holds the network class, its keyword arguments and the mask
    coefficient of the network.  The dict of
    [DQNPolicy._get_constructor_parameters] holds the key [network_class],
    which is not a parameter of [DQNPolicy.__init__] (the parameter is
    [network]), so calling the constructor with it raises [TypeError],
    whatever the base class contributes; and it does not record
    [mask_replace_coef]. *)
Theorem X14_saved_constructor_parameters :
  (forall data (self : QNetwork (Qv:=Qv) (Bin:=Bin) (Kwargs:=Kwargs)),
     bind_keywords QNetwork_parameters data = Ok tt ->
     bind_keywords QNetwork_parameters (QNetwork_get_constructor_parameters data self)
     = Ok tt) /\
  (forall data (self : QNetwork (Qv:=Qv) (Bin:=Bin) (Kwargs:=Kwargs)),
     let saved := QNetwork_get_constructor_parameters data self in
     saved !! "network_class"%string = Some (ObjClass (network_class self)) /\
     saved !! "network_kwargs"%string = Some (ObjKwargs (network_kwargs self)) /\
     saved !! "mask_replace_coef"%string = Some (ObjInt (mask_replace_coef self))) /\
  (forall data network_class network_kwargs,
     bind_keywords DQNPolicy_parameters
       (DQNPolicy_get_constructor_parameters data network_class network_kwargs)
     = Raise TypeError) /\
  (forall data network_class network_kwargs,
     let saved := DQNPolicy_get_constructor_parameters data network_class network_kwargs in
     saved !! "mask_replace_coef"%string = data !! "mask_replace_coef"%string /\
     saved !! "network"%string = data !! "network"%string).
Proof.
  split; [|split; [|split]].
  - intros data self H. apply bind_keywords_Ok in H. destruct H as [Hkeys Hreq].
    apply bind_keywords_Ok. split.
    + intros key. unfold QNetwork_get_constructor_parameters.
      destruct (decide (key = "mask_replace_coef"%string)) as [->|H1];
        [intros _; apply (bool_decide_unpack _); vm_compute; exact I|].
      rewrite lookup_insert_ne by congruence.
      destruct (decide (key = "network_kwargs"%string)) as [->|H2];
        [intros _; apply (bool_decide_unpack _); vm_compute; exact I|].
      rewrite lookup_insert_ne by congruence.
      destruct (decide (key = "network_class"%string)) as [->|H3];
        [intros _; apply (bool_decide_unpack _); vm_compute; exact I|].
      rewrite lookup_insert_ne by congruence. apply Hkeys.
    + intros key Hin. specialize (Hreq key Hin).
      unfold QNetwork_get_constructor_parameters.
      rewrite !lookup_insert_is_Some'. auto.
  - intros data self. unfold QNetwork_get_constructor_parameters. simpl.
    split; [|split].
    + rewrite !lookup_insert_ne by discriminate. apply lookup_insert_eq.
    + rewrite lookup_insert_ne by discriminate. apply lookup_insert_eq.
    + apply lookup_insert_eq.
  - intros data network_class network_kwargs.
    destruct (bind_keywords_cases DQNPolicy_parameters
                (DQNPolicy_get_constructor_parameters data network_class network_kwargs))
      as [H|H]; [|exact H].
    exfalso. apply bind_keywords_Ok in H. destruct H as [Hkeys _].
    specialize (Hkeys "network_class"%string).
    assert (Hin : ("network_class"%string : string) ∈ (DQNPolicy_parameters).*1).
    { apply Hkeys. unfold DQNPolicy_get_constructor_parameters.
      rewrite lookup_insert_ne by discriminate. rewrite lookup_insert_eq. eauto. }
    apply (bool_decide_pack _) in Hin. vm_compute in Hin. exact Hin.
  - intros data network_class network_kwargs. simpl.
    unfold DQNPolicy_get_constructor_parameters.
    split; rewrite !lookup_insert_ne by discriminate; reflexivity.
Qed.

End ParametersProofs.

Section ConstructionMore.
Context {Qv Bin Kwargs Optimizer : Type}.
Context (leb : Qv -> Qv -> bool) (of_int : Z -> Qv).
Context (preprocess_obs : Observation Bin -> bool -> Observation Bin).
Context (instantiate : NetworkClass -> Kwargs -> result (Bin -> list (list Qv))).
Context (make_optimizer : result Optimizer).

Lemma get_network_from_name_Ok name cls :
  _get_network_from_name name = Ok cls <-> network_aliases !! name = Some cls.
Proof.
  unfold _get_network_from_name, dict_contains, dict_getitem.
  destruct (network_aliases !! name) as [c|] eqn:E.
  - rewrite bool_decide_eq_true_2 by eauto. split; intros H; inversion H; reflexivity.
  - rewrite bool_decide_eq_false_2 by (intros [? ?]; discriminate).
    split; discriminate.
Qed.

Lemma resolve_Ok (network : string + NetworkClass) cls :
  match network with
  | inl name => _get_network_from_name name
  | inr c => Ok c
  end = Ok cls <-> resolves_to network cls.
Proof.
  destruct network as [name|c]; simpl.
  - apply get_network_from_name_Ok.
  - split; intros H; inversion H; reflexivity.
Qed.

(** X13.  What constructing a policy needs and yields.
    [DQNPolicy.__init__] returns exactly when [network] is a class or a
    registered name, [network_kwargs] is a dict, the network class accepts
    it and the optimizer can be set up; the policy then holds that class
    and two networks, [q_net] and [q_net_target], built with the same class,
    keyword arguments, [normalize_images] and [mask_replace_coef], and its
    [_predict] is the one of [q_net] with that coefficient.  With
    [network_kwargs = None], the default, the construction of a [QNetwork]
    raises [TypeError], and so does that of a [DQNPolicy] for every class and
    every registered name. *)
Theorem X13_policy_construction :
  (forall normalize network kwargs coef p,
     DQNPolicy__init__ instantiate make_optimizer normalize network kwargs coef = Ok p <->
     exists cls kw net opt,
       resolves_to network cls /\ kwargs = Some kw /\
       instantiate cls kw = Ok net /\ make_optimizer = Ok opt /\
       p = {| policy_network_class := cls;
              policy_q_net := built_q_net normalize cls kw coef net;
              policy_q_net_target := built_q_net normalize cls kw coef net;
              optimizer := opt |}) /\
  (forall normalize network kwargs coef p obs deterministic,
     DQNPolicy__init__ instantiate make_optimizer normalize network kwargs coef = Ok p ->
     mask_replace_coef (policy_q_net p) = coef /\
     DQNPolicy_predict leb of_int preprocess_obs p obs deterministic
     = _predict leb of_int preprocess_obs (policy_q_net p) obs deterministic) /\
  (forall normalize cls coef,
     QNetwork__init__ instantiate normalize cls None coef = Raise TypeError) /\
  (forall normalize network cls coef,
     resolves_to network cls ->
     DQNPolicy__init__ instantiate make_optimizer normalize network None coef
     = Raise TypeError).
Proof.
  assert (Hiff : forall normalize network kwargs coef p,
     DQNPolicy__init__ instantiate make_optimizer normalize network kwargs coef = Ok p <->
     exists cls kw net opt,
       resolves_to network cls /\ kwargs = Some kw /\
       instantiate cls kw = Ok net /\ make_optimizer = Ok opt /\
       p = {| policy_network_class := cls;
              policy_q_net := built_q_net normalize cls kw coef net;
              policy_q_net_target := built_q_net normalize cls kw coef net;
              optimizer := opt |}).
  { intros normalize network kwargs coef p. unfold DQNPolicy__init__. split.
    - intros H. apply rbind_Ok in H. destruct H as (cls & Hcls & H).
      apply resolve_Ok in Hcls.
      unfold _build, make_q_net, QNetwork__init__ in H.
      destruct kwargs as [kw|]; [|discriminate].
      destruct (instantiate cls kw) as [net|] eqn:Enet; [|discriminate].
      simpl in H. destruct make_optimizer as [opt|] eqn:Eopt; [|discriminate].
      simpl in H. inversion H; subst p.
      exists cls, kw, net, opt. repeat split; assumption.
    - intros (cls & kw & net & opt & Hcls & -> & Hnet & Hopt & ->).
      apply resolve_Ok in Hcls. rewrite Hcls. simpl.
      unfold _build, make_q_net, QNetwork__init__. rewrite Hnet. simpl.
      rewrite Hopt. reflexivity. }
  split; [exact Hiff|]. split; [|split].
  - intros normalize network kwargs coef p obs deterministic H.
    apply Hiff in H. destruct H as (cls & kw & net & opt & _ & _ & _ & _ & ->).
    split; reflexivity.
  - intros normalize cls coef. reflexivity.
  - intros normalize network cls coef Hcls. unfold DQNPolicy__init__.
    apply resolve_Ok in Hcls. rewrite Hcls. reflexivity.
Qed.

End ConstructionMore.

Lemma X13_witness :
  DQNPolicy__init__ (Qv:=Z) (Bin:=unit) (Kwargs:=unit) (Optimizer:=unit)
    (fun _ _ => Ok (fun _ => [[0]])) (Ok tt) false (inl "CnnMlpNetwork2"%string) None (-15)
  = Raise TypeError.
Proof.
  apply (proj2 (proj2 (proj2 (X13_policy_construction (Qv:=Z) (Bin:=unit) (Kwargs:=unit)
           (Optimizer:=unit) Z.leb id (fun obs _ => obs)
           (fun _ _ => Ok (fun _ => [[0]])) (Ok tt))))
           false (inl "CnnMlpNetwork2"%string) CnnMlpNetwork2 (-15)).
  reflexivity.
Defined.

Lemma X14_witness :
  bind_keywords QNetwork_parameters
    (QNetwork_get_constructor_parameters ex_base_parameters ex_qnet) = Ok tt.
Proof.
  apply (proj1 (X14_saved_constructor_parameters (Qv:=Z) (Bin:=unit) (Kwargs:=unit))
           ex_base_parameters ex_qnet).
  vm_compute. reflexivity.
Defined.

End PolicyMoreProofs.

(** * Proofs: further properties of the callback *)

Module CallbackMoreProofs.
Import Callbacks CallbackSpec CallbackMoreSpec CallbackProofs.

(** ** Strings *)

Lemma app_cons a s1 s2 : String a s1 +:+ s2 = String a (s1 +:+ s2).
Proof. reflexivity. Qed.

Lemma app_empty_r s : s +:+ EmptyString = s.
Proof. induction s as [|a s IH]; [reflexivity|]. rewrite app_cons, IH. reflexivity. Qed.

Lemma app_assoc_string s1 s2 s3 : (s1 +:+ s2) +:+ s3 = s1 +:+ (s2 +:+ s3).
Proof.
  induction s1 as [|a s1 IH]; [reflexivity|]. rewrite !app_cons, IH. reflexivity.
Qed.

Lemma rev_app_spec s acc : String.rev_app s acc = String.rev s +:+ acc.
Proof.
  unfold String.rev. revert acc. induction s as [|a s IH]; intros acc; simpl.
  - reflexivity.
  - rewrite (IH (String a acc)), (IH (String a EmptyString)).
    rewrite app_assoc_string. reflexivity.
Qed.

Lemma rev_app_distr s1 s2 : String.rev (s1 +:+ s2) = String.rev s2 +:+ String.rev s1.
Proof.
  assert (H : forall acc, String.rev_app (s1 +:+ s2) acc
                          = String.rev_app s2 (String.rev_app s1 acc)).
  { induction s1 as [|a s1 IH]; intros acc; [reflexivity|].
    rewrite app_cons. simpl. apply IH. }
  unfold String.rev at 1. rewrite H, rev_app_spec. reflexivity.
Qed.

Lemma rev_involutive s : String.rev (String.rev s) = s.
Proof.
  induction s as [|a s IH]; [reflexivity|].
  unfold String.rev at 2. simpl. rewrite rev_app_spec, rev_app_distr, IH. reflexivity.
Qed.

Lemma prefix_app s1 s2 : String.prefix s1 (s1 +:+ s2) = true.
Proof.
  induction s1 as [|a s1 IH]; [destruct s2; reflexivity|].
  rewrite app_cons. simpl. destruct (Ascii.ascii_dec a a); [exact IH | contradiction].
Qed.

Lemma prefix_inv s1 s2 : String.prefix s1 s2 = true -> exists s3, s2 = s1 +:+ s3.
Proof.
  revert s2. induction s1 as [|a s1 IH]; intros s2 H.
  - exists s2. reflexivity.
  - destruct s2 as [|b s2]; [discriminate|]. simpl in H.
    destruct (Ascii.ascii_dec a b) as [->|]; [|discriminate].
    destruct (IH s2 H) as [s3 ->]. exists s3. reflexivity.
Qed.

Lemma endswith_spec s suffix : endswith s suffix = true <-> has_suffix s suffix.
Proof.
  unfold endswith, has_suffix. split.
  - intros H. apply prefix_inv in H. destruct H as [z Hz].
    exists (String.rev z).
    rewrite <- (rev_involutive s), Hz, rev_app_distr, rev_involutive. reflexivity.
  - intros [pre ->]. rewrite rev_app_distr. apply prefix_app.
Qed.

(** ** The file of the callback *)

Section File.
Context (isdir : string -> bool) (realpath : string -> string).

Lemma init_file_name filename ts d r s :
  __init__ isdir realpath filename ts d = (r, s) ->
  file_name (file_handler s) = resolve_filename isdir realpath filename.
Proof.
  intros H.
  destruct (init_file isdir realpath filename ts d) as (s0 & H0 & _).
  rewrite H in H0. inversion H0; subst. clear H0.
  unfold __init__, writeheader, writerow, flush, bind, get, lift, modify in H.
  simpl in H. rewrite header_row_ok in H. simpl in H. inversion H. reflexivity.
Qed.

(** X15.  The name of the metrics file.  [__init__] opens
    [realpath(name)] where [name] always ends with [metrics.csv]: the given
    [filename] itself when it already ends so, [metrics.csv] inside
    [filename] when that is a directory, and [filename.metrics.csv]
    otherwise. *)
Theorem X15_metrics_file_name filename :
  resolve_filename isdir realpath filename = realpath (metrics_path isdir filename) /\
  has_suffix (metrics_path isdir filename) EXT /\
  (has_suffix filename EXT -> metrics_path isdir filename = filename) /\
  (~ has_suffix filename EXT -> isdir filename = true ->
   metrics_path isdir filename = path_join filename EXT) /\
  (~ has_suffix filename EXT -> isdir filename = false ->
   metrics_path isdir filename = filename +:+ "." +:+ EXT) /\
  (forall ts d r s,
     __init__ isdir realpath filename ts d = (r, s) ->
     file_name (file_handler s) = realpath (metrics_path isdir filename)).
Proof.
  assert (Hres : resolve_filename isdir realpath filename
                 = realpath (metrics_path isdir filename)).
  { unfold resolve_filename, metrics_path.
    destruct (endswith filename EXT); simpl; [reflexivity|].
    destruct (isdir filename); reflexivity. }
  split; [exact Hres|]. split; [|split; [|split; [|split]]].
  - unfold metrics_path. destruct (endswith filename EXT) eqn:E.
    + apply endswith_spec, E.
    + destruct (isdir filename).
      * unfold path_join. destruct (_ || _).
        -- exists filename. reflexivity.
        -- exists (filename +:+ "/"). rewrite app_assoc_string. reflexivity.
      * exists (filename +:+ "."). rewrite app_assoc_string. reflexivity.
  - intros H. apply endswith_spec in H. unfold metrics_path. rewrite H. reflexivity.
  - intros H Hdir. unfold metrics_path.
    destruct (endswith filename EXT) eqn:E; [apply endswith_spec in E; contradiction|].
    rewrite Hdir. reflexivity.
  - intros H Hdir. unfold metrics_path.
    destruct (endswith filename EXT) eqn:E; [apply endswith_spec in E; contradiction|].
    rewrite Hdir. reflexivity.
  - intros ts d r s H. rewrite <- Hres. eapply init_file_name, H.
Qed.

End File.

(** ** The logger and the end of the training *)

Lemma logger_value_entry key s :
  exists s',
    logger_value key s = (Ok (logged s key), s') /\
    file_handler s' = file_handler s /\ metrics_logger s' = metrics_logger s /\
    num_timesteps s' = num_timesteps s /\
    forall k, name_to_value s' !! k
              = if decide (k = key) then Some (logged s key) else name_to_value s !! k.
Proof.
  unfold logger_value, logged, bind, get, modify, ret.
  destruct (name_to_value s !! key) as [v|] eqn:E.
  - exists s. repeat split. intros k. destruct (decide (k = key)) as [->|]; [exact E | reflexivity].
  - eexists. split; [reflexivity|]. simpl. repeat split.
    intros k. destruct (decide (k = key)) as [->|Hk].
    + apply lookup_insert_eq.
    + rewrite lookup_insert_ne by congruence. reflexivity.
Qed.

Lemma not_metric_key k :
  k <> "rollout/ep_rew_mean"%string -> k <> "rollout/ep_PE_mean"%string ->
  k <> "rollout/exploration_rate"%string -> k <> "train/loss"%string ->
  k <> "train/n_updates"%string -> k <> "train/learning_rate"%string ->
  bool_decide (k ∈ metric_keys) = false.
Proof.
  intros H1 H2 H3 H4 H5 H6. apply bool_decide_eq_false_2. intros Hin.
  unfold metric_keys in Hin.
  repeat (apply elem_of_cons in Hin; destruct Hin as [Hin|Hin]; [contradiction|]).
  inversion Hin.
Qed.

(** [_on_rollout_end] first reads the logger, then writes one row. *)
Lemma rollout_end_reads s :
  exists s6,
    _on_rollout_end s = (writerow (metrics_dict s) ;; flush) s6 /\
    file_handler s6 = file_handler s /\ metrics_logger s6 = metrics_logger s /\
    num_timesteps s6 = num_timesteps s /\ logger_read s s6.
Proof.
  unfold _on_rollout_end.
  change (bind get ?k s) with (k s s). cbv beta.
  destruct (logger_value_entry "rollout/ep_rew_mean" s) as (s1 & R1 & F1 & M1 & T1 & D1).
  rewrite (bind_run _ _ _ _ _ R1).
  destruct (logger_value_entry "rollout/ep_PE_mean" s1) as (s2 & R2 & F2 & M2 & T2 & D2).
  rewrite (bind_run _ _ _ _ _ R2).
  destruct (logger_value_entry "rollout/exploration_rate" s2)
    as (s3 & R3 & F3 & M3 & T3 & D3).
  rewrite (bind_run _ _ _ _ _ R3).
  destruct (logger_value_entry "train/loss" s3) as (s4 & R4 & F4 & M4 & T4 & D4).
  rewrite (bind_run _ _ _ _ _ R4).
  destruct (logger_value_entry "train/n_updates" s4) as (s5 & R5 & F5 & M5 & T5 & D5).
  rewrite (bind_run _ _ _ _ _ R5).
  destruct (logger_value_entry "train/learning_rate" s5) as (s6 & R6 & F6 & M6 & T6 & D6).
  rewrite (bind_run _ _ _ _ _ R6).
  assert (E2 : logged s1 "rollout/ep_PE_mean" = logged s "rollout/ep_PE_mean")
    by (apply logged_eq; rewrite D1; reflexivity).
  assert (E3 : logged s2 "rollout/exploration_rate" = logged s "rollout/exploration_rate")
    by (apply logged_eq; rewrite D2, D1; reflexivity).
  assert (E4 : logged s3 "train/loss" = logged s "train/loss")
    by (apply logged_eq; rewrite D3, D2, D1; reflexivity).
  assert (E5 : logged s4 "train/n_updates" = logged s "train/n_updates")
    by (apply logged_eq; rewrite D4, D3, D2, D1; reflexivity).
  assert (E6 : logged s5 "train/learning_rate" = logged s "train/learning_rate")
    by (apply logged_eq; rewrite D5, D4, D3, D2, D1; reflexivity).
  exists s6. rewrite E2, E3, E4, E5, E6.
  split; [reflexivity|]. split; [congruence|]. split; [congruence|]. split; [congruence|].
  intros k. rewrite D6, D5, D4, D3, D2, D1, E2, E3, E4, E5, E6.
  destruct (decide (k = "train/learning_rate"%string)) as [->|H6]; [reflexivity|].
  destruct (decide (k = "train/n_updates"%string)) as [->|H5]; [reflexivity|].
  destruct (decide (k = "train/loss"%string)) as [->|H4]; [reflexivity|].
  destruct (decide (k = "rollout/exploration_rate"%string)) as [->|H3]; [reflexivity|].
  destruct (decide (k = "rollout/ep_PE_mean"%string)) as [->|H2]; [reflexivity|].
  destruct (decide (k = "rollout/ep_rew_mean"%string)) as [->|H1]; [reflexivity|].
  rewrite not_metric_key by assumption. reflexivity.
Qed.

Lemma metrics_dict_row s : DictWriter_row fieldnames (metrics_dict s) = Ok (data_row s).
Proof. apply metrics_row_ok. Qed.

Lemma writerow_closed (rowdict : gmap string pyval) row (k : unit -> M State unit) s :
  closed (file_handler s) = true ->
  DictWriter_row (metrics_logger s) rowdict = Ok row ->
  bind (writerow rowdict) k s = (Raise (ValueError closed_file_msg), s).
Proof.
  intros Hc Hrow. unfold writerow, bind, get, lift, modify. rewrite Hrow.
  unfold file_write. rewrite Hc. reflexivity.
Qed.

Section TrainingEnd.
Context (isdir : string -> bool) (realpath : string -> string).

(** X16.  Reading the logger.  [_on_rollout_end] never fails on a metric
    that the logger has not recorded: it writes [0.0] for it, and leaves
    it in the logger with that value.  After the call the logger holds all
    six metrics; the metrics that were recorded, and every other entry,
    are as before, and so is the step counter. *)
Theorem X16_rollout_end_reads_the_logger s rows r s' :
  running isdir realpath s rows ->
  _on_rollout_end s = (r, s') ->
  r = Ok tt /\ logger_read s s' /\ num_timesteps s' = num_timesteps s /\
  (forall k v, name_to_value s !! k = Some v -> name_to_value s' !! k = Some v) /\
  (forall k, k ∈ metric_keys -> name_to_value s !! k = None ->
     name_to_value s' !! k = Some zero64) /\
  flushed (file_handler s') = flushed (file_handler s) ++ [data_row s].
Proof.
  intros Hrun Hend. apply running_file in Hrun. destruct Hrun as (Hf & Hb & Hc & Hm).
  destruct (rollout_end_reads s) as (s6 & Heq & F6 & M6 & T6 & D6).
  rewrite Heq in Hend.
  destruct (writerow_flush (metrics_dict s) (data_row s) s6)
    as (s0 & Hrun & Hf' & Hb' & Hc' & Hm' & Ht' & Hn').
  { rewrite F6. exact Hc. }
  { rewrite M6, Hm. apply metrics_dict_row. }
  rewrite Hrun in Hend. inversion Hend; subst r s0. clear Hend.
  assert (Hread : logger_read s s') by (intros k; rewrite Hn'; apply D6).
  split; [reflexivity|]. split; [exact Hread|]. split; [congruence|]. split; [|split].
  - intros k v Hk. rewrite Hread. unfold logged. rewrite Hk.
    destruct (bool_decide _); reflexivity.
  - intros k Hin Hk. rewrite Hread. rewrite bool_decide_eq_true_2 by exact Hin.
    unfold logged. rewrite Hk. reflexivity.
  - rewrite Hf', F6, Hb. reflexivity.
Qed.

(** X17.  The end of the training.  [_on_training_end] closes the file
    with the header and every row written so far in it and nothing left in
    its buffer; calling it again changes nothing.  Once the file is closed,
    [_on_rollout_end] raises the [ValueError] of a write to a closed file,
    after it has read the logger, and the content of the file stays as it
    was at the end of the training. *)
Theorem X17_training_end_closes_the_file s rows :
  running isdir realpath s rows ->
  exists s1,
    _on_training_end s = (Ok tt, s1) /\
    flushed (file_handler s1) = header_row :: rows /\
    buffered (file_handler s1) = [] /\
    closed (file_handler s1) = true /\
    _on_training_end s1 = (Ok tt, s1) /\
    forall ts d,
      exists s2,
        _on_rollout_end (host_update ts d s1)
        = (Raise (ValueError closed_file_msg), s2) /\
        file_handler s2 = file_handler s1 /\
        logger_read (host_update ts d s1) s2.
Proof.
  intros Hrun. apply running_file in Hrun. destruct Hrun as (Hf & Hb & Hc & Hm).
  eexists. split; [reflexivity|]. simpl.
  rewrite Hf, Hb, app_nil_r.
  split; [reflexivity|]. split; [reflexivity|]. split; [reflexivity|]. split.
  - unfold _on_training_end, modify, set_file_handler, file_close. simpl.
    rewrite app_nil_r. reflexivity.
  - intros ts d.
    match goal with
    | |- context [host_update ts d ?st] => set (s1 := st)
    end.
    destruct (rollout_end_reads (host_update ts d s1)) as (s6 & Heq & F6 & M6 & T6 & D6).
    exists s6. rewrite Heq.
    split; [|split; [exact F6 | exact D6]].
    apply (writerow_closed _ (data_row (host_update ts d s1))).
    + rewrite F6. reflexivity.
    + rewrite M6. simpl. rewrite Hm. apply metrics_dict_row.
Qed.

End TrainingEnd.

Lemma ex_cb0_running : running (fun _ => false) (fun path => path) ex_cb0 [].
Proof.
  apply (run_init _ _ "run1"%string 2048 {[ "train/n_updates"%string := PyInt 4 ]}
           (fst (__init__ (fun _ => false) (fun path => path) "run1" 2048
                   {[ "train/n_updates"%string := PyInt 4 ]}))
           ex_cb0).
  apply surjective_pairing.
Qed.

Lemma ex_cb1_running :
  running (fun _ => false) (fun path => path) ex_cb1 ([] ++ [data_row ex_cb0]).
Proof.
  apply (run_rollout_end _ _ ex_cb0 [] (fst (_on_rollout_end ex_cb0)) ex_cb1);
    [exact ex_cb0_running | apply surjective_pairing].
Qed.

Lemma X15_witness :
  metrics_path (fun _ => false) "run1" = ("run1" +:+ "." +:+ EXT)%string.
Proof.
  apply (proj1 (proj2 (proj2 (proj2 (proj2
           (X15_metrics_file_name (fun _ => false) (fun path => path) "run1"))))));
    [|reflexivity].
  intros H. apply endswith_spec in H. vm_compute in H. discriminate H.
Defined.

Lemma X16_witness :
  fst (_on_rollout_end ex_cb0) = Ok tt /\ logger_read ex_cb0 ex_cb1 /\
  num_timesteps ex_cb1 = num_timesteps ex_cb0 /\
  (forall k v, name_to_value ex_cb0 !! k = Some v -> name_to_value ex_cb1 !! k = Some v) /\
  (forall k, k ∈ metric_keys -> name_to_value ex_cb0 !! k = None ->
     name_to_value ex_cb1 !! k = Some zero64) /\
  flushed (file_handler ex_cb1) = flushed (file_handler ex_cb0) ++ [data_row ex_cb0].
Proof.
  apply (X16_rollout_end_reads_the_logger (fun _ => false) (fun path => path)
           ex_cb0 [] (fst (_on_rollout_end ex_cb0)) ex_cb1 ex_cb0_running).
  apply surjective_pairing.
Defined.

Lemma X17_witness :
  exists s1,
    _on_training_end ex_cb1 = (Ok tt, s1) /\
    flushed (file_handler s1) = header_row :: ([] ++ [data_row ex_cb0]) /\
    buffered (file_handler s1) = [] /\
    closed (file_handler s1) = true /\
    _on_training_end s1 = (Ok tt, s1) /\
    forall ts d,
      exists s2,
        _on_rollout_end (host_update ts d s1)
        = (Raise (ValueError closed_file_msg), s2) /\
        file_handler s2 = file_handler s1 /\
        logger_read (host_update ts d s1) s2.
Proof.
  apply (X17_training_end_closes_the_file (fun _ => false) (fun path => path)
           ex_cb1 ([] ++ [data_row ex_cb0]) ex_cb1_running).
Defined.

End CallbackMoreProofs.
